(** * web_server_ec2.py: job-status tracker, log classifier and bucket listing

    A shallow embedding of the Flask backend [web_server_ec2.py].

    - Python [str] values are byte strings (the UTF-8 encoding); where
      the program counts or strips characters, [PyStr.chars] gives the
      characters of the string.  The case mappings [lower]/[upper] act on
      the ASCII letters; the mappings Python applies to other letters
      never produce a run of ASCII characters that the keyword tests of
      the program look for, so the tests give the same answers.
    - Python [int] is [Z]; the float arithmetic of the progress formula is
      IEEE binary64, computed with the Standard Library's [SpecFloat].
    - An exception is the message [str(e)] carried by [Raise].
    - The module-level globals are the fields of [server_state]. *)

From Stdlib Require Import ZArith List String Ascii Bool Lia.
From Stdlib Require Import Floats.SpecFloat.
From Stdlib Require Numbers.DecimalString.
Import ListNotations.

Local Open Scope string_scope.
Local Open Scope Z_scope.

(* ================================================================== *)
(** ** Python string primitives *)
(* ================================================================== *)

Module PyStr.

(** [c.lower()] for one character. *)
Definition lower_char (c : ascii) : ascii :=
  let n := nat_of_ascii c in
  if (Nat.leb 65 n && Nat.leb n 90)%bool then ascii_of_nat (n + 32) else c.

(** [c.upper()] for one character. *)
Definition upper_char (c : ascii) : ascii :=
  let n := nat_of_ascii c in
  if (Nat.leb 97 n && Nat.leb n 122)%bool then ascii_of_nat (n - 32) else c.

Fixpoint map_chars (f : ascii -> ascii) (s : string) : string :=
  match s with
  | EmptyString => EmptyString
  | String c s' => String (f c) (map_chars f s')
  end.

(** [s.lower()] and [s.upper()]. *)
Definition lower (s : string) : string := map_chars lower_char s.
Definition upper (s : string) : string := map_chars upper_char s.

(** [s.startswith(w)]. *)
Fixpoint startswith (w s : string) : bool :=
  match w, s with
  | EmptyString, _ => true
  | String _ _, EmptyString => false
  | String a w', String b s' => (Ascii.eqb a b && startswith w' s')%bool
  end.

(** [w in s]: substring test, scanning the start positions left to right. *)
Fixpoint contains (w s : string) : bool :=
  match s with
  | EmptyString => startswith w EmptyString
  | String _ s' => (startswith w s || contains w s')%bool
  end.

(** [s.endswith(w)]. *)
Fixpoint endswith (w s : string) : bool :=
  match s with
  | EmptyString => String.eqb w EmptyString
  | String _ s' => (String.eqb w s || endswith w s')%bool
  end.

(** The characters of a string.  A byte from 128 to 191 continues the
    character begun before it, so a character is one byte that is not a
    continuation byte together with the continuation bytes after it. *)
Definition is_continuation (c : ascii) : bool :=
  let n := nat_of_ascii c in (Nat.leb 128 n && Nat.leb n 191)%bool.

Definition continues (s : string) : bool :=
  match s with
  | EmptyString => false
  | String c _ => is_continuation c
  end.

Fixpoint chars (s : string) : list string :=
  match s with
  | EmptyString => []
  | String c s' =>
      match chars s' with
      | h :: t => if continues s' then String c h :: t
                  else String c EmptyString :: h :: t
      | [] => [String c EmptyString]
      end
  end.

Definition join (l : list string) : string := fold_right append EmptyString l.

(** [len(s)], [s[:n]] and [s[n:]] for [n >= 0], counted in characters. *)
Definition len (s : string) : nat := List.length (chars s).
Definition slice_to (n : nat) (s : string) : string := join (firstn n (chars s)).
Definition slice_from (n : nat) (s : string) : string := join (skipn n (chars s)).

(** The characters [str.strip()] removes when it has no argument, those
    for which [str.isspace] holds: U+0009 to U+000D, U+001C to U+0020,
    U+0085, U+00A0, U+1680, U+2000 to U+200A, U+2028, U+2029, U+202F,
    U+205F and U+3000, each given by the bytes of its encoding. *)
Definition is_space (ch : string) : bool :=
  match map nat_of_ascii (list_ascii_of_string ch) with
  | [n] => ((Nat.leb 9 n && Nat.leb n 13) || (Nat.leb 28 n && Nat.leb n 32))%bool
  | [a; n] => (Nat.eqb a 194 && (Nat.eqb n 133 || Nat.eqb n 160))%bool
  | [a; b; n] =>
      ((Nat.eqb a 225 && Nat.eqb b 154 && Nat.eqb n 128)
       || (Nat.eqb a 226 && Nat.eqb b 128
           && ((Nat.leb 128 n && Nat.leb n 138)
               || Nat.eqb n 168 || Nat.eqb n 169 || Nat.eqb n 175))
       || (Nat.eqb a 226 && Nat.eqb b 129 && Nat.eqb n 159)
       || (Nat.eqb a 227 && Nat.eqb b 128 && Nat.eqb n 128))%bool
  | _ => false
  end.

Fixpoint lstrip_chars (p : string -> bool) (l : list string) : list string :=
  match l with
  | [] => []
  | ch :: l' => if p ch then lstrip_chars p l' else l
  end.

Fixpoint rstrip_chars (p : string -> bool) (l : list string) : list string :=
  match l with
  | [] => []
  | ch :: l' =>
      match rstrip_chars p l' with
      | [] => if p ch then [] else [ch]
      | r => ch :: r
      end
  end.

Fixpoint rstrip_by (p : ascii -> bool) (s : string) : string :=
  match s with
  | EmptyString => EmptyString
  | String c s' =>
      match rstrip_by p s' with
      | EmptyString => if p c then EmptyString else String c EmptyString
      | r => String c r
      end
  end.

(** [s.strip()]. *)
Definition strip (s : string) : string :=
  join (rstrip_chars is_space (lstrip_chars is_space (chars s))).

(** [s.rstrip('/')]. *)
Definition rstrip_slash (s : string) : string := rstrip_by (Ascii.eqb "/"%char) s.

(** Truthiness of a string: [bool(s)]. *)
Definition truthy (s : string) : bool :=
  match s with EmptyString => false | _ => true end.

(** [s.replace(old, new)] for a non-empty [old]: non-overlapping
    occurrences, left to right.  [skip] counts the characters of the
    current occurrence still to be passed over. *)
Fixpoint replace_go (old new : string) (skip : nat) (s : string) : string :=
  match s with
  | EmptyString => EmptyString
  | String c s' =>
      match skip with
      | S k => replace_go old new k s'
      | O =>
          if startswith old s
          then new ++ replace_go old new (Nat.pred (String.length old)) s'
          else String c (replace_go old new O s')
      end
  end.

Definition replace (old new s : string) : string := replace_go old new O s.

(** [s.split('/')[-1]]: what follows the last ['/']. *)
Fixpoint last_segment (s : string) : string :=
  match s with
  | EmptyString => EmptyString
  | String c s' =>
      if contains "/" s' then last_segment s'
      else if Ascii.eqb c "/"%char then s' else s
  end.

(** [s.rsplit('.', 1)[0]]: what precedes the last ['.'], the whole string
    when there is none. *)
Fixpoint before_last_dot (s : string) : string :=
  match s with
  | EmptyString => EmptyString
  | String c s' =>
      if contains "." s' then String c (before_last_dot s')
      else if Ascii.eqb c "."%char then EmptyString else s
  end.

(** [str(n)] for an int. *)
Definition of_Z (n : Z) : string :=
  DecimalString.NilEmpty.string_of_int (Z.to_int n).

End PyStr.

(* ================================================================== *)
(** ** Exceptions *)
(* ================================================================== *)

(** The outcome of an expression that may raise: [Raise msg] carries
    [str(e)]. *)
Inductive result (A : Type) : Type :=
| Ok (a : A)
| Raise (msg : string).
Arguments Ok {A} a.
Arguments Raise {A} msg.

Definition bind_result {A B} (r : result A) (k : A -> result B) : result B :=
  match r with
  | Ok a => k a
  | Raise m => Raise m
  end.

(* ================================================================== *)
(** ** Python numbers: true division and float arithmetic *)
(* ================================================================== *)

Module PyNum.

Definition prec : Z := 53.
Definition emax : Z := 1024.

(** The float equal to a small int literal ([15], [65], [80], [95]). *)
Definition float_of_lit (n : Z) : spec_float := binary_normalize prec emax n 0 false.

Definition int_as_float (n : Z) : spec_float :=
  match n with
  | Z0 => S754_zero false
  | Zpos p => S754_finite false p 0
  | Zneg p => S754_finite true p 0
  end.

(** [a / b] on two ints: the correctly rounded quotient;
    [ZeroDivisionError] when [b] is zero, [OverflowError] when the
    quotient is beyond the float range. *)
Definition int_true_div (a b : Z) : result spec_float :=
  if b =? 0 then Raise "division by zero"
  else
    match SFdiv prec emax (int_as_float a) (int_as_float b) with
    | S754_infinity _ => Raise "integer division result too large for a float"
    | q => Ok q
    end.

Definition fmul (x y : spec_float) : spec_float := SFmul prec emax x y.
Definition fadd (x y : spec_float) : spec_float := SFadd prec emax x y.

(** A Python number: the result of [min(x, 80)] is the float [x] or the
    int [80]. *)
Inductive number : Type :=
| PyInt (n : Z)
| PyFloat (x : spec_float).

(** [min(x, cap)] for a float [x] and an int literal [cap]: the second
    argument is returned only when it is strictly smaller. *)
Definition min_float_int (x : spec_float) (cap : Z) : number :=
  if SFltb (float_of_lit cap) x then PyInt cap else PyFloat x.

(** [int(x)] on a float: truncation toward zero. *)
Definition trunc_float (x : spec_float) : result Z :=
  match x with
  | S754_zero _ => Ok 0
  | S754_finite s m e =>
      let a := match e with
               | Z0 => Zpos m
               | Zpos _ => Z.shiftl (Zpos m) e
               | Zneg _ => Z.shiftr (Zpos m) (- e)
               end in
      Ok (if s then - a else a)
  | S754_infinity _ => Raise "cannot convert float infinity to integer"
  | S754_nan => Raise "cannot convert float NaN to integer"
  end.

(** [int(v)]. *)
Definition to_int (v : number) : result Z :=
  match v with
  | PyInt n => Ok n
  | PyFloat x => trunc_float x
  end.

End PyNum.

(* ================================================================== *)
(** ** Global state of the server *)
(* ================================================================== *)

(** [{'timestamp': ..., 'message': ..., 'type': ...}] *)
Record log_entry : Type := mk_log_entry {
  timestamp : string;
  message : string;
  type : string
}.

(** The dict [scraping_stats]. *)
Record scrape_stats : Type := mk_scrape_stats {
  articlesFound : Z;
  articlesSaved : Z;
  imagesFound : Z;
  progress : Z;
  completed : bool;
  sessionId : option string
}.

(** The dict [conversion_stats]; the key [filesConverted] is absent from
    the module-level literal. *)
Record convert_stats : Type := mk_convert_stats {
  cv_completed : bool;
  cv_error : option string;
  cv_targetBucket : option string;
  cv_filesConverted : option Z
}.

(** The dict [summarization_stats]. *)
Record summarize_stats : Type := mk_summarize_stats {
  sm_completed : bool;
  sm_error : option string;
  sm_targetBucket : option string;
  sm_textSummaries : Z;
  sm_imageSummaries : Z;
  sm_totalFolders : Z
}.

(** A [LocalScrapingJob] object ([start_time], [process] and
    [process_thread] are not observed by the modelled code). *)
Record job : Type := mk_job {
  url : string;
  max_articles : Z;
  is_running : bool;
  session_id : string
}.

Record server_state : Type := mk_state {
  scraping_active : bool;
  current_job : option job;
  all_logs : list log_entry;
  scraping_stats : scrape_stats;
  conversion_active : bool;
  conversion_logs : list log_entry;
  conversion_stats : convert_stats;
  summarization_active : bool;
  summarization_logs : list log_entry;
  summarization_stats : summarize_stats
}.

Definition S3_BUCKET_NAME : string := "bockscraper".
Definition S3_TEXT_BUCKET_NAME : string := "bockscraper1".
Definition S3_SUMMARY_BUCKET_NAME : string := "bockscraper2".

(** The stats literal of the module level, also the reset of
    [start_scraping]. *)
Definition fresh_scrape_stats : scrape_stats :=
  mk_scrape_stats 0 0 0 0 false None.

Definition initial_convert_stats : convert_stats :=
  mk_convert_stats false None None None.

Definition fresh_convert_stats : convert_stats :=
  mk_convert_stats false None (Some S3_TEXT_BUCKET_NAME) (Some 0).

Definition fresh_summarize_stats : summarize_stats :=
  mk_summarize_stats false None (Some S3_SUMMARY_BUCKET_NAME) 0 0 0.

(** The globals as the module is loaded. *)
Definition initial_state : server_state :=
  mk_state false None [] fresh_scrape_stats
           false [] initial_convert_stats
           false [] fresh_summarize_stats.

(** Field updates. *)
Definition set_scraping_active (b : bool) (st : server_state) : server_state :=
  mk_state b (current_job st) (all_logs st) (scraping_stats st)
           (conversion_active st) (conversion_logs st) (conversion_stats st)
           (summarization_active st) (summarization_logs st) (summarization_stats st).

Definition set_current_job (j : option job) (st : server_state) : server_state :=
  mk_state (scraping_active st) j (all_logs st) (scraping_stats st)
           (conversion_active st) (conversion_logs st) (conversion_stats st)
           (summarization_active st) (summarization_logs st) (summarization_stats st).

Definition set_all_logs (l : list log_entry) (st : server_state) : server_state :=
  mk_state (scraping_active st) (current_job st) l (scraping_stats st)
           (conversion_active st) (conversion_logs st) (conversion_stats st)
           (summarization_active st) (summarization_logs st) (summarization_stats st).

Definition set_scraping_stats (s : scrape_stats) (st : server_state) : server_state :=
  mk_state (scraping_active st) (current_job st) (all_logs st) s
           (conversion_active st) (conversion_logs st) (conversion_stats st)
           (summarization_active st) (summarization_logs st) (summarization_stats st).

Definition set_conversion_active (b : bool) (st : server_state) : server_state :=
  mk_state (scraping_active st) (current_job st) (all_logs st) (scraping_stats st)
           b (conversion_logs st) (conversion_stats st)
           (summarization_active st) (summarization_logs st) (summarization_stats st).

Definition set_conversion_logs (l : list log_entry) (st : server_state) : server_state :=
  mk_state (scraping_active st) (current_job st) (all_logs st) (scraping_stats st)
           (conversion_active st) l (conversion_stats st)
           (summarization_active st) (summarization_logs st) (summarization_stats st).

Definition set_conversion_stats (s : convert_stats) (st : server_state) : server_state :=
  mk_state (scraping_active st) (current_job st) (all_logs st) (scraping_stats st)
           (conversion_active st) (conversion_logs st) s
           (summarization_active st) (summarization_logs st) (summarization_stats st).

Definition set_summarization_active (b : bool) (st : server_state) : server_state :=
  mk_state (scraping_active st) (current_job st) (all_logs st) (scraping_stats st)
           (conversion_active st) (conversion_logs st) (conversion_stats st)
           b (summarization_logs st) (summarization_stats st).

Definition set_summarization_logs (l : list log_entry) (st : server_state) : server_state :=
  mk_state (scraping_active st) (current_job st) (all_logs st) (scraping_stats st)
           (conversion_active st) (conversion_logs st) (conversion_stats st)
           (summarization_active st) l (summarization_stats st).

Definition set_summarization_stats (s : summarize_stats) (st : server_state) : server_state :=
  mk_state (scraping_active st) (current_job st) (all_logs st) (scraping_stats st)
           (conversion_active st) (conversion_logs st) (conversion_stats st)
           (summarization_active st) (summarization_logs st) s.

Definition set_progress (p : Z) (s : scrape_stats) : scrape_stats :=
  mk_scrape_stats (articlesFound s) (articlesSaved s) (imagesFound s) p
                  (completed s) (sessionId s).

Definition set_articlesFound (n : Z) (s : scrape_stats) : scrape_stats :=
  mk_scrape_stats n (articlesSaved s) (imagesFound s) (progress s)
                  (completed s) (sessionId s).

Definition set_articlesSaved (n : Z) (s : scrape_stats) : scrape_stats :=
  mk_scrape_stats (articlesFound s) n (imagesFound s) (progress s)
                  (completed s) (sessionId s).

Definition set_imagesFound (n : Z) (s : scrape_stats) : scrape_stats :=
  mk_scrape_stats (articlesFound s) (articlesSaved s) n (progress s)
                  (completed s) (sessionId s).

Definition set_completed (b : bool) (s : scrape_stats) : scrape_stats :=
  mk_scrape_stats (articlesFound s) (articlesSaved s) (imagesFound s) (progress s)
                  b (sessionId s).

Definition set_sessionId (i : option string) (s : scrape_stats) : scrape_stats :=
  mk_scrape_stats (articlesFound s) (articlesSaved s) (imagesFound s) (progress s)
                  (completed s) i.

Definition set_is_running (b : bool) (j : job) : job :=
  mk_job (url j) (max_articles j) b (session_id j).

(* ================================================================== *)
(** ** Log buffers *)
(* ================================================================== *)

(** The body shared by the three append functions: [buf.append(entry)],
    then [buf.pop(0)] when [len(buf) > bound]. *)
Definition append_bounded (bound : nat) (buf : list log_entry) (entry : log_entry)
  : list log_entry :=
  let buf' := (buf ++ [entry])%list in
  if Nat.ltb bound (List.length buf') then List.tl buf' else buf'.

Definition SCRAPE_LOG_BOUND : nat := 500.
Definition CONVERSION_LOG_BOUND : nat := 200.
Definition SUMMARIZATION_LOG_BOUND : nat := 300.

(** [add_log(message, log_type)]; [ts] is what
    [datetime.now().strftime("%H:%M:%S")] returns at the call. *)
Definition add_log (ts msg log_type : string) (st : server_state) : server_state :=
  set_all_logs (append_bounded SCRAPE_LOG_BOUND (all_logs st)
                               (mk_log_entry ts msg log_type)) st.

Definition add_conversion_log (ts msg log_type : string) (st : server_state)
  : server_state :=
  set_conversion_logs (append_bounded CONVERSION_LOG_BOUND (conversion_logs st)
                                      (mk_log_entry ts msg log_type)) st.

Definition add_summarization_log (ts msg log_type : string) (st : server_state)
  : server_state :=
  set_summarization_logs (append_bounded SUMMARIZATION_LOG_BOUND (summarization_logs st)
                                         (mk_log_entry ts msg log_type)) st.

(* ================================================================== *)
(** ** The log classifier and the statistics miner *)
(* ================================================================== *)

(** [any(w in line for w in words)] *)
Definition any_in (words : list string) (line : string) : bool :=
  existsb (fun w => PyStr.contains w line) words.

Definition ERROR_WORDS : list string := ["error"; "failed"; "exception"].
Definition SUCCESS_WORDS : list string := ["success"; "saved"; "complete"].
Definition WARNING_WORDS : list string := ["warning"; "filtered"].

(** [LocalScrapingJob._classify_log_line] *)
Definition _classify_log_line (line : string) : string :=
  let line_lower := PyStr.lower line in
  if any_in ERROR_WORDS line_lower then "error"
  else if any_in SUCCESS_WORDS line_lower then "success"
  else if any_in WARNING_WORDS line_lower then "warning"
  else "info".

(** [int(min(base + (count / max_articles) * span, cap))] *)
Definition band_value (base span cap count max_articles : Z) : result Z :=
  bind_result (PyNum.int_true_div count max_articles) (fun q =>
    PyNum.to_int
      (PyNum.min_float_int
         (PyNum.fadd (PyNum.float_of_lit base)
                     (PyNum.fmul q (PyNum.float_of_lit span)))
         cap)).

Definition article_band : Z -> Z -> result Z := band_value 15 65 80.
Definition image_band : Z -> Z -> result Z := band_value 80 15 95.

Definition is_article_line (line : string) : bool :=
  (PyStr.contains "SAVED:" line && PyStr.contains "article.json" line)%bool.

Definition is_image_line (line : string) : bool :=
  (PyStr.contains "SUCCESS: Saved" line && PyStr.contains "image.jpg" line)%bool.

Definition is_complete_line (line : string) : bool :=
  PyStr.contains "COMPLETE" (PyStr.upper line).

(** The three [if] blocks of [_update_stats_from_log].  Each returns the
    statistics as they stand when the block ends, with the exception
    raised inside it, if any: the two counter assignments of the first
    block precede the division that may raise. *)
Definition article_step (max_articles : Z) (line : string) (s : scrape_stats)
  : scrape_stats * option string :=
  if is_article_line line then
    let s1 := set_articlesFound (articlesFound s + 1) s in
    let s2 := set_articlesSaved (articlesFound s1) s1 in
    match article_band (articlesFound s2) max_articles with
    | Ok v => (set_progress (Z.max (progress s2) v) s2, None)
    | Raise e => (s2, Some e)
    end
  else (s, None).

Definition image_step (max_articles : Z) (line : string) (s : scrape_stats)
  : scrape_stats * option string :=
  if is_image_line line then
    let s1 := set_imagesFound (imagesFound s + 1) s in
    match image_band (imagesFound s1) max_articles with
    | Ok v => (set_progress (Z.max (progress s1) v) s1, None)
    | Raise e => (s1, Some e)
    end
  else (s, None).

Definition complete_step (line : string) (s : scrape_stats) : scrape_stats :=
  if is_complete_line line then set_progress 100 s else s.

(** [LocalScrapingJob._update_stats_from_log] *)
Definition _update_stats_from_log (max_articles : Z) (line : string) (s : scrape_stats)
  : scrape_stats * option string :=
  match article_step max_articles line s with
  | (s1, Some e) => (s1, Some e)
  | (s1, None) =>
      match image_step max_articles line s1 with
      | (s2, Some e) => (s2, Some e)
      | (s2, None) => (complete_step line s2, None)
      end
  end.

(* ================================================================== *)
(** ** HTTP endpoints *)
(* ================================================================== *)

(** The values handed to [jsonify]. *)
#[local] Unset Elimination Schemes.
Inductive json : Type :=
| JNull
| JBool (b : bool)
| JInt (n : Z)
| JStr (s : string)
| JArr (items : list json)
| JObj (fields : list (string * json)).
#[local] Set Elimination Schemes.

(** What a view returns: [jsonify(body), status] (status 200 when the
    view names none). *)
Record http_response : Type := mk_response {
  status : Z;
  body : json
}.

(** [request.json]: the keys the views read, [None] for an absent key. *)
Record request : Type := mk_request {
  r_url : option string;
  r_maxArticles : option Z;
  r_sourceSession : option string;
  r_bucket : option string;
  r_prefix : option string
}.

(** [data.get(key, default)] *)
Definition get_default {A} (field : option A) (default : A) : A :=
  match field with Some v => v | None => default end.

(** [bool(x)] for [x = data.get('url')]: [None] and [''] are falsy. *)
Definition truthy_opt (field : option string) : bool :=
  match field with Some s => PyStr.truthy s | None => false end.

(** A thread handed to [threading.Thread(...).start()]. *)
Inductive thread : Type :=
| ScrapeThread (self : job)
| ConversionThread (source_session : string)
| SummarizationThread (source_session : string).

Definition error_response (code : Z) (msg : string) : http_response :=
  mk_response code (JObj [("error", JStr msg)]).

(** [LocalScrapingJob(url, max_articles)]; [t] is [int(time.time())]. *)
Definition LocalScrapingJob (url : string) (max_articles : Z) (t : Z) : job :=
  mk_job url max_articles false ("session_" ++ PyStr.of_Z t).

(** [POST /start_scraping] *)
Definition start_scraping (t : Z) (data : request) (st : server_state)
  : http_response * server_state * option thread :=
  if scraping_active st then
    (error_response 400 "Scraping already in progress", st, None)
  else
    let max_articles := get_default (r_maxArticles data) 10 in
    if negb (truthy_opt (r_url data)) then
      (error_response 400 "URL is required", st, None)
    else
      let st1 := set_scraping_stats fresh_scrape_stats st in
      let st2 := set_all_logs [] st1 in
      let st3 := set_scraping_active true st2 in
      let j := set_is_running true
                 (LocalScrapingJob (get_default (r_url data) "") max_articles t) in
      let st4 := set_current_job (Some j) st3 in
      (mk_response 200 (JObj [("status", JStr "started");
                              ("sessionId", JStr (session_id j));
                              ("message", JStr "Scraping job started")]),
       st4, Some (ScrapeThread j)).

(** [LocalScrapingJob.stop], as far as the object is concerned. *)
Definition job_stop (j : job) : job := set_is_running false j.

(** [POST /stop_scraping] *)
Definition stop_scraping (st : server_state)
  : http_response * server_state * option thread :=
  let st1 := match current_job st with
             | Some j => set_current_job (Some (job_stop j)) st
             | None => st
             end in
  (mk_response 200 (JObj [("status", JStr "stopped")]),
   set_scraping_active false st1, None).

(** [POST /convert_to_text] *)
Definition convert_to_text (data : request) (st : server_state)
  : http_response * server_state * option thread :=
  if conversion_active st then
    (error_response 400 "Conversion already in progress", st, None)
  else
    let source_session := get_default (r_sourceSession data) "" in
    if negb (PyStr.truthy source_session) then
      (error_response 400 "sourceSession is required", st, None)
    else
      let st1 := set_conversion_logs [] st in
      let st2 := set_conversion_stats fresh_convert_stats st1 in
      let st3 := set_conversion_active true st2 in
      (mk_response 200 (JObj [("status", JStr "started");
                              ("message", JStr "Conversion started");
                              ("targetBucket", JStr S3_TEXT_BUCKET_NAME)]),
       st3, Some (ConversionThread source_session)).

(** [POST /generate_summaries] *)
Definition generate_summaries (data : request) (st : server_state)
  : http_response * server_state * option thread :=
  if summarization_active st then
    (error_response 400 "Summarization already in progress", st, None)
  else
    let source_session := get_default (r_sourceSession data) "" in
    if negb (PyStr.truthy source_session) then
      (error_response 400 "sourceSession is required", st, None)
    else
      let st1 := set_summarization_logs [] st in
      let st2 := set_summarization_stats fresh_summarize_stats st1 in
      let st3 := set_summarization_active true st2 in
      (mk_response 200 (JObj [("status", JStr "started");
                              ("message", JStr "Summarization started");
                              ("targetBucket", JStr S3_SUMMARY_BUCKET_NAME)]),
       st3, Some (SummarizationThread source_session)).

(** The three job kinds and what each owns in the globals. *)
Inductive job_kind : Type := Scrape | Convert | Summarize.

Definition active_flag (k : job_kind) (st : server_state) : bool :=
  match k with
  | Scrape => scraping_active st
  | Convert => conversion_active st
  | Summarize => summarization_active st
  end.

Definition log_buffer (k : job_kind) (st : server_state) : list log_entry :=
  match k with
  | Scrape => all_logs st
  | Convert => conversion_logs st
  | Summarize => summarization_logs st
  end.

(** The status record of a kind, as one type. *)
Inductive status_record : Type :=
| ScrapeRecord (s : scrape_stats)
| ConvertRecord (s : convert_stats)
| SummarizeRecord (s : summarize_stats).

Definition status_of (k : job_kind) (st : server_state) : status_record :=
  match k with
  | Scrape => ScrapeRecord (scraping_stats st)
  | Convert => ConvertRecord (conversion_stats st)
  | Summarize => SummarizeRecord (summarization_stats st)
  end.

(** The routes registered with [methods=['POST']] that write to the
    globals. *)
Inductive post_endpoint : Type :=
| PostStartScraping
| PostStopScraping
| PostConvertToText
| PostGenerateSummaries.

Definition endpoint_kind (e : post_endpoint) : job_kind :=
  match e with
  | PostStartScraping | PostStopScraping => Scrape
  | PostConvertToText => Convert
  | PostGenerateSummaries => Summarize
  end.

(** Routing of a POST request to its view. *)
Definition dispatch (e : post_endpoint) (t : Z) (data : request) (st : server_state)
  : http_response * server_state * option thread :=
  match e with
  | PostStartScraping => start_scraping t data st
  | PostStopScraping => stop_scraping st
  | PostConvertToText => convert_to_text data st
  | PostGenerateSummaries => generate_summaries data st
  end.

(** A response [jsonify({'error': ...}), code]. *)
Definition is_error_body (b : json) : bool :=
  match b with
  | JObj [(k, JStr _)] => String.eqb k "error"
  | _ => false
  end.

(* ================================================================== *)
(** ** Bucket listing *)
(* ================================================================== *)

(** An entry of [Contents]; the [datetime] under [LastModified] is
    represented by its [isoformat()] text. *)
Record s3_object : Type := mk_s3_object {
  Key : string;
  Size : Z;
  LastModified : string
}.

(** The response of [list_objects_v2]: [CommonPrefixes] holds the
    [Prefix] of each entry; an absent key is the empty list. *)
Record list_response : Type := mk_list_response {
  CommonPrefixes : list string;
  Contents : list s3_object
}.

Record file_entry : Type := mk_file_entry {
  fe_name : string;
  fe_key : string;
  fe_size : Z;
  fe_lastModified : string
}.

(** [if prefix and not prefix.endswith('/'): prefix += '/'] *)
Definition normalize_prefix (prefix : string) : string :=
  if (PyStr.truthy prefix && negb (PyStr.endswith "/" prefix))%bool
  then prefix ++ "/" else prefix.

(** The first loop of [list_bucket]. *)
Definition folder_names (prefix : string) (resp : list_response) : list string :=
  map (fun cp => PyStr.rstrip_slash (PyStr.slice_from (PyStr.len prefix) cp))
      (CommonPrefixes resp).

(** The second loop of [list_bucket]. *)
Fixpoint file_entries (prefix : string) (contents : list s3_object) : list file_entry :=
  match contents with
  | [] => []
  | obj :: rest =>
      let key := Key obj in
      if String.eqb key prefix then file_entries prefix rest
      else
        let file_name := PyStr.slice_from (PyStr.len prefix) key in
        if negb (PyStr.contains "/" file_name)
        then mk_file_entry file_name key (Size obj) (LastModified obj)
             :: file_entries prefix rest
        else file_entries prefix rest
  end.

Definition folder_json (name : string) : json := JObj [("name", JStr name)].

Definition file_json (f : file_entry) : json :=
  JObj [("name", JStr (fe_name f)); ("key", JStr (fe_key f));
        ("size", JInt (fe_size f)); ("lastModified", JStr (fe_lastModified f))].

(** [POST /list_bucket]; [list_objects_v2 bucket prefix] is the outcome
    of creating the client and calling
    [s3.list_objects_v2(Bucket=bucket, Prefix=prefix, Delimiter='/')]. *)
Definition list_bucket
    (list_objects_v2 : option string -> string -> result list_response)
    (data : request) : http_response :=
  let prefix := normalize_prefix (get_default (r_prefix data) "") in
  match list_objects_v2 (r_bucket data) prefix with
  | Ok response =>
      mk_response 200
        (JObj [("folders", JArr (map folder_json (folder_names prefix response)));
               ("files", JArr (map file_json (file_entries prefix (Contents response))))])
  | Raise e => error_response 500 e
  end.

(* ================================================================== *)
(** ** Background workers *)
(* ================================================================== *)

(** The body of a [put_object] call: [formatted_text.encode('utf-8')] or
    [json.dumps(d, indent=2).encode('utf-8')] for a flat dict [d]. *)
Inductive s3_body : Type :=
| TextBody (text : string)
| JsonBody (fields : list (string * string)).

Record s3_put : Type := mk_s3_put {
  put_bucket : string;
  put_key : string;
  put_body : s3_body;
  put_content_type : string
}.

(** What a worker thread reads and writes: the globals, the number of
    clock readings made so far, and the objects written to storage. *)
Record world : Type := mk_world {
  globals : server_state;
  ticks : nat;
  puts : list s3_put
}.

Definition with_globals (f : server_state -> server_state) (w : world) : world :=
  mk_world (f (globals w)) (ticks w) (puts w).

Definition with_stats (f : scrape_stats -> scrape_stats) (w : world) : world :=
  with_globals (fun st => set_scraping_stats (f (scraping_stats st)) st) w.

Definition record_put (p : s3_put) (w : world) : world :=
  mk_world (globals w) (ticks w) (puts w ++ [p])%list.

(** What the subprocess and a concurrent [POST /stop_scraping] present to
    the scrape worker, in the order the worker meets them. *)
Inductive proc_event : Type :=
| StdoutLine (raw : string)
| StopRequested.

(** [popen] is the outcome of [subprocess.Popen(...)], [returncode] the
    exit status read after [process.wait()]. *)
Record proc_script : Type := mk_proc_script {
  popen : result unit;
  events : list proc_event;
  returncode : Z
}.

(** A JSON document read from storage, as the dict [json.loads] returns;
    the values the workers read are strings. *)
Definition json_doc : Type := string -> option string.

(** [data.get(key, default)] *)
Definition doc_get (data : json_doc) (key default : string) : string :=
  match data key with Some v => v | None => default end.

(** [a or b] on strings. *)
Definition py_or (a b : string) : string := if PyStr.truthy a then a else b.

(** The object storage as the conversion and summarization workers use
    it.  [s3_client] is the outcome of [boto3.client(...)];
    [s3_paginate] gives the pages the paginator yields and the exception
    that ends the iteration, if any; [s3_get_json] is [get_object],
    [read], [decode] and [json.loads]. *)
Record s3_env : Type := mk_s3_env {
  s3_client : result unit;
  s3_paginate : string -> string -> list (list s3_object) * option string;
  s3_get_json : string -> string -> result json_doc;
  s3_put_object : s3_put -> result unit
}.

(** The model-inference libraries.  [ai_import] is the [import] block
    ([Raise] carries the text of the [ImportError]); [ai_caption] is what
    the image branch does between its first log line and [put_object]. *)
Record ai_env : Type := mk_ai_env {
  ai_import : result unit;
  ai_load_text_summarizer : result unit;
  ai_load_image_captioner : result unit;
  ai_text_summarizer : string -> result string;
  ai_caption : string -> result string
}.

Definition nl : string := String (ascii_of_nat 10) EmptyString.

Section Workers.

(** [clock k] is what [datetime.now().strftime("%H:%M:%S")] returns at the
    [k]-th reading. *)
Variable clock : nat -> string.

Definition tick (w : world) : world := mk_world (globals w) (S (ticks w)) (puts w).

Definition log_scrape (msg log_type : string) (w : world) : world :=
  tick (with_globals (add_log (clock (ticks w)) msg log_type) w).

Definition log_conversion (msg log_type : string) (w : world) : world :=
  tick (with_globals (add_conversion_log (clock (ticks w)) msg log_type) w).

Definition log_summarization (msg log_type : string) (w : world) : world :=
  tick (with_globals (add_summarization_log (clock (ticks w)) msg log_type) w).

(** *** The scrape worker *)

(** [add_log("Starting local scraper...")] and the first progress
    assignment. *)
Definition worker_begin (w : world) : world :=
  with_stats (set_progress 10) (log_scrape "Starting local scraper..." "info" w).

(** The two announcements and the second progress assignment. *)
Definition worker_announce (self : job) (w : world) : world :=
  let w1 := log_scrape ("Scraping " ++ PyStr.of_Z (max_articles self)
                        ++ " articles from " ++ url self) "info" w in
  let w2 := log_scrape ("Session ID: " ++ session_id self) "info" w1 in
  let w3 := with_stats (set_progress 15) w2 in
  with_stats (set_sessionId (Some (session_id self))) w3.

(** One line of the streaming loop, after the [is_running] test. *)
Definition process_line (self : job) (raw : string) (w : world)
  : world * option string :=
  let line := PyStr.strip raw in
  if PyStr.truthy line then
    let log_type := _classify_log_line line in
    let w1 := log_scrape line log_type w in
    let '(s, exn) := _update_stats_from_log (max_articles self) line
                       (scraping_stats (globals w1)) in
    (with_stats (fun _ => s) w1, exn)
  else (w, None).

(** [for line in iter(self.process.stdout.readline, ''): ...]; a stop
    request clears [self.is_running] and the global flag, as
    [stop_scraping] does. *)
Fixpoint stream_output (evs : list proc_event) (self : job) (w : world)
  : job * world * option string :=
  match evs with
  | [] => (self, w, None)
  | StopRequested :: rest =>
      stream_output rest (job_stop self) (with_globals (set_scraping_active false) w)
  | StdoutLine raw :: rest =>
      if negb (is_running self) then (self, w, None)
      else
        match process_line self raw w with
        | (w1, Some e) => (self, w1, Some e)
        | (w1, None) => stream_output rest self w1
        end
  end.

(** The [if]/[else] that follows [self.process.wait()]. *)
Definition worker_finish (rc : Z) (self : job) (w : world) : world :=
  if ((rc =? 0) && is_running self)%bool then
    let w1 := log_scrape "Scraping completed successfully!" "success" w in
    let w2 := log_scrape ("Files uploaded to S3: " ++ S3_BUCKET_NAME ++ "/"
                          ++ session_id self) "success" w1 in
    with_stats (set_completed true) (with_stats (set_progress 100) w2)
  else
    with_stats (set_progress 0) (log_scrape "Scraping failed or was stopped" "error" w).

(** The [try] block of [_run_scraping]: the state it leaves and the
    exception that escapes it, if any. *)
Definition scraping_body (script : proc_script) (self : job) (w : world)
  : job * world * option string :=
  let w1 := worker_announce self (worker_begin w) in
  match popen script with
  | Raise e => (self, w1, Some e)
  | Ok _ =>
      match stream_output (events script) self w1 with
      | (self1, w2, Some e) => (self1, w2, Some e)
      | (self1, w2, None) => (self1, worker_finish (returncode script) self1 w2, None)
      end
  end.

(** [except Exception as e:] *)
Definition scraping_except (e : string) (w : world) : world :=
  with_stats (set_progress 0) (log_scrape ("Error: " ++ e) "error" w).

(** [finally:] *)
Definition scraping_finally (self : job) (w : world) : job * world :=
  (set_is_running false self, with_globals (set_scraping_active false) w).

(** [LocalScrapingJob._run_scraping] *)
Definition _run_scraping (script : proc_script) (self : job) (w : world)
  : job * world :=
  match scraping_body script self w with
  | (self1, w1, Some e) => scraping_finally self1 (scraping_except e w1)
  | (self1, w1, None) => scraping_finally self1 w1
  end.

(** The thread of the current job: [self] and the global [current_job]
    name one object, so what the worker assigns to [self] shows in
    [current_job] when it returns.  The thread of a job that
    [current_job] no longer names is [_run_scraping] alone. *)
Definition run_scrape_thread (script : proc_script) (self : job) (w : world) : world :=
  let '(self1, w1) := _run_scraping script self w in
  with_globals (set_current_job (Some self1)) w1.

(** *** The conversion worker *)

Definition set_cv_error (e : option string) (s : convert_stats) : convert_stats :=
  mk_convert_stats (cv_completed s) e (cv_targetBucket s) (cv_filesConverted s).

Definition set_cv_completed (b : bool) (s : convert_stats) : convert_stats :=
  mk_convert_stats b (cv_error s) (cv_targetBucket s) (cv_filesConverted s).

Definition set_cv_filesConverted (n : Z) (s : convert_stats) : convert_stats :=
  mk_convert_stats (cv_completed s) (cv_error s) (cv_targetBucket s) (Some n).

Definition with_convert_stats (f : convert_stats -> convert_stats) (w : world) : world :=
  with_globals (fun st => set_conversion_stats (f (conversion_stats st)) st) w.

(** The body of the inner loop of [_run_conversion] for one listed key,
    with its own [try]/[except]. *)
Definition convert_object (s3 : s3_env) (key : string) (acc : Z * world) : Z * world :=
  let '(files_converted, w) := acc in
  if (PyStr.endswith ".json" key && negb (PyStr.endswith "_summary.json" key))%bool then
    let failed e := (files_converted,
                     log_conversion ("Error converting " ++ key ++ ": " ++ e) "error" w) in
    match s3_get_json s3 S3_BUCKET_NAME key with
    | Raise e => failed e
    | Ok data =>
        let title := doc_get data "title" "No Title" in
        let author := doc_get data "author" "Unknown" in
        let date := doc_get data "date" "Unknown" in
        let text_content := py_or (py_or (doc_get data "content" "")
                                         (doc_get data "text" ""))
                                  (doc_get data "article" "") in
        if PyStr.truthy text_content then
          let formatted_text := "Title: " ++ title ++ nl ++ "Author: " ++ author ++ nl
                                ++ "Date: " ++ date ++ nl ++ nl ++ "Content:" ++ nl
                                ++ text_content in
          let txt_key := PyStr.replace ".json" ".txt" key in
          let p := mk_s3_put S3_TEXT_BUCKET_NAME txt_key (TextBody formatted_text)
                             "text/plain" in
          match s3_put_object s3 p with
          | Raise e => failed e
          | Ok _ =>
              (files_converted + 1,
               log_conversion ("Converted: " ++ key ++ " -> " ++ txt_key) "success"
                              (record_put p w))
          end
        else
          (files_converted,
           log_conversion ("Skipped " ++ key ++ " (no text content)") "warning" w)
    end
  else acc.

(** The two nested [for] loops over the pages that were yielded. *)
Definition convert_pages (s3 : s3_env) (pages : list (list s3_object)) (acc : Z * world)
  : Z * world :=
  fold_left (fun acc page =>
               fold_left (fun acc obj => convert_object s3 (Key obj) acc) page acc)
            pages acc.

(** The [try] block of [_run_conversion]. *)
Definition conversion_body (s3 : s3_env) (source_session : string) (w : world)
  : world * option string :=
  let w1 := log_conversion ("Starting conversion for session: " ++ source_session)
                           "info" w in
  match s3_client s3 with
  | Raise e => (w1, Some e)
  | Ok _ =>
      let prefix := source_session ++ "/" in
      let w2 := log_conversion ("Listing files in s3://" ++ S3_BUCKET_NAME ++ "/" ++ prefix)
                               "info" w1 in
      let '(pages, failure) := s3_paginate s3 S3_BUCKET_NAME prefix in
      let '(files_converted, w3) := convert_pages s3 pages (0, w2) in
      match failure with
      | Some e => (w3, Some e)
      | None =>
          let w4 := with_convert_stats (set_cv_filesConverted files_converted) w3 in
          let w5 := with_convert_stats (set_cv_completed true) w4 in
          (log_conversion ("Conversion complete! " ++ PyStr.of_Z files_converted
                           ++ " files converted to s3://" ++ S3_TEXT_BUCKET_NAME)
                          "success" w5,
           None)
      end
  end.

Definition conversion_except (e : string) (w : world) : world :=
  log_conversion ("Conversion failed: " ++ e) "error"
                 (with_convert_stats (set_cv_error (Some e)) w).

Definition conversion_finally (w : world) : world :=
  with_globals (set_conversion_active false) w.

(** [_run_conversion] *)
Definition _run_conversion (s3 : s3_env) (source_session : string) (w : world) : world :=
  match conversion_body s3 source_session w with
  | (w1, Some e) => conversion_finally (conversion_except e w1)
  | (w1, None) => conversion_finally w1
  end.

(** *** The summarization worker *)

Definition set_sm_error (e : option string) (s : summarize_stats) : summarize_stats :=
  mk_summarize_stats (sm_completed s) e (sm_targetBucket s) (sm_textSummaries s)
                     (sm_imageSummaries s) (sm_totalFolders s).

Definition set_sm_completed (b : bool) (s : summarize_stats) : summarize_stats :=
  mk_summarize_stats b (sm_error s) (sm_targetBucket s) (sm_textSummaries s)
                     (sm_imageSummaries s) (sm_totalFolders s).

Definition set_sm_textSummaries (n : Z) (s : summarize_stats) : summarize_stats :=
  mk_summarize_stats (sm_completed s) (sm_error s) (sm_targetBucket s) n
                     (sm_imageSummaries s) (sm_totalFolders s).

Definition set_sm_imageSummaries (n : Z) (s : summarize_stats) : summarize_stats :=
  mk_summarize_stats (sm_completed s) (sm_error s) (sm_targetBucket s)
                     (sm_textSummaries s) n (sm_totalFolders s).

Definition with_summarize_stats (f : summarize_stats -> summarize_stats) (w : world)
  : world :=
  with_globals (fun st => set_summarization_stats (f (summarization_stats st)) st) w.

(** [key.lower().endswith(('.jpg', '.jpeg', '.png'))] *)
Definition is_image_key (key : string) : bool :=
  existsb (fun ext => PyStr.endswith ext (PyStr.lower key)) [".jpg"; ".jpeg"; ".png"].

(** The body of the inner loop of [_run_summarization] for one listed
    key; each branch has its own [try]/[except]. *)
Definition summarize_object (s3 : s3_env) (ai : ai_env) (key : string)
    (acc : Z * Z * world) : Z * Z * world :=
  let '(text_count, image_count, w) := acc in
  if (PyStr.endswith ".json" key && negb (PyStr.endswith "_summary.json" key))%bool then
    let failed e w' :=
      (text_count, image_count,
       log_summarization ("Error summarizing " ++ key ++ ": " ++ e) "error" w') in
    match s3_get_json s3 S3_BUCKET_NAME key with
    | Raise e => failed e w
    | Ok data =>
        let text := py_or (doc_get data "content" "") (doc_get data "text" "") in
        if (PyStr.truthy text && Nat.ltb 100 (PyStr.len text))%bool then
          let w1 := log_summarization ("Summarizing text: " ++ key) "info" w in
          match ai_text_summarizer ai (PyStr.slice_to 1024 text) with
          | Raise e => failed e w1
          | Ok summary =>
              let summary_data := [("filename", PyStr.last_segment key);
                                   ("summary_type", "text"); ("summary", summary)] in
              let summary_key := PyStr.replace ".json" "_text_summary.json" key in
              let p := mk_s3_put S3_SUMMARY_BUCKET_NAME summary_key
                                 (JsonBody summary_data) "application/json" in
              match s3_put_object s3 p with
              | Raise e => failed e w1
              | Ok _ =>
                  (text_count + 1, image_count,
                   log_summarization ("✓ Text summary saved: " ++ summary_key) "success"
                                     (record_put p w1))
              end
          end
        else acc
    end
  else if is_image_key key then
    let w1 := log_summarization ("Captioning image: " ++ key) "info" w in
    let failed e :=
      (text_count, image_count,
       log_summarization ("Error captioning " ++ key ++ ": " ++ e) "error" w1) in
    match ai_caption ai key with
    | Raise e => failed e
    | Ok caption =>
        let caption_data := [("filename", PyStr.last_segment key);
                             ("summary_type", "image"); ("summary", caption)] in
        let caption_key := PyStr.before_last_dot key ++ "_image_summary.json" in
        let p := mk_s3_put S3_SUMMARY_BUCKET_NAME caption_key
                           (JsonBody caption_data) "application/json" in
        match s3_put_object s3 p with
        | Raise e => failed e
        | Ok _ =>
            (text_count, image_count + 1,
             log_summarization ("✓ Image caption saved: " ++ caption_key) "success"
                               (record_put p w1))
        end
    end
  else acc.

Definition summarize_pages (s3 : s3_env) (ai : ai_env) (pages : list (list s3_object))
    (acc : Z * Z * world) : Z * Z * world :=
  fold_left (fun acc page =>
               fold_left (fun acc obj => summarize_object s3 ai (Key obj) acc) page acc)
            pages acc.

(** The model set-up that precedes the loops; each step may raise. *)
Definition load_models (ai : ai_env) (w : world) : world * option string :=
  match ai_import ai with
  | Raise ie =>
      (w, Some ("Missing AI libraries: " ++ ie
                ++ ". Run: pip install transformers torch pillow"))
  | Ok _ =>
      let w1 := log_summarization "AI libraries loaded successfully" "info" w in
      let w2 := log_summarization "Loading text summarization model (distilbart)..."
                                  "info" w1 in
      match ai_load_text_summarizer ai with
      | Raise e => (w2, Some e)
      | Ok _ =>
          let w3 := log_summarization "Loading image captioning model (BLIP-tiny)..."
                                      "info" w2 in
          match ai_load_image_captioner ai with
          | Raise e => (w3, Some e)
          | Ok _ => (w3, None)
          end
      end
  end.

(** The [try] block of [_run_summarization]. *)
Definition summarization_body (s3 : s3_env) (ai : ai_env) (source_session : string)
    (w : world) : world * option string :=
  let w1 := log_summarization ("Starting AI summarization for session: " ++ source_session)
                              "info" w in
  match s3_client s3 with
  | Raise e => (w1, Some e)
  | Ok _ =>
      let prefix := source_session ++ "/" in
      let w2 := log_summarization ("Listing files in s3://" ++ S3_BUCKET_NAME ++ "/"
                                   ++ prefix) "info" w1 in
      match load_models ai w2 with
      | (w3, Some e) => (w3, Some e)
      | (w3, None) =>
          let '(pages, failure) := s3_paginate s3 S3_BUCKET_NAME prefix in
          let '(text_count, image_count, w4) := summarize_pages s3 ai pages (0, 0, w3) in
          match failure with
          | Some e => (w4, Some e)
          | None =>
              let w5 := with_summarize_stats (set_sm_textSummaries text_count) w4 in
              let w6 := with_summarize_stats (set_sm_imageSummaries image_count) w5 in
              let w7 := with_summarize_stats (set_sm_completed true) w6 in
              (log_summarization ("Complete! " ++ PyStr.of_Z text_count
                                  ++ " text summaries, " ++ PyStr.of_Z image_count
                                  ++ " image captions -> s3://" ++ S3_SUMMARY_BUCKET_NAME)
                                 "success" w7,
               None)
          end
      end
  end.

Definition summarization_except (e : string) (w : world) : world :=
  log_summarization ("Summarization failed: " ++ e) "error"
                    (with_summarize_stats (set_sm_error (Some e)) w).

Definition summarization_finally (w : world) : world :=
  with_globals (set_summarization_active false) w.

(** [_run_summarization] *)
Definition _run_summarization (s3 : s3_env) (ai : ai_env) (source_session : string)
    (w : world) : world :=
  match summarization_body s3 ai source_session w with
  | (w1, Some e) => summarization_finally (summarization_except e w1)
  | (w1, None) => summarization_finally w1
  end.

End Workers.

(* ================================================================== *)
(** ** Status and download endpoints *)
(* ================================================================== *)

Definition log_json (e : log_entry) : json :=
  JObj [("timestamp", JStr (timestamp e)); ("message", JStr (message e));
        ("type", JStr (type e))].

(** A value that is a string or [None]. *)
Definition opt_str_json (o : option string) : json :=
  match o with Some s => JStr s | None => JNull end.

(** [GET /get_status]: [{'active': ..., 'logs': ..., **scraping_stats}],
    fields in dict order. *)
Definition get_status (st : server_state) : http_response :=
  let s := scraping_stats st in
  mk_response 200
    (JObj [("active", JBool (scraping_active st));
           ("logs", JArr (map log_json (all_logs st)));
           ("articlesFound", JInt (articlesFound s));
           ("articlesSaved", JInt (articlesSaved s));
           ("imagesFound", JInt (imagesFound s));
           ("progress", JInt (progress s));
           ("completed", JBool (completed s));
           ("sessionId", opt_str_json (sessionId s))]).

(** [GET /conversion_status]: [{'logs': ..., **conversion_stats}]; the
    key [filesConverted] is present once the dict holds it. *)
Definition conversion_status (st : server_state) : http_response :=
  let s := conversion_stats st in
  mk_response 200
    (JObj ([("logs", JArr (map log_json (conversion_logs st)));
            ("completed", JBool (cv_completed s));
            ("error", opt_str_json (cv_error s));
            ("targetBucket", opt_str_json (cv_targetBucket s))]
           ++ match cv_filesConverted s with
              | Some n => [("filesConverted", JInt n)]
              | None => []
              end)%list).

(** [GET /summarization_status] *)
Definition summarization_status (st : server_state) : http_response :=
  let s := summarization_stats st in
  mk_response 200
    (JObj [("logs", JArr (map log_json (summarization_logs st)));
           ("completed", JBool (sm_completed s));
           ("error", opt_str_json (sm_error s));
           ("targetBucket", opt_str_json (sm_targetBucket s));
           ("textSummaries", JInt (sm_textSummaries s));
           ("imageSummaries", JInt (sm_imageSummaries s));
           ("totalFolders", JInt (sm_totalFolders s))]).

(** [request.json] of [POST /download_file]. *)
Record download_request : Type := mk_download_request {
  d_bucket : option string;
  d_key : option string
}.

(** What [get_object] returns: the bytes read from [Body] and the
    [ContentType] key, when present. *)
Record s3_file : Type := mk_s3_file {
  file_body : string;
  file_content_type : option string
}.

(** What [download_file] returns: a [Response] carrying the file, or
    [jsonify({'error': ...}), 500]. *)
Inductive download_result : Type :=
| FileResponse (data : string) (mimetype : string) (headers : list (string * string))
| DownloadFailed (resp : http_response).

(** [Response(...)]: the framework refuses a content type or a header
    value that holds a carriage return or a line feed, with a
    [ValueError] whose message is [refusal]. *)
Definition has_line_break (s : string) : bool :=
  (PyStr.contains (String (ascii_of_nat 13) EmptyString) s
   || PyStr.contains (String (ascii_of_nat 10) EmptyString) s)%bool.

Definition new_response (refusal : string) (content mimetype : string)
    (headers : list (string * string)) : result download_result :=
  if existsb has_line_break (mimetype :: map snd headers)
  then Raise refusal
  else Ok (FileResponse content mimetype headers).

(** [POST /download_file]; [get_object bucket key] is the outcome of
    creating the client, calling [s3.get_object(Bucket=bucket, Key=key)]
    and reading the body.  The file name is computed after the body is
    read, so a missing key that the storage call let through raises at
    [key.split]; the response is built inside the [try], so a refused
    header is answered with 500 as well. *)
Definition download_file
    (get_object : option string -> option string -> result s3_file)
    (refusal : string) (data : download_request) : download_result :=
  match get_object (d_bucket data) (d_key data) with
  | Raise e => DownloadFailed (error_response 500 e)
  | Ok file_obj =>
      match d_key data with
      | None =>
          DownloadFailed
            (error_response 500 "'NoneType' object has no attribute 'split'")
      | Some key =>
          match new_response refusal
                  (file_body file_obj)
                  (get_default (file_content_type file_obj)
                               "application/octet-stream")
                  [("Content-Disposition",
                    "attachment; filename=" ++ PyStr.last_segment key)] with
          | Raise e => DownloadFailed (error_response 500 e)
          | Ok response => response
          end
      end
  end.

(* ================================================================== *)
(** ** Vocabulary of the statements *)
(* ================================================================== *)

(** [w] occurs in [s] as a contiguous run of characters. *)
Definition occurs (w s : string) : Prop :=
  exists pre post, s = pre ++ w ++ post.

Definition occurs_any (words : list string) (s : string) : Prop :=
  exists w, In w words /\ occurs w s.

(** Two characters that are equal or the two cases of one ASCII letter. *)
Definition is_upper_letter (c : ascii) : bool :=
  (Nat.leb 65 (nat_of_ascii c) && Nat.leb (nat_of_ascii c) 90)%bool.

Definition case_pair (a b : ascii) : Prop :=
  a = b
  \/ (is_upper_letter a = true /\ nat_of_ascii b = (nat_of_ascii a + 32)%nat)
  \/ (is_upper_letter b = true /\ nat_of_ascii a = (nat_of_ascii b + 32)%nat).

(** A string all of whose characters satisfy [p]. *)
Fixpoint all_chars (p : ascii -> bool) (s : string) : bool :=
  match s with
  | EmptyString => true
  | String c s' => (p c && all_chars p s')%bool
  end.

(** The bytes of the ASCII characters, and a character, or a run of
    characters, beyond ASCII: one byte or more, none below 128. *)
Definition is_ascii (c : ascii) : bool := Nat.ltb (nat_of_ascii c) 128.

Definition beyond_ascii (u : string) : Prop :=
  u <> EmptyString /\ all_chars (fun c => negb (is_ascii c)) u = true.

(** Two lines that differ only in letter case.  Character by character
    they are equal or hold the two cases of an ASCII letter, or they hold
    the two members of a pair of [pairs], the table of the case pairs
    that are not two ASCII letters (as U+00E9 and U+00C9, or U+017F, the
    long s, and S). *)
Inductive case_variant (pairs : list (string * string)) : string -> string -> Prop :=
| case_variant_nil : case_variant pairs EmptyString EmptyString
| case_variant_cons (a b : ascii) (s t : string) :
    case_pair a b -> case_variant pairs s t ->
    case_variant pairs (String a s) (String b t)
| case_variant_pair (u v s t : string) :
    In (u, v) pairs \/ In (v, u) pairs -> case_variant pairs s t ->
    case_variant pairs (u ++ s) (v ++ t).

(** A table all of whose pairs have both members beyond ASCII. *)
Definition pairs_beyond_ascii (pairs : list (string * string)) : Prop :=
  Forall (fun uv => beyond_ascii (fst uv) /\ beyond_ascii (snd uv)) pairs.

(** Two case pairs of Unicode: e with acute accent, small and capital,
    and the long s, whose capital is S. *)
Definition e_acute_pair : string * string := ("é", "É").
Definition long_s_pair : string * string := ("ſ", "S").

(** The last entry of a log buffer. *)
Definition last_entry (buf : list log_entry) : option log_entry :=
  List.last (map Some buf) None.

(** The bound of each log buffer and the append function of each kind. *)
Definition log_bound (k : job_kind) : nat :=
  match k with
  | Scrape => 500
  | Convert => 200
  | Summarize => 300
  end.

Definition append_log (k : job_kind) (ts msg log_type : string) (st : server_state)
  : server_state :=
  match k with
  | Scrape => add_log ts msg log_type st
  | Convert => add_conversion_log ts msg log_type st
  | Summarize => add_summarization_log ts msg log_type st
  end.

(** Rejection of a request: HTTP 400, an error body, and the status
    record, log buffer and active flag of the endpoint's job kind left as
    they were. *)
Definition rejected_untouched (e : post_endpoint) (t : Z) (data : request)
    (st : server_state) : Prop :=
  let k := endpoint_kind e in
  let '(resp, st', _) := dispatch e t data st in
  status resp = 400
  /\ is_error_body (body resp) = true
  /\ status_of k st' = status_of k st
  /\ log_buffer k st' = log_buffer k st
  /\ active_flag k st' = active_flag k st.

(** The request key an endpoint requires. *)
Definition required_field (e : post_endpoint) (data : request) : option (option string) :=
  match e with
  | PostStartScraping => Some (r_url data)
  | PostStopScraping => None
  | PostConvertToText | PostGenerateSummaries => Some (r_sourceSession data)
  end.

Definition missing_or_empty (field : option string) : Prop :=
  field = None \/ field = Some EmptyString.

(** [articlesSaved = articlesFound] *)
Definition counters_agree (s : scrape_stats) : Prop :=
  articlesSaved s = articlesFound s.

(** The states the server passes through: the globals as loaded, then any
    POST request, any single per-line statistics update, and any complete
    run of a worker.  A scrape worker returns either as the thread of the
    current job, or as the thread of a job that [current_job] no longer
    names (stopped, and another one started since): the globals then keep
    their [current_job]. *)
Inductive reachable : server_state -> Prop :=
| reachable_initial : reachable initial_state
| reachable_post (e : post_endpoint) (t : Z) (data : request) (st : server_state) :
    reachable st -> reachable (snd (fst (dispatch e t data st)))
| reachable_line (n : Z) (line : string) (st : server_state) :
    reachable st ->
    reachable (set_scraping_stats
                 (fst (_update_stats_from_log n line (scraping_stats st))) st)
| reachable_scrape (clock : nat -> string) (script : proc_script) (self : job)
    (st : server_state) (k : nat) (ps : list s3_put) :
    reachable st ->
    reachable (globals (run_scrape_thread clock script self (mk_world st k ps)))
| reachable_stale_scrape (clock : nat -> string) (script : proc_script) (self : job)
    (st : server_state) (k : nat) (ps : list s3_put) :
    reachable st ->
    reachable (globals (snd (_run_scraping clock script self (mk_world st k ps))))
| reachable_conversion (clock : nat -> string) (s3 : s3_env) (src : string)
    (st : server_state) (k : nat) (ps : list s3_put) :
    reachable st ->
    reachable (globals (_run_conversion clock s3 src (mk_world st k ps)))
| reachable_summarization (clock : nat -> string) (s3 : s3_env) (ai : ai_env)
    (src : string) (st : server_state) (k : nat) (ps : list s3_put) :
    reachable st ->
    reachable (globals (_run_summarization clock s3 ai src (mk_world st k ps))).

(** A request with no keys, and the globals with a scrape running. *)
Definition empty_request : request := mk_request None None None None None.

Definition scraping_state : server_state := set_scraping_active true initial_state.

(** The one-level file listing under prefix [p]: the objects whose key is
    not [p] itself and whose key with [p] removed holds no ['/'], in the
    order listed, each with its name, key, size and modification time. *)
Inductive listed_files (p : string) : list s3_object -> list file_entry -> Prop :=
| listed_nil : listed_files p [] []
| listed_file (o : s3_object) (rest : list s3_object) (name : string)
    (fs : list file_entry) :
    Key o = p ++ name -> Key o <> p -> ~ occurs "/" name ->
    listed_files p rest fs ->
    listed_files p (o :: rest)
                 (mk_file_entry name (Key o) (Size o) (LastModified o) :: fs)
| listed_skip_prefix (o : s3_object) (rest : list s3_object) (fs : list file_entry) :
    Key o = p -> listed_files p rest fs -> listed_files p (o :: rest) fs
| listed_skip_nested (o : s3_object) (rest : list s3_object) (name : string)
    (fs : list file_entry) :
    Key o = p ++ name -> occurs "/" name ->
    listed_files p rest fs -> listed_files p (o :: rest) fs.

(** [s] ends with [w]. *)
Definition ends_with (w s : string) : Prop := exists pre, s = pre ++ w.

(** The prefix the listing runs under, for a requested prefix [q]. *)
Definition effective_prefix (q p : string) : Prop :=
  (q = EmptyString -> p = EmptyString)
  /\ (q <> EmptyString -> ends_with "/" q -> p = q)
  /\ (q <> EmptyString -> ~ ends_with "/" q -> p = q ++ "/").

(** Floats whose mantissa fits the 53 bits of binary64, and floats that
    are not negative and not NaN. *)
Definition bounded_float (x : spec_float) : Prop :=
  match x with
  | S754_finite _ m _ => Zpos (digits2_pos m) <= PyNum.prec
  | _ => True
  end.

Definition nonneg_float (x : spec_float) : Prop :=
  match x with
  | S754_zero s | S754_infinity s | S754_finite s _ _ => s = false
  | S754_nan => False
  end.

(** The progress field as a worker sees it. *)
Definition progress_of (w : world) : Z := progress (scraping_stats (globals w)).

(** Progress never decreasing over a run of the scrape worker: neither
    across the per-line updates of the streaming loop nor from there to
    the state the worker leaves when it returns. *)
Definition run_never_decreases (clock : nat -> string) (script : proc_script)
    (self : job) (w : world) : Prop :=
  let w1 := worker_announce clock self (worker_begin clock w) in
  let '(_, w2, _) := stream_output clock (events script) self w1 in
  progress_of w1 <= progress_of w2
  /\ progress_of w2 <= progress_of (snd (_run_scraping clock script self w)).

(** Sample inputs: a clock, a job for ten articles, and a subprocess that
    saves one article and exits with status 1. *)
Definition midnight : nat -> string := fun _ => "00:00:00".

Definition sample_job : job := mk_job "http://example.org" 10 true "session_0".

Definition sample_world : world :=
  mk_world (set_current_job (Some sample_job) scraping_state) 0 [].

Definition failing_script : proc_script :=
  mk_proc_script (Ok tt) [StdoutLine ("SAVED: out/article.json" ++ nl)] 1.

(** The globals after one saved-article line, and a listing of the
    prefix [data/] with the key of the prefix itself, one file and one
    nested object. *)
Definition one_article_state : server_state :=
  set_scraping_stats
    (fst (_update_stats_from_log 10 "SAVED: out/article.json"
            (scraping_stats initial_state)))
    initial_state.

Definition sample_listing : list_response :=
  mk_list_response
    ["data/img/"]
    [mk_s3_object "data/" 0 "2024-01-01T00:00:00";
     mk_s3_object "data/a.json" 12 "2024-01-02T00:00:00";
     mk_s3_object "data/img/b.jpg" 34 "2024-01-03T00:00:00"].

Definition sample_list_objects (bucket : option string) (prefix : string)
  : result list_response := Ok sample_listing.

Definition sample_list_request : request :=
  mk_request None None None (Some "bockscraper") (Some "data").

(** The counters agree in the globals a worker holds. *)
Definition worker_agrees (w : world) : Prop :=
  counters_agree (scraping_stats (globals w)).

(** Sample storage: a session with two articles, one of them unreadable,
    a summary file and a picture. *)
Definition sample_doc : json_doc :=
  fun k => if String.eqb k "title" then Some "T"
           else if String.eqb k "text" then Some "body" else None.

Definition sample_s3 : s3_env :=
  mk_s3_env (Ok tt)
            (fun _ _ => ([[mk_s3_object "s/a.json" 1 "2024-01-01T00:00:00";
                           mk_s3_object "s/b_summary.json" 1 "2024-01-01T00:00:00";
                           mk_s3_object "s/c.json" 1 "2024-01-01T00:00:00";
                           mk_s3_object "s/d.JPG" 1 "2024-01-01T00:00:00"]], None))
            (fun _ k => if String.eqb k "s/a.json" then Ok sample_doc
                        else Raise "NoSuchKey")
            (fun _ => Ok tt).

Definition broken_ai : ai_env :=
  mk_ai_env (Ok tt) (Ok tt) (Raise "model download failed")
            (fun _ => Ok "summary") (fun _ => Ok "caption").

(** A line made of whitespace characters only. *)
Definition blank (s : string) : bool := forallb PyStr.is_space (PyStr.chars s).

(** U+00A0, the no-break space, and U+3000, the ideographic space. *)
Definition nbsp : string := String (ascii_of_nat 194) (String (ascii_of_nat 160) "").

Definition ideographic_space : string :=
  String (ascii_of_nat 227) (String (ascii_of_nat 128) (String (ascii_of_nat 128) "")).

(** The last [n] elements of a list. *)
Definition lastn {A : Type} (n : nat) (l : list A) : list A :=
  skipn (List.length l - n) l.

(** Appending a batch of entries to the buffer of a kind, oldest first. *)
Definition append_logs (k : job_kind) (entries : list log_entry) (st : server_state)
  : server_state :=
  fold_left (fun st e => append_log k (timestamp e) (message e) (type e) st) entries st.

(** What each job kind owns in the globals: flag, log buffer and status
    record (the scrape kind also owns [current_job]). *)
Definition same_scrape_part (st st' : server_state) : Prop :=
  scraping_active st' = scraping_active st
  /\ current_job st' = current_job st
  /\ all_logs st' = all_logs st
  /\ scraping_stats st' = scraping_stats st.

Definition same_conversion_part (st st' : server_state) : Prop :=
  conversion_active st' = conversion_active st
  /\ conversion_logs st' = conversion_logs st
  /\ conversion_stats st' = conversion_stats st.

Definition same_summarization_part (st st' : server_state) : Prop :=
  summarization_active st' = summarization_active st
  /\ summarization_logs st' = summarization_logs st
  /\ summarization_stats st' = summarization_stats st.

(** Every log buffer within its bound. *)
Definition logs_bounded (st : server_state) : Prop :=
  forall k, (List.length (log_buffer k st) <= log_bound k)%nat.

(** What a run of the conversion worker keeps, relative to the globals
    [st0] it started from. *)
Definition conversion_keeps (st0 : server_state) (w : world) : Prop :=
  same_scrape_part st0 (globals w)
  /\ same_summarization_part st0 (globals w)
  /\ cv_targetBucket (conversion_stats (globals w))
     = cv_targetBucket (conversion_stats st0)
  /\ ((List.length (conversion_logs st0) <= log_bound Convert)%nat ->
      (List.length (conversion_logs (globals w)) <= log_bound Convert)%nat).

Definition summarization_keeps (st0 : server_state) (w : world) : Prop :=
  same_scrape_part st0 (globals w)
  /\ same_conversion_part st0 (globals w)
  /\ sm_targetBucket (summarization_stats (globals w))
     = sm_targetBucket (summarization_stats st0)
  /\ sm_totalFolders (summarization_stats (globals w))
     = sm_totalFolders (summarization_stats st0)
  /\ ((List.length (summarization_logs st0) <= log_bound Summarize)%nat ->
      (List.length (summarization_logs (globals w)) <= log_bound Summarize)%nat).

Definition scraping_keeps (st0 : server_state) (w : world) : Prop :=
  same_conversion_part st0 (globals w)
  /\ same_summarization_part st0 (globals w)
  /\ current_job (globals w) = current_job st0
  /\ ((List.length (all_logs st0) <= log_bound Scrape)%nat ->
      (List.length (all_logs (globals w)) <= log_bound Scrape)%nat).

(** The constants of the status records: [totalFolders] is 0, the
    summarization target is the summary bucket, and the conversion target
    is unset or the text bucket. *)
Definition record_constants (st : server_state) : Prop :=
  sm_totalFolders (summarization_stats st) = 0
  /\ sm_targetBucket (summarization_stats st) = Some S3_SUMMARY_BUCKET_NAME
  /\ (cv_targetBucket (conversion_stats st) = None
      \/ cv_targetBucket (conversion_stats st) = Some S3_TEXT_BUCKET_NAME).

(** Progress is a percentage and the two counters are not negative. *)
Definition stats_in_range (s : scrape_stats) : Prop :=
  0 <= progress s <= 100 /\ 0 <= articlesFound s /\ 0 <= imagesFound s.

(** The number of lines of a list that satisfy a test. *)
Definition count_lines (test : string -> bool) (lines : list string) : Z :=
  Z.of_nat (List.length (filter test lines)).

(** A line in which both [a] and [b] occur. *)
Definition holds_both (a b line : string) : bool :=
  (PyStr.contains a line && PyStr.contains b line)%bool.

(** The lines the streaming loop processes: stripped, blank ones left out. *)
Definition processed_lines (raws : list string) : list string :=
  filter PyStr.truthy (map PyStr.strip raws).

(** [1] for a line that passes the test, [0] otherwise. *)
Definition hit (test : string -> bool) (line : string) : Z :=
  if test line then 1 else 0.

(** A start request that names its required key with a non-empty value. *)
Definition well_formed_start (e : post_endpoint) (data : request) : Prop :=
  exists v, required_field e data = Some (Some v) /\ v <> EmptyString.

(** The statistics record and the log buffer of a kind as a start
    endpoint leaves them. *)
Definition fresh_status (k : job_kind) : status_record :=
  match k with
  | Scrape => ScrapeRecord fresh_scrape_stats
  | Convert => ConvertRecord fresh_convert_stats
  | Summarize => SummarizeRecord fresh_summarize_stats
  end.

(** A request accepted with HTTP 200 and a thread started. *)
Definition accepted (r : http_response * server_state * option thread) : Prop :=
  status (fst (fst r)) = 200 /\ snd r <> None.

(** A file entry that comes from an object of the listing, one level
    below prefix [p]. *)
Definition entry_of_listing (p : string) (contents : list s3_object) (f : file_entry)
  : Prop :=
  fe_key f <> p
  /\ fe_name f = PyStr.slice_from (PyStr.len p) (fe_key f)
  /\ ~ occurs "/" (fe_name f)
  /\ exists o, In o contents /\ Key o = fe_key f /\ Size o = fe_size f
               /\ LastModified o = fe_lastModified f.

(** The request of [POST /list_bucket] for a bucket and a prefix. *)
Definition list_request (bucket : option string) (prefix : option string) : request :=
  mk_request None None None bucket prefix.

(** The text the conversion worker extracts from an article:
    [content], else [text], else [article]. *)
Definition article_text (data : json_doc) : string :=
  py_or (py_or (doc_get data "content" "") (doc_get data "text" ""))
        (doc_get data "article" "").

(** The object the conversion worker writes for the article stored under
    [key] with document [data]. *)
Definition text_object (key : string) (data : json_doc) : s3_put :=
  mk_s3_put S3_TEXT_BUCKET_NAME (PyStr.replace ".json" ".txt" key)
            (TextBody ("Title: " ++ doc_get data "title" "No Title" ++ nl
                       ++ "Author: " ++ doc_get data "author" "Unknown" ++ nl
                       ++ "Date: " ++ doc_get data "date" "Unknown" ++ nl ++ nl
                       ++ "Content:" ++ nl ++ article_text data))
            "text/plain".

(** An article of the listing [keys] that the worker converts: its key
    ends in [.json] and not in [_summary.json], its document can be read
    and holds text, and the store accepts its text object. *)
Definition converted_article (s3 : s3_env) (keys : list string) (key : string)
    (data : json_doc) : Prop :=
  In key keys
  /\ PyStr.endswith ".json" key = true
  /\ PyStr.endswith "_summary.json" key = false
  /\ s3_get_json s3 S3_BUCKET_NAME key = Ok data
  /\ article_text data <> EmptyString
  /\ s3_put_object s3 (text_object key data) = Ok tt.

(** An object written by the conversion worker: the text object of a
    converted article of the listing. *)
Definition text_put (s3 : s3_env) (keys : list string) (p : s3_put) : Prop :=
  exists key data, converted_article s3 keys key data /\ p = text_object key data.

(** What the conversion loop keeps true of its counter and of the writes
    made since world [w0], counter [n0], once the keys [keys] have been
    gone through. *)
Definition conversion_progress (s3 : s3_env) (w0 : world) (n0 : Z)
    (keys : list string) (acc : Z * world) : Prop :=
  conversion_stats (globals (snd acc)) = conversion_stats (globals w0)
  /\ exists new, puts (snd acc) = (puts w0 ++ new)%list
                 /\ fst acc = n0 + Z.of_nat (List.length new)
                 /\ Forall (text_put s3 keys) new
                 /\ (forall key data, converted_article s3 keys key data ->
                                      In (text_object key data) new).

(** The keys the conversion worker goes through for a session. *)
Definition listed_keys (s3 : s3_env) (src : string) : list string :=
  match s3_client s3 with
  | Ok _ => map Key (List.concat (fst (s3_paginate s3 S3_BUCKET_NAME (src ++ "/"))))
  | Raise _ => []
  end.

(** The [summary_type] of an object written by the summarization worker. *)
Definition summary_type_of (p : s3_put) : string :=
  match put_body p with
  | JsonBody [(_, _); (_, ty); (_, _)] => ty
  | _ => EmptyString
  end.

(** An object written by the summarization worker: a JSON document with
    the keys filename, summary_type and summary, in the summary bucket. *)
Definition summary_put (p : s3_put) : Prop :=
  put_bucket p = S3_SUMMARY_BUCKET_NAME
  /\ put_content_type p = "application/json"
  /\ exists fname ty summary,
       put_body p = JsonBody [("filename", fname); ("summary_type", ty);
                              ("summary", summary)]
       /\ (ty = "text" \/ ty = "image").

Definition count_puts (ty : string) (ps : list s3_put) : Z :=
  Z.of_nat (List.length (filter (fun p => String.eqb (summary_type_of p) ty) ps)).

Definition summarization_progress (w0 : world) (acc : Z * Z * world) : Prop :=
  summarization_stats (globals (snd acc)) = summarization_stats (globals w0)
  /\ exists new, puts (snd acc) = (puts w0 ++ new)%list
                 /\ fst (fst acc) = count_puts "text" new
                 /\ snd (fst acc) = count_puts "image" new
                 /\ Forall summary_put new.

(** The tag of a line that moves the statistics. *)
Definition marked (line : string) : bool :=
  (is_article_line line || is_image_line line || is_complete_line line)%bool.

(** Sample inputs: three log entries, a request that starts a
    conversion, and a job that was stopped. *)
Definition sample_entries : list log_entry :=
  [mk_log_entry "00:00:01" "one" "info"; mk_log_entry "00:00:02" "two" "info";
   mk_log_entry "00:00:03" "three" "success"].

Definition convert_request : request :=
  mk_request None None (Some "session_0") None None.

Definition scrape_request : request :=
  mk_request (Some "http://example.org") None None None None.

Definition stopped_job : job := job_stop sample_job.

(** A store that holds every key, the two line breaks, and the message
    of the framework's refusal. *)
Definition sample_get_object (bucket key : option string) : result s3_file :=
  Ok (mk_s3_file "body" (Some "text/plain")).

Definition lf : string := String (ascii_of_nat 10) EmptyString.


Definition newline_refusal : string :=
  "Header values must not contain newline characters.".

(** The lines the statistics update looks for. *)
Definition article_line (line : string) : Prop :=
  occurs "SAVED:" line /\ occurs "article.json" line.

Definition image_line (line : string) : Prop :=
  occurs "SUCCESS: Saved" line /\ occurs "image.jpg" line.

Definition complete_line (line : string) : Prop :=
  occurs "COMPLETE" (PyStr.upper line).

(** The band in exact arithmetic: the integer part of
    [min(base + count/n*span, cap)] for [count >= 0] and [n > 0]. *)
Definition exact_band (base span cap count n : Z) : Z :=
  Z.min cap (base + span * count / n).

Definition result_is (r : result Z) (v : Z) : bool :=
  match r with
  | Ok x => x =? v
  | Raise _ => false
  end.

Definition zrange (lo : Z) (k : nat) : list Z :=
  map (fun i => lo + Z.of_nat i) (seq 0 k).

(** The two bands agree with exact arithmetic for every [n] from 1 to
    [nmax] and every count from 0 to [2 * n]. *)
Definition bands_exact_upto (nmax : nat) : bool :=
  forallb (fun n =>
     forallb (fun a =>
        result_is (article_band a n) (exact_band 15 65 80 a n)
        && result_is (image_band a n) (exact_band 80 15 95 a n))
       (zrange 0 (Z.to_nat (2 * n + 1))))
    (zrange 1 nmax).

(* ================================================================== *)
(** * Properties *)
(* ================================================================== *)

(** ** Concrete runs *)

Example classify_samples :
  map _classify_log_line
      ["ERROR: boom"; "Saved file"; "Filtered out"; "hello"; "Failed but saved"]
  = ["error"; "success"; "warning"; "info"; "error"].
Proof. reflexivity. Qed.

Example string_samples :
  (PyStr.strip ("  SAVED: x " ++ nl), PyStr.rstrip_slash "img//",
   PyStr.replace ".json" ".txt" "a/b.json", PyStr.last_segment "a/b/c.json",
   PyStr.before_last_dot "a.b/c.jpg", PyStr.of_Z 10)
  = ("SAVED: x", "img", "a/b.txt", "c.json", "a.b/c", "10").
Proof. reflexivity. Qed.

(** Characters beyond ASCII: a character is counted once whatever the
    number of its bytes, and the spaces beyond ASCII are stripped. *)
Example character_samples :
  (PyStr.chars "é✓a", PyStr.len "é✓a", PyStr.slice_to 2 "é✓a",
   PyStr.strip (nbsp ++ " SAVED: é " ++ ideographic_space ++ nl),
   PyStr.strip (nbsp ++ ideographic_space))
  = (["é"; "✓"; "a"], 3%nat, "é✓", "SAVED: é", "").
Proof. reflexivity. Qed.

(** One saved article and one saved image for ten requested articles,
    then a clean exit. *)
Example successful_run :
  let '(self, w) :=
    _run_scraping midnight
      (mk_proc_script (Ok tt)
         [StdoutLine ("SAVED: a/article.json" ++ nl); StdoutLine nl;
          StdoutLine ("SUCCESS: Saved a/image.jpg" ++ nl)] 0)
      sample_job sample_world in
  (is_running self, scraping_active (globals w), scraping_stats (globals w))
  = (false, false, mk_scrape_stats 1 1 1 100 true (Some "session_0")).
Proof. vm_compute. reflexivity. Qed.

(** With maxArticles = 0 the first saved article raises inside the
    statistics update; the worker logs the message and resets progress. *)
Example zero_max_articles_run :
  let '(self, w) :=
    _run_scraping midnight
      (mk_proc_script (Ok tt) [StdoutLine "SAVED: a/article.json"] 0)
      (mk_job "http://example.org" 0 true "session_0") sample_world in
  (scraping_active (globals w), progress_of w,
   option_map message (last_entry (all_logs (globals w))))
  = (false, 0, Some "Error: division by zero").
Proof. vm_compute. reflexivity. Qed.

Example conversion_run :
  let w := _run_conversion midnight sample_s3 "s" (mk_world initial_state 0 []) in
  (conversion_active (globals w), cv_filesConverted (conversion_stats (globals w)),
   map message (conversion_logs (globals w)), map put_key (puts w))
  = (false, Some 1,
     ["Starting conversion for session: s";
      "Listing files in s3://bockscraper/s/";
      "Converted: s/a.json -> s/a.txt";
      "Error converting s/c.json: NoSuchKey";
      "Conversion complete! 1 files converted to s3://bockscraper1"],
     ["s/a.txt"]).
Proof. vm_compute. reflexivity. Qed.

Example summarization_run_without_model :
  let w := _run_summarization midnight sample_s3 broken_ai "s"
             (mk_world initial_state 0 []) in
  (summarization_active (globals w), sm_error (summarization_stats (globals w)),
   option_map message (last_entry (summarization_logs (globals w))))
  = (false, Some "model download failed",
     Some "Summarization failed: model download failed").
Proof. vm_compute. reflexivity. Qed.

(** [sample_world] holds the globals as [POST /start_scraping] leaves
    them. *)
Example sample_world_is_started :
  start_scraping 0 (mk_request (Some "http://example.org") None None None None)
                 initial_state
  = (mk_response 200 (JObj [("status", JStr "started");
                            ("sessionId", JStr "session_0");
                            ("message", JStr "Scraping job started")]),
     globals sample_world, Some (ScrapeThread sample_job)).
Proof. reflexivity. Qed.

(** ** Substring search *)

Lemma startswith_iff (w s : string) :
  PyStr.startswith w s = true <-> exists post, s = w ++ post.
Proof.
  revert s. induction w as [|a w IH]; intros s; simpl.
  - split; [intros _; now exists s | reflexivity].
  - destruct s as [|b s]; simpl.
    + split; [discriminate | intros [post H]; discriminate].
    + rewrite andb_true_iff, Ascii.eqb_eq, IH. split.
      * intros [-> [post ->]]. now exists post.
      * intros [post H]. injection H as -> ->. split; [reflexivity | now exists post].
Qed.

Lemma contains_iff (w s : string) :
  PyStr.contains w s = true <-> occurs w s.
Proof.
  unfold occurs. induction s as [|c s IH]; simpl.
  - rewrite startswith_iff. split.
    + intros [post H]. exists "", post. exact H.
    + intros [pre [post H]]. destruct pre; [|discriminate]. now exists post.
  - rewrite orb_true_iff, IH, (startswith_iff w (String c s)). split.
    + intros [[post H] | [pre [post H]]].
      * exists "", post. exact H.
      * exists (String c pre), post. simpl. now rewrite H.
    + intros [pre [post H]]. destruct pre as [|c' pre]; simpl in H.
      * left. now exists post.
      * right. injection H as _ H. now exists pre, post.
Qed.

Lemma any_in_iff (words : list string) (s : string) :
  any_in words s = true <-> occurs_any words s.
Proof.
  unfold any_in, occurs_any. rewrite existsb_exists.
  split; intros [w [Hin H]]; exists w; (split; [exact Hin|]); now apply contains_iff.
Qed.

Lemma any_in_false_iff (words : list string) (s : string) :
  any_in words s = false <-> ~ occurs_any words s.
Proof.
  rewrite <- any_in_iff. destruct (any_in words s); split; congruence.
Qed.

(** ** The log classifier *)

(** C3.  For every log line the classifier returns one of the four tags
    error, success, warning, info, chosen by keyword occurrence in the
    lowercased line in this priority order: error when one of error,
    failed, exception occurs; otherwise success when one of success,
    saved, complete occurs; otherwise warning when warning or filtered
    occurs; otherwise info. *)
Theorem classify_log_line_priority (line : string) :
  let l := PyStr.lower line in
  let err := occurs_any ["error"; "failed"; "exception"] l in
  let suc := occurs_any ["success"; "saved"; "complete"] l in
  let war := occurs_any ["warning"; "filtered"] l in
  In (_classify_log_line line) ["error"; "success"; "warning"; "info"]
  /\ (_classify_log_line line = "error" <-> err)
  /\ (_classify_log_line line = "success" <-> ~ err /\ suc)
  /\ (_classify_log_line line = "warning" <-> ~ err /\ ~ suc /\ war)
  /\ (_classify_log_line line = "info" <-> ~ err /\ ~ suc /\ ~ war).
Proof.
  intros l err suc war. unfold _classify_log_line. fold l.
  pose proof (any_in_iff ERROR_WORDS l) as He.
  pose proof (any_in_iff SUCCESS_WORDS l) as Hs.
  pose proof (any_in_iff WARNING_WORDS l) as Hw.
  pose proof (any_in_false_iff ERROR_WORDS l) as He'.
  pose proof (any_in_false_iff SUCCESS_WORDS l) as Hs'.
  pose proof (any_in_false_iff WARNING_WORDS l) as Hw'.
  change (occurs_any ERROR_WORDS l) with err in He, He'.
  change (occurs_any SUCCESS_WORDS l) with suc in Hs, Hs'.
  change (occurs_any WARNING_WORDS l) with war in Hw, Hw'.
  destruct (any_in ERROR_WORDS l);
    [| destruct (any_in SUCCESS_WORDS l); [| destruct (any_in WARNING_WORDS l)]].
  all: assert (Hyes : forall P : Prop, (true = true <-> P) -> P)
         by (intros P H; now apply H).
  all: assert (Hno : forall P : Prop, (false = false <-> ~ P) -> ~ P)
         by (intros P H; now apply H).
  all: repeat match goal with
         | H : true = true <-> _ |- _ => apply Hyes in H
         | H : false = false <-> _ |- _ => apply Hno in H
         | H : true = false <-> _ |- _ => clear H
         | H : false = true <-> _ |- _ => clear H
         end.
  all: simpl; repeat split; try tauto; try discriminate; intros; try tauto.
Qed.

Lemma lower_char_case_pair (a b : ascii) :
  case_pair a b -> PyStr.lower_char a = PyStr.lower_char b.
Proof.
  assert (Hup : forall x y : ascii,
             is_upper_letter x = true ->
             nat_of_ascii y = (nat_of_ascii x + 32)%nat ->
             PyStr.lower_char x = PyStr.lower_char y).
  { intros x y Hx Hy. unfold PyStr.lower_char, is_upper_letter in *.
    rewrite Hx. rewrite Hy.
    apply andb_true_iff in Hx as [H1 H2].
    apply Nat.leb_le in H1. apply Nat.leb_le in H2.
    replace (Nat.leb (nat_of_ascii x + 32) 90) with false
      by (symmetry; apply Nat.leb_gt; lia).
    rewrite andb_false_r. rewrite <- Hy. now rewrite ascii_nat_embedding. }
  intros [-> | [[H1 H2] | [H1 H2]]].
  - reflexivity.
  - now apply Hup.
  - symmetry. now apply Hup.
Qed.

Lemma lower_char_beyond_ascii (c : ascii) :
  is_ascii c = false -> PyStr.lower_char c = c.
Proof.
  unfold is_ascii, PyStr.lower_char. intros H. apply Nat.ltb_ge in H.
  replace (Nat.leb (nat_of_ascii c) 90) with false
    by (symmetry; apply Nat.leb_gt; lia).
  now rewrite andb_false_r.
Qed.

Lemma eqb_ascii_beyond (a x : ascii) :
  is_ascii a = true -> is_ascii x = false -> Ascii.eqb a x = false.
Proof.
  intros Ha Hx. destruct (Ascii.eqb_spec a x) as [-> | _]; [congruence | reflexivity].
Qed.

Lemma pair_members_beyond_ascii (pairs : list (string * string)) (u v : string) :
  pairs_beyond_ascii pairs -> In (u, v) pairs \/ In (v, u) pairs ->
  beyond_ascii u /\ beyond_ascii v.
Proof.
  unfold pairs_beyond_ascii. rewrite Forall_forall. intros H [Hin | Hin].
  - exact (H _ Hin).
  - destruct (H _ Hin) as [H1 H2]. now split.
Qed.

(** An ASCII word does not start at a character beyond ASCII. *)
Lemma startswith_beyond_ascii (w u s : string) :
  w <> "" -> all_chars is_ascii w = true -> beyond_ascii u ->
  PyStr.startswith w (PyStr.lower (u ++ s)) = false.
Proof.
  intros Hw Ha [Hu Hall]. destruct w as [|a w]; [congruence|].
  destruct u as [|x u]; [congruence|].
  simpl in Ha, Hall. apply andb_true_iff in Ha as [Ha _].
  apply andb_true_iff in Hall as [Hx _]. apply negb_true_iff in Hx.
  unfold PyStr.lower. simpl. rewrite (lower_char_beyond_ascii x Hx).
  now rewrite (eqb_ascii_beyond a x Ha Hx).
Qed.

Lemma contains_beyond_ascii (w u s : string) :
  w <> "" -> all_chars is_ascii w = true ->
  all_chars (fun c => negb (is_ascii c)) u = true ->
  PyStr.contains w (PyStr.lower (u ++ s)) = PyStr.contains w (PyStr.lower s).
Proof.
  intros Hw Ha. induction u as [|x u IH]; intros Hall; [reflexivity|].
  simpl in Hall. apply andb_true_iff in Hall as [Hx Hall].
  change (PyStr.lower (String x u ++ s))
    with (String (PyStr.lower_char x) (PyStr.lower (u ++ s))).
  cbn [PyStr.contains].
  change (String (PyStr.lower_char x) (PyStr.lower (u ++ s)))
    with (PyStr.lower (String x "" ++ (u ++ s))).
  rewrite (startswith_beyond_ascii w (String x "") (u ++ s) Hw Ha).
  - simpl. now apply IH.
  - split; [discriminate|]. simpl. now rewrite Hx.
Qed.

Lemma startswith_case_variant (pairs : list (string * string)) (s t : string) :
  pairs_beyond_ascii pairs -> case_variant pairs s t ->
  forall w, all_chars is_ascii w = true ->
    PyStr.startswith w (PyStr.lower s) = PyStr.startswith w (PyStr.lower t).
Proof.
  intros Hp. induction 1 as [|a b s t Hab _ IH | u v s t Huv _ IH]; intros w Hw.
  - reflexivity.
  - destruct w as [|c w]; [reflexivity|].
    simpl in Hw. apply andb_true_iff in Hw as [_ Hw].
    unfold PyStr.lower in *. simpl.
    now rewrite (lower_char_case_pair a b Hab), (IH w Hw).
  - destruct w as [|c w]; [now destruct (PyStr.lower (u ++ s)), (PyStr.lower (v ++ t))|].
    destruct (pair_members_beyond_ascii pairs u v Hp Huv) as [Hu Hv].
    rewrite !startswith_beyond_ascii; try assumption; try discriminate; reflexivity.
Qed.

Lemma contains_case_variant (pairs : list (string * string)) (s t : string) :
  pairs_beyond_ascii pairs -> case_variant pairs s t ->
  forall w, w <> "" -> all_chars is_ascii w = true ->
    PyStr.contains w (PyStr.lower s) = PyStr.contains w (PyStr.lower t).
Proof.
  intros Hp Hv. pose proof (startswith_case_variant pairs) as Hstart.
  induction Hv as [|a b s t Hab Hst IH | u v s t Huv Hst IH]; intros w Hw Ha.
  - reflexivity.
  - pose proof (Hstart _ _ Hp (case_variant_cons pairs a b s t Hab Hst) w Ha) as H1.
    change (PyStr.lower (String a s))
      with (String (PyStr.lower_char a) (PyStr.lower s)) in *.
    change (PyStr.lower (String b t))
      with (String (PyStr.lower_char b) (PyStr.lower t)) in *.
    cbn [PyStr.contains]. now rewrite H1, (IH w Hw Ha).
  - destruct (pair_members_beyond_ascii pairs u v Hp Huv) as [[_ Hu] [_ Hv']].
    rewrite !contains_beyond_ascii; try assumption. now apply IH.
Qed.

Lemma any_in_case_variant (pairs : list (string * string)) (s t : string)
    (words : list string) :
  pairs_beyond_ascii pairs -> case_variant pairs s t ->
  Forall (fun w => w <> "" /\ all_chars is_ascii w = true) words ->
  any_in words (PyStr.lower s) = any_in words (PyStr.lower t).
Proof.
  intros Hp Hv Hwords. unfold any_in.
  induction Hwords as [|w words [Hw Ha] _ IH]; [reflexivity|].
  simpl. now rewrite (contains_case_variant pairs s t Hp Hv w Hw Ha), IH.
Qed.

Lemma lower_ascii_case_variant (pairs : list (string * string)) (s t : string) :
  pairs_beyond_ascii pairs -> case_variant pairs s t ->
  all_chars is_ascii s = true -> PyStr.lower s = PyStr.lower t.
Proof.
  intros Hp. induction 1 as [|a b s t Hab _ IH | u v s t Huv _ IH]; intros Hs.
  - reflexivity.
  - simpl in Hs. apply andb_true_iff in Hs as [_ Hs].
    unfold PyStr.lower in *. simpl. now rewrite (IH Hs), (lower_char_case_pair a b Hab).
  - destruct (pair_members_beyond_ascii pairs u v Hp Huv) as [[Hne Hu] _].
    destruct u as [|x u]; [congruence|]. simpl in Hs, Hu.
    apply andb_true_iff in Hs as [Hx _]. apply andb_true_iff in Hu as [Hx' _].
    rewrite Hx in Hx'. discriminate.
Qed.

(** C10 as stated fails for a case pair with one member in ASCII: the
    long s is a small letter whose capital is S, so the two lines below
    differ only in letter case; the first is tagged info, its capitalised
    form success. *)
Lemma long_s_changes_the_tag :
  case_variant [long_s_pair] "ſaved file" "SAVED FILE"
  /\ _classify_log_line "ſaved file" = "info"
  /\ _classify_log_line "SAVED FILE" = "success".
Proof.
  split; [|split; reflexivity].
  apply (case_variant_pair [long_s_pair] "ſ" "S" "aved file" "AVED FILE");
    [left; now left|].
  repeat (apply case_variant_cons;
          [first [ left; reflexivity
                 | right; left; split; reflexivity
                 | right; right; split; reflexivity ] |]).
  apply case_variant_nil.
Qed.

(** C10, amended.  Classification is insensitive to the case of ASCII
    letters and to every case pair both of whose members lie beyond
    ASCII: two lines that differ only in these receive the same severity
    tag, because the line is lowercased before the keyword lists, which
    are ASCII, are matched; when the line is ASCII the two lowercase
    forms are equal.  A case pair with one member in ASCII, as the long s
    and S, can change the tag. *)
Theorem classify_case_insensitive (pairs : list (string * string))
    (line variant : string) :
  pairs_beyond_ascii pairs ->
  case_variant pairs line variant ->
  _classify_log_line line = _classify_log_line variant
  /\ (all_chars is_ascii line = true -> PyStr.lower line = PyStr.lower variant).
Proof.
  intros Hp Hv. split; [|now apply (lower_ascii_case_variant pairs)].
  unfold _classify_log_line.
  rewrite (any_in_case_variant pairs line variant ERROR_WORDS Hp Hv),
          (any_in_case_variant pairs line variant SUCCESS_WORDS Hp Hv),
          (any_in_case_variant pairs line variant WARNING_WORDS Hp Hv);
    [reflexivity | | |];
    repeat constructor; discriminate.
Qed.

Lemma classify_case_insensitive_witness :
  pairs_beyond_ascii [e_acute_pair]
  /\ case_variant [e_acute_pair] "Échec: download FAILED" "échec: Download failed"
  /\ _classify_log_line "Échec: download FAILED" = "error"
  /\ _classify_log_line "échec: Download failed" = "error".
Proof.
  assert (Hp : pairs_beyond_ascii [e_acute_pair]).
  { repeat constructor; discriminate. }
  assert (H : case_variant [e_acute_pair]
                           "Échec: download FAILED" "échec: Download failed").
  { apply (case_variant_pair [e_acute_pair] "É" "é"
                             "chec: download FAILED" "chec: Download failed");
      [right; now left|].
    repeat (apply case_variant_cons;
            [first [ left; reflexivity
                   | right; left; split; reflexivity
                   | right; right; split; reflexivity ] |]).
    apply case_variant_nil. }
  split; [exact Hp | split; [exact H|]].
  destruct (classify_case_insensitive _ _ _ Hp H) as [Heq _].
  split; [reflexivity | rewrite <- Heq; reflexivity].
Defined.

(** ** Log buffers *)

Lemma append_bounded_length (bound : nat) (buf : list log_entry) (e : log_entry) :
  (List.length buf <= bound)%nat ->
  (List.length (append_bounded bound buf e) <= bound)%nat.
Proof.
  intros H. unfold append_bounded.
  destruct (Nat.ltb_spec bound (List.length (buf ++ [e]))) as [Hlt | Hge].
  - destruct buf as [|x buf]; simpl in *; [lia|].
    rewrite length_app in *. simpl in *. lia.
  - exact Hge.
Qed.

Lemma append_bounded_room (bound : nat) (buf : list log_entry) (e : log_entry) :
  (List.length buf < bound)%nat ->
  append_bounded bound buf e = (buf ++ [e])%list.
Proof.
  intros H. unfold append_bounded.
  destruct (Nat.ltb_spec bound (List.length (buf ++ [e]))) as [Hlt | Hge];
    [|reflexivity].
  rewrite length_app in Hlt. simpl in Hlt. lia.
Qed.

Lemma append_bounded_full (bound : nat) (buf : list log_entry) (e : log_entry) :
  (0 < bound)%nat -> List.length buf = bound ->
  append_bounded bound buf e = (List.tl buf ++ [e])%list.
Proof.
  intros Hpos H. unfold append_bounded.
  destruct (Nat.ltb_spec bound (List.length (buf ++ [e]))) as [Hlt | Hge].
  - destruct buf as [|x buf]; [simpl in H; lia | reflexivity].
  - rewrite length_app in Hge. simpl in Hge. lia.
Qed.

Lemma append_bounded_last (bound : nat) (buf : list log_entry) (e : log_entry) :
  (0 < bound)%nat -> last_entry (append_bounded bound buf e) = Some e.
Proof.
  intros Hpos. unfold append_bounded, last_entry.
  destruct (Nat.ltb_spec bound (List.length (buf ++ [e]))) as [Hlt | Hge].
  - destruct buf as [|x buf].
    + simpl in Hlt. lia.
    + simpl. rewrite map_app. simpl. apply last_last.
  - rewrite map_app. simpl. apply last_last.
Qed.

Lemma log_buffer_append (k : job_kind) (ts msg log_type : string) (st : server_state) :
  log_buffer k (append_log k ts msg log_type st)
  = append_bounded (log_bound k) (log_buffer k st) (mk_log_entry ts msg log_type).
Proof. destruct k; reflexivity. Qed.

(** C5.  Each append function keeps its buffer within its bound: a
    buffer of at most [log_bound k] entries still has at most that many
    after the call; below the bound the entry is added at the end, and at
    the bound the oldest entry is dropped to make room.  The bounds are
    500 (scrape), 200 (conversion) and 300 (summarization). *)
Theorem log_buffer_bounded (k : job_kind) (ts msg log_type : string) (st : server_state) :
  (List.length (log_buffer k st) <= log_bound k)%nat ->
  let st' := append_log k ts msg log_type st in
  let entry := mk_log_entry ts msg log_type in
  (List.length (log_buffer k st') <= log_bound k)%nat
  /\ ((List.length (log_buffer k st) < log_bound k)%nat ->
      log_buffer k st' = (log_buffer k st ++ [entry])%list)
  /\ (List.length (log_buffer k st) = log_bound k ->
      log_buffer k st' = (List.tl (log_buffer k st) ++ [entry])%list)
  /\ (SCRAPE_LOG_BOUND, CONVERSION_LOG_BOUND, SUMMARIZATION_LOG_BOUND)
     = (500%nat, 200%nat, 300%nat).
Proof.
  intros H st' entry. subst st'. rewrite log_buffer_append. fold entry.
  assert (Hpos : (0 < log_bound k)%nat) by (destruct k; simpl; lia).
  repeat split.
  - now apply append_bounded_length.
  - apply append_bounded_room.
  - now apply append_bounded_full.
Qed.

Lemma log_buffer_bounded_witness :
  (List.length (log_buffer Scrape initial_state) <= log_bound Scrape)%nat
  /\ log_buffer Scrape (append_log Scrape "12:00:00" "hello" "info" initial_state)
     = [mk_log_entry "12:00:00" "hello" "info"].
Proof.
  assert (H : (List.length (log_buffer Scrape initial_state) <= log_bound Scrape)%nat)
    by (simpl; lia).
  split; [exact H|].
  destruct (log_buffer_bounded Scrape "12:00:00" "hello" "info" initial_state H)
    as [_ [Hroom _]].
  apply Hroom. simpl. lia.
Defined.

(** ** The POST endpoints and the active flags *)

(** C1, as stated, fails at [POST /stop_scraping]: with the scrape flag
    set it answers 200 and clears the flag. *)
Lemma stop_scraping_not_rejected :
  active_flag (endpoint_kind PostStopScraping) scraping_state = true
  /\ ~ rejected_untouched PostStopScraping 0 empty_request scraping_state.
Proof.
  split; [reflexivity|].
  unfold rejected_untouched. simpl. intros [H _]. discriminate H.
Qed.

(** C1, amended.  While a kind's active flag is set, each start endpoint
    of that kind (POST /start_scraping, /convert_to_text,
    /generate_summaries) answers HTTP 400 with an error body, starts no
    thread and leaves the globals as they were; POST /stop_scraping does
    not test the flag: it answers 200 with status stopped, clears the scrape flag and
    leaves the scrape status record and log buffer as they were. *)
Theorem post_while_active (e : post_endpoint) (t : Z) (data : request)
    (st : server_state) :
  active_flag (endpoint_kind e) st = true ->
  match e with
  | PostStopScraping =>
      let '(resp, st', thr) := dispatch e t data st in
      resp = mk_response 200 (JObj [("status", JStr "stopped")])
      /\ thr = None
      /\ scraping_active st' = false
      /\ scraping_stats st' = scraping_stats st
      /\ all_logs st' = all_logs st
  | _ =>
      rejected_untouched e t data st
      /\ dispatch e t data st
         = (error_response 400
              match endpoint_kind e with
              | Scrape => "Scraping already in progress"
              | Convert => "Conversion already in progress"
              | Summarize => "Summarization already in progress"
              end, st, None)
  end.
Proof.
  intros H. destruct e; unfold rejected_untouched; simpl in *.
  - unfold start_scraping. rewrite H. simpl. now rewrite H.
  - unfold stop_scraping. destruct (current_job st); simpl; repeat split.
  - unfold convert_to_text. rewrite H. simpl. now rewrite H.
  - unfold generate_summaries. rewrite H. simpl. now rewrite H.
Qed.

Lemma post_while_active_witness :
  active_flag (endpoint_kind PostStartScraping) scraping_state = true
  /\ dispatch PostStartScraping 0 empty_request scraping_state
     = (error_response 400 "Scraping already in progress", scraping_state, None).
Proof.
  assert (H : active_flag (endpoint_kind PostStartScraping) scraping_state = true)
    by reflexivity.
  split; [exact H|].
  exact (proj2 (post_while_active PostStartScraping 0 empty_request
                                      scraping_state H)).
Defined.

(** C8.  A start endpoint whose job kind is idle and whose required key
    ([url] for /start_scraping, [sourceSession] for /convert_to_text and
    /generate_summaries) is missing or empty answers HTTP 400 with an
    error body, starts no thread and leaves the globals exactly as they
    were. *)
Theorem missing_field_rejected (e : post_endpoint) (t : Z) (data : request)
    (st : server_state) (field : option string) :
  required_field e data = Some field ->
  missing_or_empty field ->
  active_flag (endpoint_kind e) st = false ->
  exists resp,
    dispatch e t data st = (resp, st, None)
    /\ status resp = 400
    /\ is_error_body (body resp) = true
    /\ rejected_untouched e t data st.
Proof.
  intros Hreq Hmiss Hidle.
  destruct e; simpl in Hreq, Hidle; try discriminate;
    injection Hreq as <-; unfold rejected_untouched; simpl.
  - assert (Hf : truthy_opt (r_url data) = false)
      by (destruct Hmiss as [-> | ->]; reflexivity).
    unfold start_scraping. rewrite Hidle, Hf. simpl.
    eexists. repeat split; first [reflexivity | exact Hidle].
  - assert (Hf : PyStr.truthy (get_default (r_sourceSession data) "") = false)
      by (destruct Hmiss as [-> | ->]; reflexivity).
    unfold convert_to_text. rewrite Hidle, Hf. simpl.
    eexists. repeat split; first [reflexivity | exact Hidle].
  - assert (Hf : PyStr.truthy (get_default (r_sourceSession data) "") = false)
      by (destruct Hmiss as [-> | ->]; reflexivity).
    unfold generate_summaries. rewrite Hidle, Hf. simpl.
    eexists. repeat split; first [reflexivity | exact Hidle].
Qed.

Lemma missing_field_rejected_witness :
  exists resp,
    dispatch PostConvertToText 0
             (mk_request (Some "http://example.org") None (Some "") None None)
             initial_state
    = (resp, initial_state, None)
    /\ status resp = 400.
Proof.
  destruct (missing_field_rejected PostConvertToText 0
              (mk_request (Some "http://example.org") None (Some "") None None)
              initial_state (Some "") eq_refl (or_intror eq_refl) eq_refl)
    as [resp [H1 [H2 _]]].
  exists resp. split; assumption.
Defined.

(** ** The counters of the scrape statistics *)

Lemma fold_left_invariant {A B : Type} (P : A -> Prop) (f : A -> B -> A)
    (l : list B) (a : A) :
  (forall x b, P x -> P (f x b)) -> P a -> P (fold_left f l a).
Proof.
  intros Hstep. revert a. induction l as [|b l IH]; simpl; intros a Ha.
  - exact Ha.
  - apply IH, Hstep, Ha.
Qed.

Ltac break_match :=
  match goal with
  | |- context [match ?x with _ => _ end] => destruct x eqn:?
  | |- context [if ?b then _ else _] => destruct b eqn:?
  end.

Lemma article_step_counters (n : Z) (line : string) (s : scrape_stats) :
  counters_agree s -> counters_agree (fst (article_step n line s)).
Proof.
  unfold article_step, counters_agree. intros H.
  destruct (is_article_line line); [|exact H].
  destruct (article_band _ n); reflexivity.
Qed.

Lemma image_step_counters (n : Z) (line : string) (s : scrape_stats) :
  counters_agree s -> counters_agree (fst (image_step n line s)).
Proof.
  unfold image_step, counters_agree. intros H.
  destruct (is_image_line line); [|exact H].
  destruct (image_band _ n); exact H.
Qed.

Lemma update_stats_counters (n : Z) (line : string) (s : scrape_stats) :
  counters_agree s -> counters_agree (fst (_update_stats_from_log n line s)).
Proof.
  intros H. unfold _update_stats_from_log.
  pose proof (article_step_counters n line s H) as Ha.
  destruct (article_step n line s) as [s1 [e|]]; simpl in *; [exact Ha|].
  pose proof (image_step_counters n line s1 Ha) as Hi.
  destruct (image_step n line s1) as [s2 [e|]]; simpl in *; [exact Hi|].
  unfold complete_step. destruct (is_complete_line line); exact Hi.
Qed.

(** A completed article line leaves the two counters equal whatever they
    were before. *)
Lemma article_line_sets_saved (n : Z) (line : string) (s : scrape_stats) :
  is_article_line line = true ->
  let s' := fst (article_step n line s) in
  articlesFound s' = articlesFound s + 1 /\ articlesSaved s' = articlesFound s'.
Proof.
  intros H. unfold article_step. rewrite H.
  destruct (article_band _ n); split; reflexivity.
Qed.

Lemma process_line_counters clock (self : job) (raw : string) (w : world) :
  worker_agrees w -> worker_agrees (fst (process_line clock self raw w)).
Proof.
  unfold worker_agrees, process_line. intros H.
  destruct (PyStr.truthy (PyStr.strip raw)); [|exact H].
  pose proof (update_stats_counters (max_articles self) (PyStr.strip raw) _
                (H : counters_agree
                       (scraping_stats
                          (globals (log_scrape clock (PyStr.strip raw)
                                      (_classify_log_line (PyStr.strip raw)) w))))) as Hu.
  destruct (_update_stats_from_log _ _ _) as [s exn]. exact Hu.
Qed.

Lemma stream_output_counters clock (evs : list proc_event) (self : job) (w : world) :
  worker_agrees w -> worker_agrees (snd (fst (stream_output clock evs self w))).
Proof.
  revert self w. induction evs as [|ev evs IH]; intros self w H; simpl.
  - exact H.
  - destruct ev as [raw|].
    + destruct (negb (is_running self)); [exact H|].
      pose proof (process_line_counters clock self raw w H) as Hp.
      destruct (process_line clock self raw w) as [w1 [e|]]; simpl in *.
      * exact Hp.
      * apply IH, Hp.
    + apply IH. exact H.
Qed.

Lemma run_scraping_counters clock (script : proc_script) (self : job) (w : world) :
  worker_agrees w -> worker_agrees (snd (_run_scraping clock script self w)).
Proof.
  intros H. unfold _run_scraping, scraping_body.
  assert (H1 : worker_agrees (worker_announce clock self (worker_begin clock w))) by exact H.
  destruct (popen script); [|exact H1].
  pose proof (stream_output_counters clock (events script) self _ H1) as Hs.
  destruct (stream_output clock (events script) self _) as [[self1 w2] [e|]];
    simpl in *; [exact Hs|].
  unfold worker_finish.
  destruct ((returncode script =? 0) && is_running self1)%bool; exact Hs.
Qed.

(** The conversion and summarization workers never write the scrape
    statistics. *)
Lemma convert_pages_frame clock s3 pages (acc : Z * world) :
  scraping_stats (globals (snd (convert_pages clock s3 pages acc)))
  = scraping_stats (globals (snd acc)).
Proof.
  unfold convert_pages.
  apply (fold_left_invariant
           (fun a : Z * world =>
              scraping_stats (globals (snd a)) = scraping_stats (globals (snd acc))));
    [|reflexivity].
  intros x page Hx.
  apply (fold_left_invariant
           (fun a : Z * world =>
              scraping_stats (globals (snd a)) = scraping_stats (globals (snd acc))));
    [|exact Hx].
  intros [n w] obj Hy. unfold convert_object. repeat break_match; exact Hy.
Qed.

Lemma run_conversion_frame clock s3 src (w : world) :
  scraping_stats (globals (_run_conversion clock s3 src w)) = scraping_stats (globals w).
Proof.
  unfold _run_conversion, conversion_body.
  destruct (s3_client s3); [|reflexivity].
  destruct (s3_paginate s3 _ _) as [pages failure].
  pose proof (convert_pages_frame clock s3 pages
                (0, log_conversion clock
                      ("Listing files in s3://" ++ S3_BUCKET_NAME ++ "/" ++ (src ++ "/"))
                      "info"
                      (log_conversion clock ("Starting conversion for session: " ++ src)
                                      "info" w))) as Hf.
  destruct (convert_pages _ _ _ _) as [n w3]. simpl in Hf.
  destruct failure; simpl; exact Hf.
Qed.

Lemma summarize_pages_frame clock s3 ai pages (acc : Z * Z * world) :
  scraping_stats (globals (snd (summarize_pages clock s3 ai pages acc)))
  = scraping_stats (globals (snd acc)).
Proof.
  unfold summarize_pages.
  apply (fold_left_invariant
           (fun a : Z * Z * world =>
              scraping_stats (globals (snd a)) = scraping_stats (globals (snd acc))));
    [|reflexivity].
  intros x page Hx.
  apply (fold_left_invariant
           (fun a : Z * Z * world =>
              scraping_stats (globals (snd a)) = scraping_stats (globals (snd acc))));
    [|exact Hx].
  intros [[n m] w] obj Hy. unfold summarize_object. repeat break_match; exact Hy.
Qed.

Lemma load_models_frame clock ai (w : world) :
  scraping_stats (globals (fst (load_models clock ai w))) = scraping_stats (globals w).
Proof. unfold load_models. repeat break_match; reflexivity. Qed.

Lemma run_summarization_frame clock s3 ai src (w : world) :
  scraping_stats (globals (_run_summarization clock s3 ai src w))
  = scraping_stats (globals w).
Proof.
  unfold _run_summarization, summarization_body.
  destruct (s3_client s3); [|reflexivity].
  match goal with |- context [load_models clock ai ?w0] =>
    pose proof (load_models_frame clock ai w0) as Hl;
    destruct (load_models clock ai w0) as [w3 [e|]] end; simpl in Hl; [exact Hl|].
  destruct (s3_paginate s3 _ _) as [pages failure].
  pose proof (summarize_pages_frame clock s3 ai pages (0, 0, w3)) as Hf.
  destruct (summarize_pages _ _ _ _ _) as [[n m] w4]. simpl in Hf.
  destruct failure; simpl; congruence.
Qed.

Lemma dispatch_counters (e : post_endpoint) (t : Z) (data : request) (st : server_state) :
  counters_agree (scraping_stats st) ->
  counters_agree (scraping_stats (snd (fst (dispatch e t data st)))).
Proof.
  intros H. destruct e; simpl.
  - unfold start_scraping. repeat break_match; simpl; first [exact H | reflexivity].
  - unfold stop_scraping. destruct (current_job st); exact H.
  - unfold convert_to_text. repeat break_match; exact H.
  - unfold generate_summaries. repeat break_match; exact H.
Qed.

(** C9.  The scrape statistics record always satisfies
    articlesSaved = articlesFound: in the globals as loaded, after every
    POST request (the reset of /start_scraping included), after every
    per-line statistics update and after every run of a worker. *)
Theorem counters_always_agree (st : server_state) :
  reachable st -> counters_agree (scraping_stats st).
Proof.
  induction 1 as [ | e t data st _ IH | n line st _ IH
                   | clock script self st k ps _ IH
                   | clock script self st k ps _ IH
                   | clock s3 src st k ps _ IH
                   | clock s3 ai src st k ps _ IH ].
  - reflexivity.
  - now apply dispatch_counters.
  - now apply update_stats_counters.
  - unfold run_scrape_thread.
    pose proof (run_scraping_counters clock script self (mk_world st k ps) IH) as Hr.
    destruct (_run_scraping clock script self (mk_world st k ps)) as [self1 w1].
    exact Hr.
  - pose proof (run_scraping_counters clock script self (mk_world st k ps) IH) as Hr.
    destruct (_run_scraping clock script self (mk_world st k ps)) as [self1 w1].
    exact Hr.
  - rewrite run_conversion_frame. exact IH.
  - rewrite run_summarization_frame. exact IH.
Qed.

Lemma counters_always_agree_witness :
  reachable one_article_state
  /\ articlesFound (scraping_stats one_article_state) = 1
  /\ articlesSaved (scraping_stats one_article_state) = 1.
Proof.
  assert (H : reachable one_article_state)
    by (apply reachable_line, reachable_initial).
  split; [exact H|].
  pose proof (counters_always_agree one_article_state H) as Hc.
  unfold counters_agree in Hc.
  assert (Hf : articlesFound (scraping_stats one_article_state) = 1)
    by (vm_compute; reflexivity).
  split; [exact Hf | rewrite Hc; exact Hf].
Defined.

(** ** Bucket listing *)

Lemma append_empty_r (s : string) : s ++ "" = s.
Proof. induction s as [|c s IH]; simpl; [reflexivity | now rewrite IH]. Qed.

Lemma append_assoc (a b c : string) : (a ++ b) ++ c = a ++ (b ++ c).
Proof. induction a as [|x a IH]; simpl; [reflexivity | now rewrite IH]. Qed.

Lemma append_inv_head (p a b : string) : p ++ a = p ++ b -> a = b.
Proof.
  induction p as [|c p IH]; simpl; intros H; [exact H|].
  injection H as H. now apply IH.
Qed.

Lemma endswith_iff (w s : string) :
  PyStr.endswith w s = true <-> ends_with w s.
Proof.
  unfold ends_with. induction s as [|c s IH]; simpl.
  - rewrite String.eqb_eq. split.
    + intros ->. now exists "".
    + intros [pre H]. destruct pre; simpl in H; [now symmetry | discriminate].
  - rewrite orb_true_iff, String.eqb_eq, IH. split.
    + intros [-> | [pre ->]]; [now exists "" | now exists (String c pre)].
    + intros [pre H]. destruct pre as [|c' pre]; simpl in H.
      * now left.
      * right. injection H as _ H. now exists pre.
Qed.

Lemma chars_empty (s : string) : PyStr.chars s = [] -> s = "".
Proof.
  destruct s as [|c s]; [reflexivity|]. simpl.
  destruct (PyStr.chars s); [discriminate|]. destruct (PyStr.continues s); discriminate.
Qed.

Lemma join_chars (s : string) : PyStr.join (PyStr.chars s) = s.
Proof.
  induction s as [|c s IH]; [reflexivity|]. simpl.
  destruct (PyStr.chars s) as [|h t] eqn:E.
  - apply chars_empty in E. now subst s.
  - destruct (PyStr.continues s); simpl in *; now rewrite IH.
Qed.

Lemma continues_app (s t : string) :
  PyStr.continues t = false -> s <> "" -> PyStr.continues (s ++ t) = PyStr.continues s.
Proof. destruct s; [congruence | reflexivity]. Qed.

(** The characters of [s ++ t] are those of [s] followed by those of
    [t], when [t] starts at a character. *)
Lemma chars_app (s t : string) :
  PyStr.continues t = false ->
  PyStr.chars (s ++ t) = (PyStr.chars s ++ PyStr.chars t)%list.
Proof.
  intros Ht. induction s as [|c s IH]; [reflexivity|].
  cbn [append PyStr.chars]. rewrite IH.
  destruct s as [|c' s].
  - cbn [append PyStr.chars app]. destruct (PyStr.chars t); [reflexivity|].
    now rewrite Ht.
  - cbn [append PyStr.continues].
    destruct (PyStr.chars (String c' s)) as [|h tl] eqn:E;
      [apply chars_empty in E; discriminate|].
    cbn [app]. now destruct (PyStr.is_continuation c').
Qed.

Lemma slice_from_prefix (p rest : string) :
  PyStr.continues rest = false ->
  PyStr.slice_from (PyStr.len p) (p ++ rest) = rest.
Proof.
  intros H. unfold PyStr.slice_from, PyStr.len. rewrite (chars_app p rest H).
  rewrite skipn_app, skipn_all, Nat.sub_diag. simpl. apply join_chars.
Qed.

Lemma rstrip_by_snoc (p : ascii -> bool) (s : string) (c : ascii) :
  p c = true -> PyStr.rstrip_by p (s ++ String c "") = PyStr.rstrip_by p s.
Proof.
  intros Hc. induction s as [|a s IH]; simpl.
  - now rewrite Hc.
  - now rewrite IH.
Qed.

Lemma rstrip_slash_fixed (s : string) :
  ~ ends_with "/" s -> PyStr.rstrip_slash s = s.
Proof.
  unfold PyStr.rstrip_slash. induction s as [|a s IH]; intros H.
  - reflexivity.
  - cbn [PyStr.rstrip_by]. destruct s as [|b s].
    + cbn [PyStr.rstrip_by].
      destruct (Ascii.eqb_spec "/"%char a) as [<- | _]; [|reflexivity].
      exfalso. apply H. now exists "".
    + rewrite IH; [reflexivity|].
      intros [pre Hpre]. apply H. exists (String a pre). simpl. now rewrite Hpre.
Qed.

Lemma folder_name_of_common_prefix (p seg : string) :
  ~ occurs "/" seg -> PyStr.continues seg = false ->
  PyStr.rstrip_slash (PyStr.slice_from (PyStr.len p) (p ++ seg ++ "/")) = seg.
Proof.
  intros H Hseg.
  rewrite slice_from_prefix by (destruct seg; [reflexivity | exact Hseg]).
  unfold PyStr.rstrip_slash.
  rewrite rstrip_by_snoc by reflexivity.
  apply rstrip_slash_fixed. intros [pre Hpre]. apply H.
  exists pre, "". now rewrite append_empty_r.
Qed.

Lemma normalize_prefix_effective (q : string) :
  effective_prefix q (normalize_prefix q).
Proof.
  unfold effective_prefix, normalize_prefix.
  destruct (PyStr.endswith "/" q) eqn:He.
  - rewrite andb_false_r. repeat split; intros; try reflexivity.
    + now subst q.
    + exfalso. apply endswith_iff in He. tauto.
  - rewrite andb_true_r. repeat split.
    + now intros ->.
    + intros _ Hends. apply endswith_iff in Hends. congruence.
    + intros Hq _. destruct q; [congruence | reflexivity].
Qed.

Lemma file_entries_listed (p : string) (contents : list s3_object) :
  Forall (fun o => exists name, Key o = p ++ name /\ PyStr.continues name = false)
         contents ->
  listed_files p contents (file_entries p contents).
Proof.
  induction 1 as [|o rest [name [Hkey Hname]] _ IH]; simpl.
  - constructor.
  - destruct (String.eqb_spec (Key o) p) as [Heq | Hne].
    + now apply listed_skip_prefix.
    + assert (Hd : PyStr.slice_from (PyStr.len p) (Key o) = name)
        by (rewrite Hkey; now apply slice_from_prefix).
      rewrite Hd.
      destruct (PyStr.contains "/" name) eqn:Hc; simpl.
      * apply listed_skip_nested with (name := name); [exact Hkey | | exact IH].
        now apply contains_iff.
      * apply listed_file; [exact Hkey | exact Hne | | exact IH].
        rewrite <- contains_iff. congruence.
Qed.

(** C7.  [POST /list_bucket] with requested prefix [q] lists under
    [p] ([q], with ['/'] appended when [q] is non-empty and does not end
    in ['/']).  For a listing whose common prefixes have the form
    [p ++ seg ++ "/"] and whose keys start with [p] (what follows [p]
    starting at a character, as it does in a string), the answer is 200
    with, in listing order, one folder per common prefix named [seg], and
    one file per object whose key is not [p] and whose key with [p]
    removed holds no ['/'], each with name, key, size and modification
    time. *)
Theorem list_bucket_partition
    (list_objects_v2 : option string -> string -> result list_response)
    (data : request) (resp : list_response) :
  let q := get_default (r_prefix data) "" in
  let p := normalize_prefix q in
  list_objects_v2 (r_bucket data) p = Ok resp ->
  Forall (fun cp => exists seg, cp = p ++ seg ++ "/" /\ ~ occurs "/" seg
                                /\ PyStr.continues seg = false)
         (CommonPrefixes resp) ->
  Forall (fun o => exists name, Key o = p ++ name /\ PyStr.continues name = false)
         (Contents resp) ->
  exists (folders : list string) (files : list file_entry),
    list_bucket list_objects_v2 data
    = mk_response 200
      (JObj [("folders",
             JArr (map (fun name => JObj [("name", JStr name)]) folders));
            ("files",
             JArr (map (fun f => JObj [("name", JStr (fe_name f));
                                       ("key", JStr (fe_key f));
                                       ("size", JInt (fe_size f));
                                       ("lastModified", JStr (fe_lastModified f))])
                       files))])
    /\ effective_prefix q p
    /\ Forall2 (fun cp name => cp = p ++ name ++ "/") (CommonPrefixes resp) folders
    /\ listed_files p (Contents resp) files.
Proof.
  intros q p Hlist Hcps Hobjs.
  exists (folder_names p resp), (file_entries p (Contents resp)).
  split; [|split; [|split]].
  - unfold list_bucket. fold q. fold p. now rewrite Hlist.
  - apply normalize_prefix_effective.
  - unfold folder_names.
    induction Hcps as [|cp cps [seg [-> [Hseg Hch]]] _ IH]; simpl.
    + constructor.
    + constructor; [|exact IH].
      now rewrite folder_name_of_common_prefix.
  - now apply file_entries_listed.
Qed.

Lemma list_bucket_partition_witness :
  exists folders files,
    list_bucket sample_list_objects sample_list_request
    = mk_response 200
      (JObj [("folders",
             JArr (map (fun name => JObj [("name", JStr name)]) folders));
            ("files",
             JArr (map (fun f => JObj [("name", JStr (fe_name f));
                                       ("key", JStr (fe_key f));
                                       ("size", JInt (fe_size f));
                                       ("lastModified", JStr (fe_lastModified f))])
                       files))])
    /\ Forall2 (fun cp name => cp = "data/" ++ name ++ "/") ["data/img/"] folders
    /\ listed_files "data/" (Contents sample_listing) files.
Proof.
  destruct (list_bucket_partition sample_list_objects sample_list_request
                                  sample_listing)
    as [folders [files [H1 [_ [H2 H3]]]]].
  - reflexivity.
  - repeat constructor. exists "img". split; [reflexivity | split; [|reflexivity]].
    rewrite <- contains_iff. simpl. discriminate.
  - repeat constructor; simpl;
      [exists "" | exists "a.json" | exists "img/b.jpg"]; split; reflexivity.
  - exists folders, files. split; [exact H1 | split; [exact H2 | exact H3]].
Defined.

(** ** Exceptions in the background workers *)

Lemma add_log_last (ts msg log_type : string) (st : server_state) :
  last_entry (all_logs (add_log ts msg log_type st))
  = Some (mk_log_entry ts msg log_type).
Proof. apply append_bounded_last. unfold SCRAPE_LOG_BOUND. lia. Qed.

Lemma add_conversion_log_last (ts msg log_type : string) (st : server_state) :
  last_entry (conversion_logs (add_conversion_log ts msg log_type st))
  = Some (mk_log_entry ts msg log_type).
Proof. apply append_bounded_last. unfold CONVERSION_LOG_BOUND. lia. Qed.

Lemma add_summarization_log_last (ts msg log_type : string) (st : server_state) :
  last_entry (summarization_logs (add_summarization_log ts msg log_type st))
  = Some (mk_log_entry ts msg log_type).
Proof. apply append_bounded_last. unfold SUMMARIZATION_LOG_BOUND. lia. Qed.

(** A failure on one listed key is caught by the inner handler of the
    conversion loop: the count is kept and the message becomes the last
    entry of the conversion log. *)
Lemma convert_object_get_failure clock s3 (key e : string) (n : Z) (w : world) :
  (PyStr.endswith ".json" key && negb (PyStr.endswith "_summary.json" key))%bool = true ->
  s3_get_json s3 S3_BUCKET_NAME key = Raise e ->
  let '(n', w') := convert_object clock s3 key (n, w) in
  n' = n
  /\ last_entry (conversion_logs (globals w'))
     = Some (mk_log_entry (clock (ticks w))
                          ("Error converting " ++ key ++ ": " ++ e) "error").
Proof.
  intros Hkey Hget. unfold convert_object. rewrite Hkey, Hget.
  split; [reflexivity | apply add_conversion_log_last].
Qed.

Lemma summarize_object_caption_failure clock s3 ai (key e : string) (n m : Z)
    (w : world) :
  (PyStr.endswith ".json" key && negb (PyStr.endswith "_summary.json" key))%bool = false ->
  is_image_key key = true ->
  ai_caption ai key = Raise e ->
  let '(n', m', w') := summarize_object clock s3 ai key (n, m, w) in
  n' = n /\ m' = m
  /\ last_entry (summarization_logs (globals w'))
     = Some (mk_log_entry (clock (S (ticks w)))
                          ("Error captioning " ++ key ++ ": " ++ e) "error").
Proof.
  intros Hkey Himg Hcap. unfold summarize_object. rewrite Hkey, Himg, Hcap.
  split; [reflexivity | split; [reflexivity | apply add_summarization_log_last]].
Qed.

(** C6.  Each background worker catches, at its top level, the exception
    that escapes its body, records a readable message, and returns with
    its active flag cleared whether the body succeeded or failed:
    [_run_scraping] logs "Error: msg" and resets progress;
    [_run_conversion] and [_run_summarization] store the message in the
    error field of their status record and log "... failed: msg". *)
Theorem workers_catch_and_clear (clock : nat -> string) :
  (forall script self w,
      let '(_, w1, exn) := scraping_body clock script self w in
      let '(self', w') := _run_scraping clock script self w in
      is_running self' = false
      /\ scraping_active (globals w') = false
      /\ match exn with
         | Some e =>
             last_entry (all_logs (globals w'))
             = Some (mk_log_entry (clock (ticks w1)) ("Error: " ++ e) "error")
             /\ progress (scraping_stats (globals w')) = 0
         | None => all_logs (globals w') = all_logs (globals w1)
         end)
  /\ (forall s3 src w,
         let '(w1, exn) := conversion_body clock s3 src w in
         let w' := _run_conversion clock s3 src w in
         conversion_active (globals w') = false
         /\ match exn with
            | Some e =>
                cv_error (conversion_stats (globals w')) = Some e
                /\ last_entry (conversion_logs (globals w'))
                   = Some (mk_log_entry (clock (ticks w1))
                                        ("Conversion failed: " ++ e) "error")
            | None =>
                cv_completed (conversion_stats (globals w')) = true
                /\ cv_error (conversion_stats (globals w'))
                   = cv_error (conversion_stats (globals w))
            end)
  /\ (forall s3 ai src w,
         let '(w1, exn) := summarization_body clock s3 ai src w in
         let w' := _run_summarization clock s3 ai src w in
         summarization_active (globals w') = false
         /\ match exn with
            | Some e =>
                sm_error (summarization_stats (globals w')) = Some e
                /\ last_entry (summarization_logs (globals w'))
                   = Some (mk_log_entry (clock (ticks w1))
                                        ("Summarization failed: " ++ e) "error")
            | None =>
                sm_completed (summarization_stats (globals w')) = true
            end).
Proof.
  split; [|split].
  - intros script self w. unfold _run_scraping.
    destruct (scraping_body clock script self w) as [[self1 w1] [e|]]; simpl.
    + split; [reflexivity | split; [reflexivity | split; [|reflexivity]]].
      apply add_log_last.
    + repeat split.
  - intros s3 src w. unfold _run_conversion.
    destruct (conversion_body clock s3 src w) as [w1 [e|]] eqn:Hbody; simpl.
    + split; [reflexivity | split; [reflexivity|]].
      apply add_conversion_log_last.
    + split; [reflexivity|].
      unfold conversion_body in Hbody.
      destruct (s3_client s3); [|discriminate].
      destruct (s3_paginate s3 _ _) as [pages failure].
      match type of Hbody with context [convert_pages clock s3 pages ?a] =>
        assert (Hf : cv_error (conversion_stats (globals (snd (convert_pages clock s3 pages a))))
                     = cv_error (conversion_stats (globals w)));
        [| destruct (convert_pages clock s3 pages a) as [n w3] ] end.
      { unfold convert_pages.
        apply (fold_left_invariant
                 (fun a : Z * world =>
                    cv_error (conversion_stats (globals (snd a)))
                    = cv_error (conversion_stats (globals w)))); [|reflexivity].
        intros x page Hx.
        apply (fold_left_invariant
                 (fun a : Z * world =>
                    cv_error (conversion_stats (globals (snd a)))
                    = cv_error (conversion_stats (globals w)))); [|exact Hx].
        intros [n0 w0] obj Hy. unfold convert_object. repeat break_match; exact Hy. }
      destruct failure; [discriminate|].
      injection Hbody as <-. simpl. split; [reflexivity | exact Hf].
  - intros s3 ai src w. unfold _run_summarization.
    destruct (summarization_body clock s3 ai src w) as [w1 [e|]] eqn:Hbody; simpl.
    + split; [reflexivity | split; [reflexivity|]].
      apply add_summarization_log_last.
    + split; [reflexivity|].
      unfold summarization_body in Hbody.
      destruct (s3_client s3); [|discriminate].
      destruct (load_models clock ai _) as [w3 [e|]]; [discriminate|].
      destruct (s3_paginate s3 _ _) as [pages failure].
      destruct (summarize_pages clock s3 ai pages _) as [[n m] w4].
      destruct failure; [discriminate|].
      injection Hbody as <-. reflexivity.
Qed.

(** ** Binary64 rounding

    What the progress formula needs from [SpecFloat]: the mantissa a
    rounding returns has at most 53 bits, a rounding of a non-negative
    value is not negative and not NaN, and a value below 2^1023 does not
    round to infinity. *)

Lemma digits2_pos_log2 (p : positive) :
  Zpos (digits2_pos p) = Z.log2 (Zpos p) + 1.
Proof.
  assert (Hs : forall q, digits2_pos q = Pos.size q)
    by (induction q as [q IH|q IH|]; simpl; now rewrite ?IH).
  destruct p as [p|p|]; simpl; rewrite ?Hs; lia.
Qed.

Lemma Zdigits2_log2 (x : Z) : 0 < x -> Zdigits2 x = Z.log2 x + 1.
Proof. destruct x; try lia. intros _. apply digits2_pos_log2. Qed.

Lemma Zdigits2_nonneg (x : Z) : 0 <= Zdigits2 x.
Proof. destruct x; simpl; lia. Qed.

Lemma Zdigits2_le (x y : Z) : 0 <= x <= y -> Zdigits2 x <= Zdigits2 y.
Proof.
  intros [Hx Hxy]. destruct (Z.eq_dec x 0) as [-> | Hne].
  - apply Zdigits2_nonneg.
  - rewrite !Zdigits2_log2 by lia. pose proof (Z.log2_le_mono x y Hxy). lia.
Qed.

Lemma iter_pos_invariant {A : Type} (P : A -> Prop) (f : A -> A) (p : positive) (x : A) :
  (forall y, P y -> P (f y)) -> P x -> P (iter_pos f p x).
Proof.
  intros Hf. revert x. induction p as [p IH|p IH|]; simpl; intros x Hx; auto.
Qed.

Lemma shr_1_digits (r : shr_record) :
  Zdigits2 (shr_m (shr_1 r)) = Z.max 0 (Zdigits2 (shr_m r) - 1).
Proof.
  destruct r as [m rb sb]. destruct m as [|p|p]; [reflexivity | |];
    destruct p; cbn [shr_1 shr_m Zdigits2 digits2_pos];
    rewrite ?Pos2Z.inj_succ; lia.
Qed.

Lemma iter_shr_1_digits (p : positive) (r : shr_record) :
  Zdigits2 (shr_m (iter_pos shr_1 p r)) = Z.max 0 (Zdigits2 (shr_m r) - Zpos p).
Proof.
  revert r. induction p as [p IH|p IH|]; intros r; simpl.
  - rewrite !IH, shr_1_digits. lia.
  - rewrite !IH. lia.
  - apply shr_1_digits.
Qed.

Lemma shr_1_nonneg (r : shr_record) : 0 <= shr_m r -> 0 <= shr_m (shr_1 r).
Proof.
  destruct r as [m rb sb]. destruct m as [|p|p]; simpl; try lia;
    destruct p; simpl; lia.
Qed.

Lemma shr_record_of_loc_m (m : Z) (l : location) : shr_m (shr_record_of_loc m l) = m.
Proof. destruct l as [|[]]; reflexivity. Qed.

Lemma shr_fexp_digits (m e : Z) (l : location) :
  Zdigits2 (shr_m (fst (shr_fexp PyNum.prec PyNum.emax m e l))) <= PyNum.prec.
Proof.
  unfold shr_fexp, shr.
  destruct (fexp PyNum.prec PyNum.emax (Zdigits2 m + e) - e) as [|n|n] eqn:Hn; simpl;
    rewrite ?iter_shr_1_digits, shr_record_of_loc_m;
    unfold fexp, PyNum.prec in *; lia.
Qed.

Lemma shr_fexp_nonneg (m e : Z) (l : location) :
  0 <= m -> 0 <= shr_m (fst (shr_fexp PyNum.prec PyNum.emax m e l)).
Proof.
  intros Hm. unfold shr_fexp, shr.
  destruct (fexp PyNum.prec PyNum.emax (Zdigits2 m + e) - e) as [|n|n]; simpl;
    try (apply iter_pos_invariant; [apply shr_1_nonneg|]);
    now rewrite shr_record_of_loc_m.
Qed.

Lemma shr_fexp_exponent (m e : Z) (l : location) :
  snd (shr_fexp PyNum.prec PyNum.emax m e l) = Z.max e (fexp PyNum.prec PyNum.emax (Zdigits2 m + e)).
Proof.
  unfold shr_fexp, shr.
  destruct (fexp PyNum.prec PyNum.emax (Zdigits2 m + e) - e) as [|n|n] eqn:Hn; simpl; lia.
Qed.

Lemma round_nearest_even_bounds (m : Z) (l : location) :
  m <= round_nearest_even m l <= m + 1.
Proof. destruct l as [|[]]; simpl; try lia. destruct (Z.even m); lia. Qed.

Lemma binary_round_aux_bounded (s : bool) (m e : Z) (l : location) :
  bounded_float (binary_round_aux PyNum.prec PyNum.emax s m e l).
Proof.
  unfold binary_round_aux.
  destruct (shr_fexp PyNum.prec PyNum.emax m e l) as [mrs1 e1].
  pose proof (shr_fexp_digits
                (round_nearest_even (shr_m mrs1) (loc_of_shr_record mrs1)) e1 loc_Exact)
    as Hd.
  destruct (shr_fexp PyNum.prec PyNum.emax _ e1 loc_Exact) as [mrs2 e2].
  simpl in Hd. destruct (shr_m mrs2) as [|p|p]; simpl; try exact I.
  destruct (_ <=? _); simpl; [exact Hd | exact I].
Qed.

Lemma binary_round_aux_nonneg (m e : Z) (l : location) :
  0 <= m -> nonneg_float (binary_round_aux PyNum.prec PyNum.emax false m e l).
Proof.
  intros Hm. unfold binary_round_aux.
  pose proof (shr_fexp_nonneg m e l Hm) as H1.
  destruct (shr_fexp PyNum.prec PyNum.emax m e l) as [mrs1 e1]. simpl in H1.
  assert (H2 : 0 <= round_nearest_even (shr_m mrs1) (loc_of_shr_record mrs1))
    by (pose proof (round_nearest_even_bounds (shr_m mrs1) (loc_of_shr_record mrs1)); lia).
  pose proof (shr_fexp_nonneg _ e1 loc_Exact H2) as H3.
  destruct (shr_fexp PyNum.prec PyNum.emax _ e1 loc_Exact) as [mrs2 e2].
  simpl in H3. destruct (shr_m mrs2) as [|p|p]; simpl; try reflexivity; [|lia].
  destruct (_ <=? _); reflexivity.
Qed.

Lemma Zdigits2_succ (x : Z) : 0 <= x -> Zdigits2 (x + 1) <= Zdigits2 x + 1.
Proof.
  intros Hx. destruct (Z.eq_dec x 0) as [-> | Hne]; [simpl; lia|].
  rewrite !Zdigits2_log2 by lia.
  pose proof (Z.log2_succ_le x). unfold Z.succ in *. lia.
Qed.

(** No overflow when the value is well inside the range. *)
Lemma binary_round_aux_finite (s : bool) (m e : Z) (l : location) :
  0 <= m -> e <= 0 -> Zdigits2 m + e <= 1023 ->
  forall s', binary_round_aux PyNum.prec PyNum.emax s m e l <> S754_infinity s'.
Proof.
  intros Hm He Hd s'. unfold binary_round_aux.
  pose proof (shr_fexp_nonneg m e l Hm) as H1.
  pose proof (shr_fexp_digits m e l) as D1.
  pose proof (shr_fexp_exponent m e l) as E1.
  destruct (shr_fexp PyNum.prec PyNum.emax m e l) as [mrs1 e1]. simpl in H1, D1, E1.
  pose proof (round_nearest_even_bounds (shr_m mrs1) (loc_of_shr_record mrs1)) as R.
  set (m2 := round_nearest_even (shr_m mrs1) (loc_of_shr_record mrs1)) in *.
  pose proof (shr_fexp_exponent m2 e1 loc_Exact) as E2.
  destruct (shr_fexp PyNum.prec PyNum.emax m2 e1 loc_Exact) as [mrs2 e2]. simpl in E2.
  destruct (shr_m mrs2) as [|p|p]; try discriminate.
  assert (Hm2 : Zdigits2 m2 <= Zdigits2 (shr_m mrs1) + 1).
  { etransitivity; [apply (Zdigits2_le m2 (shr_m mrs1 + 1)); lia|].
    now apply Zdigits2_succ. }
  assert (Hle : e2 <= PyNum.emax - PyNum.prec).
  { unfold fexp, emin, PyNum.prec, PyNum.emax in *. lia. }
  apply Z.leb_le in Hle. rewrite Hle. discriminate.
Qed.

Lemma Zdigits2_lt_pow2 (x k : Z) : 0 <= x < 2 ^ k -> 0 <= k -> Zdigits2 x <= k.
Proof.
  intros [Hx Hlt] Hk. destruct (Z.eq_dec x 0) as [-> | Hne]; [simpl; lia|].
  rewrite Zdigits2_log2 by lia.
  assert (Z.log2 x < k) by (apply Z.log2_lt_pow2; lia). lia.
Qed.

Lemma pos_lt_pow2_digits (m : positive) :
  Zpos (digits2_pos m) <= PyNum.prec -> Zpos m < 2 ^ 53.
Proof.
  rewrite digits2_pos_log2. unfold PyNum.prec. intros H.
  apply Z.log2_lt_pow2; lia.
Qed.

Lemma int_true_div_ok (a n : Z) :
  0 < n -> 0 <= a < 2 ^ 1023 ->
  exists q, PyNum.int_true_div a n = Ok q /\ nonneg_float q.
Proof.
  intros Hn [Ha Hlt]. unfold PyNum.int_true_div.
  destruct (Z.eqb_spec n 0) as [-> | _]; [lia|].
  destruct n as [|pn|pn]; try lia.
  destruct a as [|pa|pa]; [| |lia].
  - eexists. split; reflexivity.
  - cbn [PyNum.int_as_float SFdiv xorb]. unfold SFdiv_core_binary.
    set (e' := Z.min (fexp PyNum.prec PyNum.emax
                        (Zdigits2 (Z.pos pa) + 0 - (Zdigits2 (Z.pos pn) + 0)))
                     (0 - 0)).
    assert (He' : e' <= 0) by (subst e'; lia).
    set (m' := match 0 - 0 - e' with
               | Z0 => Z.pos pa
               | Zpos _ => Z.shiftl (Z.pos pa) (0 - 0 - e')
               | Zneg _ => 0
               end).
    assert (Hm' : m' = Z.shiftl (Z.pos pa) (- e')).
    { subst m'. replace (0 - 0 - e') with (- e') by lia.
      destruct (- e') eqn:E; try lia; reflexivity. }
    pose proof (Z_div_mod m' (Z.pos pn) eq_refl) as Hdm.
    destruct (Z.div_eucl m' (Z.pos pn)) as [q r].
    assert (Hm'pos : 0 < m').
    { rewrite Hm', Z.shiftl_mul_pow2 by lia.
      apply Z.mul_pos_pos; [lia | apply Z.pow_pos_nonneg; lia]. }
    assert (Hq : 0 <= q <= m') by nia.
    assert (Hd : Zdigits2 q + e' <= 1023).
    { pose proof (Zdigits2_le q m' Hq) as Hle.
      assert (Zdigits2 m' = Zdigits2 (Z.pos pa) - e').
      { rewrite !Zdigits2_log2 by lia. rewrite Hm', Z.log2_shiftl by lia. lia. }
      pose proof (Zdigits2_lt_pow2 (Z.pos pa) 1023). lia. }
    pose proof (binary_round_aux_finite false q e'
                  (new_location (Z.pos pn) r) (proj1 Hq) He' Hd) as Hfin.
    pose proof (binary_round_aux_nonneg q e' (new_location (Z.pos pn) r) (proj1 Hq))
      as Hnn.
    destruct (binary_round_aux PyNum.prec PyNum.emax false q e' _) as [s|s| |s m e];
      try (eexists; split; [reflexivity | exact Hnn]).
    exfalso. now apply (Hfin s).
Qed.

Lemma fmul_nonneg (q : spec_float) (my : positive) (ey : Z) :
  nonneg_float q -> nonneg_float (PyNum.fmul q (S754_finite false my ey)).
Proof.
  unfold PyNum.fmul. destruct q as [s|s| |s m e]; simpl; intros H; try subst s;
    try reflexivity; try contradiction.
  apply binary_round_aux_nonneg. lia.
Qed.

Lemma binary_normalize_bounded (z e : Z) (sz : bool) :
  bounded_float (binary_normalize PyNum.prec PyNum.emax z e sz).
Proof.
  destruct z as [|p|p]; simpl; [exact I | |]; unfold binary_round;
    destruct (shl_align _ _ _); apply binary_round_aux_bounded.
Qed.

Lemma fadd_bounded (mx : positive) (ex : Z) (y : spec_float) :
  bounded_float (S754_finite false mx ex) ->
  bounded_float (PyNum.fadd (S754_finite false mx ex) y).
Proof.
  intros Hx. unfold PyNum.fadd. destruct y as [s|s| |s m e]; cbn [SFadd].
  - exact Hx.
  - exact I.
  - exact I.
  - apply binary_normalize_bounded.
Qed.

Lemma fadd_nonneg (mx : positive) (ex : Z) (y : spec_float) :
  nonneg_float y -> nonneg_float (PyNum.fadd (S754_finite false mx ex) y).
Proof.
  unfold PyNum.fadd. destruct y as [s|s| |s m e]; cbn [SFadd]; intros H;
    simpl in H; try subst s; try reflexivity; try contradiction.
  cbn [cond_Zopp].
  destruct (shl_align mx ex _) as [a ea].
  destruct (shl_align m e _) as [b eb]. cbn [fst].
  change (Z.pos a + Z.pos b) with (Z.pos (a + b)).
  cbn [binary_normalize]. unfold binary_round.
  destruct (shl_align _ _ _). apply binary_round_aux_nonneg. lia.
Qed.

Lemma trunc_magnitude_nonneg (m : positive) (e : Z) :
  0 <= match e with
       | Z0 => Z.pos m
       | Zpos _ => Z.shiftl (Z.pos m) e
       | Zneg _ => Z.shiftr (Z.pos m) (- e)
       end.
Proof.
  destruct e; [lia | apply Z.shiftl_nonneg; lia | apply Z.shiftr_nonneg; lia].
Qed.

Lemma to_int_min_le (cap : Z) (mc : positive) (x : spec_float) (v : Z) :
  PyNum.float_of_lit cap = S754_finite false mc (-46) ->
  Zpos mc = cap * 2 ^ 46 -> 64 <= cap ->
  bounded_float x ->
  PyNum.to_int (PyNum.min_float_int x cap) = Ok v -> v <= cap.
Proof.
  intros Hlit Hmc Hcap Hx. unfold PyNum.min_float_int. rewrite Hlit.
  destruct (SFltb (S754_finite false mc (-46)) x) eqn:Hlt; cbn [PyNum.to_int].
  - intros H. injection H as <-. lia.
  - destruct x as [s|s| |s m e]; cbn [PyNum.trunc_float]; try discriminate.
    + intros H. injection H as <-. lia.
    + intros H. injection H as <-.
      pose proof (trunc_magnitude_nonneg m e) as Hnn.
      destruct s; [lia|].
      unfold SFltb, SFcompare in Hlt.
      destruct (Z.compare_spec (-46) e) as [<- | Hgt | Hlt'].
      * assert (Hle : Z.pos m <= Z.pos mc).
        { change (Pos.compare_cont Eq mc m) with (Pos.compare mc m) in Hlt.
          destruct (Pos.compare_spec mc m) as [-> | Hc | Hc];
            [lia | discriminate | lia]. }
        change (- -46) with 46. rewrite Z.shiftr_div_pow2 by lia.
        apply Z.div_le_upper_bound; [lia|]. lia.
      * discriminate.
      * destruct e as [|pe|pe]; try lia.
        rewrite Z.shiftr_div_pow2 by lia.
        pose proof (pos_lt_pow2_digits m Hx) as Hm.
        assert (Hpow : 2 ^ 47 <= 2 ^ (- Z.neg pe)) by (apply Z.pow_le_mono_r; lia).
        assert (Z.pos m / 2 ^ (- Z.neg pe) < 64); [|lia].
        apply Z.div_lt_upper_bound; [lia|].
        change (2 ^ 53) with (64 * 2 ^ 47) in Hm. nia.
Qed.

Lemma to_int_min_ok (cap : Z) (mc : positive) (ec : Z) (x : spec_float) :
  PyNum.float_of_lit cap = S754_finite false mc ec -> 0 <= cap ->
  nonneg_float x ->
  exists v, PyNum.to_int (PyNum.min_float_int x cap) = Ok v /\ 0 <= v.
Proof.
  intros Hlit Hcap Hx. unfold PyNum.min_float_int. rewrite Hlit.
  destruct (SFltb (S754_finite false mc ec) x) eqn:Hlt; cbn [PyNum.to_int].
  - now exists cap.
  - destruct x as [s|s| |s m e]; simpl in Hx; try subst s; try contradiction;
      cbn [PyNum.trunc_float].
    + exists 0. split; [reflexivity | lia].
    + discriminate Hlt.
    + eexists. split; [reflexivity | apply trunc_magnitude_nonneg].
Qed.

Lemma lit_15 : PyNum.float_of_lit 15 = S754_finite false 8444249301319680 (-49).
Proof. reflexivity. Qed.
Lemma lit_65 : PyNum.float_of_lit 65 = S754_finite false 4573968371548160 (-46).
Proof. reflexivity. Qed.
Lemma lit_80 : PyNum.float_of_lit 80 = S754_finite false 5629499534213120 (-46).
Proof. reflexivity. Qed.
Lemma lit_95 : PyNum.float_of_lit 95 = S754_finite false 6685030696878080 (-46).
Proof. reflexivity. Qed.

Lemma article_band_le (a n v : Z) : article_band a n = Ok v -> v <= 80.
Proof.
  unfold article_band, band_value, bind_result.
  destruct (PyNum.int_true_div a n) as [q|]; [|discriminate].
  rewrite lit_15. apply (to_int_min_le 80 _ _ v lit_80); [reflexivity | lia |].
  apply fadd_bounded. vm_compute. discriminate.
Qed.

Lemma image_band_le (a n v : Z) : image_band a n = Ok v -> v <= 95.
Proof.
  unfold image_band, band_value, bind_result.
  destruct (PyNum.int_true_div a n) as [q|]; [|discriminate].
  rewrite lit_80. apply (to_int_min_le 95 _ _ v lit_95); [reflexivity | lia |].
  apply fadd_bounded. vm_compute. discriminate.
Qed.

Lemma article_band_ok (a n : Z) :
  0 < n -> 0 <= a < 2 ^ 1023 ->
  exists v, article_band a n = Ok v /\ 0 <= v <= 80.
Proof.
  intros Hn Ha. destruct (int_true_div_ok a n Hn Ha) as [q [Hq Hnn]].
  assert (Hx : nonneg_float (PyNum.fadd (PyNum.float_of_lit 15)
                                        (PyNum.fmul q (PyNum.float_of_lit 65)))).
  { rewrite lit_15, lit_65. now apply fadd_nonneg, fmul_nonneg. }
  destruct (to_int_min_ok 80 _ _ _ lit_80 ltac:(lia) Hx) as [v [Hv Hv0]].
  assert (Hband : article_band a n = Ok v).
  { unfold article_band, band_value. rewrite Hq. exact Hv. }
  exists v. split; [exact Hband|]. split; [exact Hv0 | now apply (article_band_le a n)].
Qed.

Lemma image_band_ok (a n : Z) :
  0 < n -> 0 <= a < 2 ^ 1023 ->
  exists v, image_band a n = Ok v /\ 0 <= v <= 95.
Proof.
  intros Hn Ha. destruct (int_true_div_ok a n Hn Ha) as [q [Hq Hnn]].
  assert (Hx : nonneg_float (PyNum.fadd (PyNum.float_of_lit 80)
                                        (PyNum.fmul q (PyNum.float_of_lit 15)))).
  { rewrite lit_15, lit_80. now apply fadd_nonneg, fmul_nonneg. }
  destruct (to_int_min_ok 95 _ _ _ lit_95 ltac:(lia) Hx) as [v [Hv Hv0]].
  assert (Hband : image_band a n = Ok v).
  { unfold image_band, band_value. rewrite Hq. exact Hv. }
  exists v. split; [exact Hband|]. split; [exact Hv0 | now apply (image_band_le a n)].
Qed.

(** ** Progress of a scrape run *)

Lemma article_step_monotone (n : Z) (line : string) (s : scrape_stats) :
  progress s <= 100 ->
  progress s <= progress (fst (article_step n line s)) <= 100.
Proof.
  intros H. unfold article_step.
  destruct (is_article_line line); [|simpl; lia].
  destruct (article_band _ n) as [v|] eqn:Hv; simpl; [|lia].
  apply article_band_le in Hv. lia.
Qed.

Lemma image_step_monotone (n : Z) (line : string) (s : scrape_stats) :
  progress s <= 100 ->
  progress s <= progress (fst (image_step n line s)) <= 100.
Proof.
  intros H. unfold image_step.
  destruct (is_image_line line); [|simpl; lia].
  destruct (image_band _ n) as [v|] eqn:Hv; simpl; [|lia].
  apply image_band_le in Hv. lia.
Qed.

Lemma update_stats_monotone (n : Z) (line : string) (s : scrape_stats) :
  progress s <= 100 ->
  progress s <= progress (fst (_update_stats_from_log n line s)) <= 100.
Proof.
  intros H. unfold _update_stats_from_log.
  pose proof (article_step_monotone n line s H) as Ha.
  destruct (article_step n line s) as [s1 [e|]]; simpl in *; [exact Ha|].
  pose proof (image_step_monotone n line s1 (proj2 Ha)) as Hi.
  destruct (image_step n line s1) as [s2 [e|]]; simpl in *; [lia|].
  unfold complete_step. destruct (is_complete_line line); simpl; lia.
Qed.

Lemma process_line_monotone clock (self : job) (raw : string) (w : world) :
  progress_of w <= 100 ->
  progress_of w <= progress_of (fst (process_line clock self raw w)) <= 100.
Proof.
  intros H. unfold process_line.
  destruct (PyStr.truthy (PyStr.strip raw)); [|simpl; lia].
  match goal with |- context [_update_stats_from_log ?n ?l ?s] =>
    pose proof (update_stats_monotone n l s H) as Hu;
    destruct (_update_stats_from_log n l s) as [s' exn] end.
  exact Hu.
Qed.

Lemma stream_output_monotone clock (evs : list proc_event) (self : job) (w : world) :
  progress_of w <= 100 ->
  progress_of w <= progress_of (snd (fst (stream_output clock evs self w))) <= 100.
Proof.
  revert self w. induction evs as [|ev evs IH]; intros self w H; simpl.
  - lia.
  - destruct ev as [raw|].
    + destruct (negb (is_running self)); [simpl; lia|].
      pose proof (process_line_monotone clock self raw w H) as Hp.
      destruct (process_line clock self raw w) as [w1 [e|]]; simpl in *; [exact Hp|].
      pose proof (IH self w1 (proj2 Hp)). lia.
    + apply (IH (job_stop self) (with_globals (set_scraping_active false) w) H).
Qed.

(** C2, as stated, fails on a run that does not succeed: after one saved
    article progress stands at 21, and the worker leaves it at 0. *)
Lemma failed_run_resets_progress :
  ~ run_never_decreases midnight failing_script sample_job sample_world.
Proof.
  unfold run_never_decreases.
  assert (H : progress_of (snd (_run_scraping midnight failing_script sample_job
                                              sample_world)) = 0)
    by (vm_compute; reflexivity).
  rewrite H.
  assert (H2 : stream_output midnight (events failing_script) sample_job
                 (worker_announce midnight sample_job
                                  (worker_begin midnight sample_world))
               = (sample_job,
                  snd (fst (stream_output midnight (events failing_script) sample_job
                              (worker_announce midnight sample_job
                                               (worker_begin midnight sample_world)))),
                  None))
    by (vm_compute; reflexivity).
  rewrite H2.
  assert (H3 : progress_of
                 (snd (fst (stream_output midnight (events failing_script) sample_job
                              (worker_announce midnight sample_job
                                               (worker_begin midnight sample_world)))))
               = 21)
    by (vm_compute; reflexivity).
  rewrite H3. intros [_ Hle]. lia.
Qed.

(** C2, amended.  The per-line statistics updates never decrease
    progress, which stays at most 100: this holds for one update and for
    the whole streaming loop over any sequence of lines and stop
    requests.  The end-of-run update is not monotone: the worker leaves
    progress at 100 when the process exits with status 0 and the job was
    not stopped, and at 0 when the run fails, is stopped, or an exception
    is caught. *)
Theorem progress_monotone_while_streaming (n : Z) (line : string) (s : scrape_stats) :
  progress s <= 100 ->
  progress s <= progress (fst (_update_stats_from_log n line s)) <= 100
  /\ (forall clock script self w,
         let w1 := worker_announce clock self (worker_begin clock w) in
         let '(self1, w2, exn) := stream_output clock (events script) self w1 in
         let final := progress_of (snd (_run_scraping clock script self w)) in
         progress_of w1 = 15
         /\ progress_of w1 <= progress_of w2 <= 100
         /\ match popen script, exn with
            | Ok _, None =>
                if ((returncode script =? 0) && is_running self1)%bool
                then final = 100 else final = 0
            | _, _ => final = 0
            end).
Proof.
  intros H. split; [now apply update_stats_monotone|].
  intros clock script self w w1.
  assert (H15 : progress_of w1 = 15) by reflexivity.
  pose proof (stream_output_monotone clock (events script) self w1 ltac:(lia)) as Hs.
  unfold _run_scraping, scraping_body. fold w1.
  destruct (stream_output clock (events script) self w1) as [[self1 w2] exn].
  simpl in Hs. split; [exact H15 | split; [exact Hs|]].
  destruct (popen script); [|reflexivity].
  destruct exn; [reflexivity|].
  unfold worker_finish.
  destruct ((returncode script =? 0) && is_running self1)%bool; reflexivity.
Qed.

Lemma progress_monotone_while_streaming_witness :
  progress (set_progress 15 fresh_scrape_stats) <= 100
  /\ 15 <= progress (fst (_update_stats_from_log 10 "SAVED: out/article.json"
                            (set_progress 15 fresh_scrape_stats))) <= 100.
Proof.
  assert (H : progress (set_progress 15 fresh_scrape_stats) <= 100) by (simpl; lia).
  split; [exact H|].
  exact (proj1 (progress_monotone_while_streaming
                  10 "SAVED: out/article.json"
                  (set_progress 15 fresh_scrape_stats) H)).
Defined.

(** ** The interpolation bands *)

Lemma article_step_value (n : Z) (line : string) (s : scrape_stats) (v : Z) :
  article_band (articlesFound s + 1) n = Ok v ->
  article_step n line s
  = (if is_article_line line
     then mk_scrape_stats (articlesFound s + 1) (articlesFound s + 1) (imagesFound s)
                          (Z.max (progress s) v) (completed s) (sessionId s)
     else s, None).
Proof.
  intros Hv. unfold article_step. destruct (is_article_line line); [|reflexivity].
  cbn [set_articlesFound set_articlesSaved articlesFound]. now rewrite Hv.
Qed.

Lemma image_step_value (n : Z) (line : string) (s : scrape_stats) (v : Z) :
  image_band (imagesFound s + 1) n = Ok v ->
  image_step n line s
  = (if is_image_line line
     then mk_scrape_stats (articlesFound s) (articlesSaved s) (imagesFound s + 1)
                          (Z.max (progress s) v) (completed s) (sessionId s)
     else s, None).
Proof.
  intros Hv. unfold image_step. destruct (is_image_line line); [|reflexivity].
  cbn [set_imagesFound imagesFound]. now rewrite Hv.
Qed.

Lemma in_zrange (lo x : Z) (k : nat) :
  lo <= x < lo + Z.of_nat k -> In x (zrange lo k).
Proof.
  intros H. unfold zrange. apply in_map_iff.
  exists (Z.to_nat (x - lo)). split; [lia|]. apply in_seq. lia.
Qed.

Lemma result_is_ok (r : result Z) (v : Z) : result_is r v = true -> r = Ok v.
Proof.
  destruct r as [x|]; simpl; [|discriminate]. intros H. f_equal. lia.
Qed.

Lemma bands_exact_100 : bands_exact_upto 100 = true.
Proof. vm_compute. reflexivity. Qed.

Lemma bands_exact (n a : Z) :
  1 <= n <= 100 -> 0 <= a <= 2 * n ->
  article_band a n = Ok (exact_band 15 65 80 a n)
  /\ image_band a n = Ok (exact_band 80 15 95 a n).
Proof.
  intros Hn Ha. pose proof bands_exact_100 as H.
  unfold bands_exact_upto in H. rewrite forallb_forall in H.
  specialize (H n (in_zrange 1 n 100 ltac:(lia))).
  rewrite forallb_forall in H.
  specialize (H a (in_zrange 0 a (Z.to_nat (2 * n + 1)) ltac:(lia))).
  apply andb_true_iff in H as [H1 H2].
  split; now apply result_is_ok.
Qed.

Lemma band_value_formula (base span cap a n v : Z) :
  band_value base span cap a n = Ok v ->
  exists q,
    PyNum.int_true_div a n = Ok q
    /\ PyNum.to_int
         (PyNum.min_float_int
            (PyNum.fadd (PyNum.float_of_lit base)
                        (PyNum.fmul q (PyNum.float_of_lit span))) cap) = Ok v.
Proof.
  unfold band_value. destruct (PyNum.int_true_div a n) as [q|e]; simpl; [|discriminate].
  intros H. now exists q.
Qed.

Lemma is_article_line_iff (line : string) :
  is_article_line line = true <-> article_line line.
Proof.
  unfold is_article_line, article_line. rewrite andb_true_iff, !contains_iff. tauto.
Qed.

Lemma is_image_line_iff (line : string) :
  is_image_line line = true <-> image_line line.
Proof.
  unfold is_image_line, image_line. rewrite andb_true_iff, !contains_iff. tauto.
Qed.

Lemma is_complete_line_iff (line : string) :
  is_complete_line line = true <-> complete_line line.
Proof. unfold is_complete_line, complete_line. apply contains_iff. Qed.

(** C4.  For a job with maxArticles = n > 0 (and counters within the
    float range) progress follows the bands 10, 15, 80, 95, 100.  The
    worker sets 10 when it starts and 15 once the session is announced.
    A line in which both "SAVED:" and "article.json" occur, and no other
    line, increments articlesFound and raises progress to
    max(current, va), where va is [int(min(15 + found/n*65, 80))]
    evaluated on the incremented counter in float arithmetic; a line in
    which both "SUCCESS: Saved" and "image.jpg" occur, and no other,
    increments imagesFound and raises progress to max(current, vi) with
    vi = [int(min(80 + images/n*15, 95))].  Neither evaluation raises,
    va lies within 0..80 and vi within 0..95, and for n up to 100 and
    counters up to 2n they are the values of exact arithmetic,
    min(80, 15 + 65*found div n) and min(95, 80 + 15*images div n).  A
    line in which COMPLETE occurs in any letter case, and a process exit
    with status 0 while the job runs, set progress to 100. *)
Theorem progress_follows_bands (n : Z) (line : string) (s : scrape_stats) :
  0 < n ->
  0 <= articlesFound s -> articlesFound s + 1 < 2 ^ 1023 ->
  0 <= imagesFound s -> imagesFound s + 1 < 2 ^ 1023 ->
  exists qa qi va vi,
    PyNum.int_true_div (articlesFound s + 1) n = Ok qa
    /\ PyNum.to_int
         (PyNum.min_float_int
            (PyNum.fadd (PyNum.float_of_lit 15) (PyNum.fmul qa (PyNum.float_of_lit 65)))
            80) = Ok va
    /\ 0 <= va <= 80
    /\ PyNum.int_true_div (imagesFound s + 1) n = Ok qi
    /\ PyNum.to_int
         (PyNum.min_float_int
            (PyNum.fadd (PyNum.float_of_lit 80) (PyNum.fmul qi (PyNum.float_of_lit 15)))
            95) = Ok vi
    /\ 0 <= vi <= 95
    /\ (1 <= n <= 100 -> articlesFound s + 1 <= 2 * n ->
        va = Z.min 80 (15 + 65 * (articlesFound s + 1) / n))
    /\ (1 <= n <= 100 -> imagesFound s + 1 <= 2 * n ->
        vi = Z.min 95 (80 + 15 * (imagesFound s + 1) / n))
    /\ (let '(s', exn) := _update_stats_from_log n line s in
        exn = None
        /\ (article_line line ->
            articlesFound s' = articlesFound s + 1
            /\ articlesSaved s' = articlesFound s + 1)
        /\ (~ article_line line ->
            articlesFound s' = articlesFound s /\ articlesSaved s' = articlesSaved s)
        /\ (image_line line -> imagesFound s' = imagesFound s + 1)
        /\ (~ image_line line -> imagesFound s' = imagesFound s)
        /\ (complete_line line -> progress s' = 100)
        /\ (~ complete_line line ->
            (article_line line -> image_line line ->
             progress s' = Z.max (Z.max (progress s) va) vi)
            /\ (article_line line -> ~ image_line line ->
                progress s' = Z.max (progress s) va)
            /\ (~ article_line line -> image_line line ->
                progress s' = Z.max (progress s) vi)
            /\ (~ article_line line -> ~ image_line line ->
                progress s' = progress s)))
    /\ (forall clock self w,
           progress_of (worker_begin clock w) = 10
           /\ progress_of (worker_announce clock self (worker_begin clock w)) = 15
           /\ (is_running self = true ->
               progress_of (worker_finish clock 0 self w) = 100)).
Proof.
  intros Hn Ha0 Ha1 Hi0 Hi1.
  destruct (article_band_ok (articlesFound s + 1) n Hn ltac:(lia)) as [va [Hva Hra]].
  destruct (image_band_ok (imagesFound s + 1) n Hn ltac:(lia)) as [vi [Hvi Hri]].
  destruct (band_value_formula _ _ _ _ _ _ Hva) as [qa [Hqa Hfa]].
  destruct (band_value_formula _ _ _ _ _ _ Hvi) as [qi [Hqi Hfi]].
  exists qa, qi, va, vi.
  split; [exact Hqa | split; [exact Hfa | split; [exact Hra|]]].
  split; [exact Hqi | split; [exact Hfi | split; [exact Hri|]]].
  split; [|split; [|split]].
  - intros Hn' Hle.
    destruct (bands_exact n (articlesFound s + 1) Hn' ltac:(lia)) as [He _].
    unfold exact_band in He. congruence.
  - intros Hn' Hle.
    destruct (bands_exact n (imagesFound s + 1) Hn' ltac:(lia)) as [_ He].
    unfold exact_band in He. congruence.
  - unfold _update_stats_from_log. rewrite (article_step_value n line s va Hva).
    pose proof (is_article_line_iff line) as Ia.
    pose proof (is_image_line_iff line) as Ii.
    pose proof (is_complete_line_iff line) as Ic.
    destruct (is_article_line line);
      (rewrite (image_step_value n line _ vi) by exact Hvi);
      destruct (is_image_line line); unfold complete_step;
      destruct (is_complete_line line); cbn [progress articlesFound articlesSaved imagesFound set_progress];
      repeat split; intros; try reflexivity;
      try (exfalso; intuition congruence).
  - intros clock self w. split; [reflexivity | split; [reflexivity|]].
    intros Hrun. unfold worker_finish. rewrite Hrun. reflexivity.
Qed.

Lemma progress_follows_bands_witness :
  progress (fst (_update_stats_from_log 10 "SAVED: out/article.json"
                   (set_progress 15 fresh_scrape_stats)))
  = 21.
Proof.
  destruct (progress_follows_bands 10 "SAVED: out/article.json"
              (set_progress 15 fresh_scrape_stats))
    as (qa & qi & va & vi & _ & _ & _ & _ & _ & _ & Hva & _ & Hupd & _);
    try (simpl; lia).
  specialize (Hva ltac:(lia) ltac:(simpl; lia)).
  destruct (_update_stats_from_log 10 "SAVED: out/article.json"
              (set_progress 15 fresh_scrape_stats)) as [s' exn].
  destruct Hupd as (_ & _ & _ & _ & _ & _ & Hp).
  assert (Hnc : ~ complete_line "SAVED: out/article.json").
  { rewrite <- is_complete_line_iff. vm_compute. discriminate. }
  assert (Hart : article_line "SAVED: out/article.json").
  { rewrite <- is_article_line_iff. reflexivity. }
  assert (Hni : ~ image_line "SAVED: out/article.json").
  { rewrite <- is_image_line_iff. vm_compute. discriminate. }
  destruct (Hp Hnc) as (_ & H2 & _).
  simpl. rewrite (H2 Hart Hni), Hva. reflexivity.
Defined.

(* ================================================================== *)
(** * Further properties of the code *)
(* ================================================================== *)

(** ** Whitespace and blank lines *)

Lemma chars_nonempty (s : string) : Forall (fun ch => ch <> "") (PyStr.chars s).
Proof.
  induction s as [|c s IH]; simpl; [constructor|].
  destruct (PyStr.chars s) as [|h t]; [repeat constructor; discriminate|].
  inversion IH; subst.
  destruct (PyStr.continues s); repeat constructor; try discriminate; assumption.
Qed.

Lemma lstrip_chars_all (p : string -> bool) (l : list string) :
  forallb p l = true -> PyStr.lstrip_chars p l = [].
Proof.
  induction l as [|ch l IH]; simpl; [reflexivity|].
  intros H. apply andb_true_iff in H as [Hc Hs]. rewrite Hc. now apply IH.
Qed.

Lemma lstrip_chars_not_all (p : string -> bool) (l : list string) :
  forallb p l = false ->
  exists ch t, PyStr.lstrip_chars p l = ch :: t /\ p ch = false /\ In ch l.
Proof.
  induction l as [|ch l IH]; simpl; [discriminate|].
  destruct (p ch) eqn:Hc; simpl; intros H.
  - destruct (IH H) as [ch' [t [E [Hp Hin]]]]. exists ch', t. auto.
  - exists ch, l. auto.
Qed.

Lemma rstrip_chars_keeps_head (p : string -> bool) (ch : string) (t : list string) :
  p ch = false -> exists r, PyStr.rstrip_chars p (ch :: t) = ch :: r.
Proof.
  intros Hc. cbn [PyStr.rstrip_chars]. destruct (PyStr.rstrip_chars p t) as [|d r].
  - rewrite Hc. now exists [].
  - now exists (d :: r).
Qed.

Lemma strip_blank_iff (s : string) :
  PyStr.truthy (PyStr.strip s) = false <-> blank s = true.
Proof.
  unfold PyStr.strip, blank. split.
  - intros H. destruct (forallb PyStr.is_space (PyStr.chars s)) eqn:Ha; [reflexivity|].
    destruct (lstrip_chars_not_all _ _ Ha) as [ch [t [Hl [Hc Hin]]]].
    destruct (rstrip_chars_keeps_head _ ch t Hc) as [r Hr].
    rewrite Hl, Hr in H.
    pose proof (chars_nonempty s) as Hne. rewrite Forall_forall in Hne.
    specialize (Hne ch Hin). destruct ch; [congruence | discriminate H].
  - intros H. now rewrite (lstrip_chars_all _ _ H).
Qed.

(** X1.  The streaming loop of the scrape worker ignores a line made of
    whitespace only, the spaces beyond ASCII included (a line holding a
    no-break space and a line break, say): nothing is logged and no
    statistic changes.  Any other line is logged once, stripped, under
    the tag the classifier gives it. *)
Theorem blank_lines_ignored clock (self : job) (raw : string) (w : world) :
  (blank raw = true -> process_line clock self raw w = (w, None))
  /\ (blank raw = false ->
      let w' := fst (process_line clock self raw w) in
      ticks w' = S (ticks w)
      /\ last_entry (all_logs (globals w'))
         = Some (mk_log_entry (clock (ticks w)) (PyStr.strip raw)
                              (_classify_log_line (PyStr.strip raw))))
  /\ process_line clock self (" " ++ nbsp ++ nl) w = (w, None).
Proof.
  unfold process_line. split; [|split]; try intros H.
  - apply strip_blank_iff in H. now rewrite H.
  - assert (Ht : PyStr.truthy (PyStr.strip raw) = true).
    { destruct (PyStr.truthy (PyStr.strip raw)) eqn:E; [reflexivity|].
      apply strip_blank_iff in E. congruence. }
    rewrite Ht.
    destruct (_update_stats_from_log _ _ _) as [s exn]. simpl.
    split; [reflexivity|]. apply add_log_last.
  - reflexivity.
Qed.

(** ** Log retention *)

Lemma append_bounded_lastn (bound : nat) (buf : list log_entry) (e : log_entry) :
  (List.length buf <= bound)%nat ->
  append_bounded bound buf e = lastn bound (buf ++ [e]).
Proof.
  intros H. unfold append_bounded, lastn. rewrite length_app. simpl.
  destruct (Nat.ltb_spec bound (List.length buf + 1)) as [Hlt | Hge].
  - replace (List.length buf + 1 - bound)%nat with 1%nat by lia.
    now destruct (buf ++ [e])%list.
  - replace (List.length buf + 1 - bound)%nat with 0%nat by lia. reflexivity.
Qed.

Lemma lastn_length {A : Type} (n : nat) (l : list A) :
  (List.length (lastn n l) <= n)%nat.
Proof. unfold lastn. rewrite length_skipn. lia. Qed.

Lemma lastn_app {A : Type} (n : nat) (l r : list A) :
  lastn n (lastn n l ++ r) = lastn n (l ++ r).
Proof.
  unfold lastn. rewrite !length_app, length_skipn.
  set (k := (List.length l - n)%nat).
  assert (Hk : (k <= List.length l)%nat) by (subst k; lia).
  replace (skipn k l ++ r)%list with (skipn k (l ++ r)).
  - rewrite skipn_skipn. f_equal. subst k. lia.
  - rewrite skipn_app. replace (k - List.length l)%nat with 0%nat by lia.
    reflexivity.
Qed.

Lemma fold_append_bounded (bound : nat) (entries buf : list log_entry) :
  (List.length buf <= bound)%nat ->
  fold_left (append_bounded bound) entries buf = lastn bound (buf ++ entries).
Proof.
  revert buf. induction entries as [|e entries IH]; intros buf H; simpl.
  - rewrite app_nil_r. unfold lastn.
    replace (List.length buf - bound)%nat with 0%nat by lia. reflexivity.
  - rewrite IH by now apply append_bounded_length.
    rewrite append_bounded_lastn by exact H.
    rewrite lastn_app, <- app_assoc. reflexivity.
Qed.

Lemma log_buffer_append_logs (k : job_kind) (entries : list log_entry)
    (st : server_state) :
  log_buffer k (append_logs k entries st)
  = fold_left (append_bounded (log_bound k)) entries (log_buffer k st).
Proof.
  unfold append_logs. revert st. induction entries as [|e entries IH]; intros st.
  - reflexivity.
  - simpl. rewrite IH, log_buffer_append. now destruct e.
Qed.

(** X2.  After any batch of appends to a log buffer that was within its
    bound, the buffer holds the latest entries, at most [log_bound k] of
    them, in their order of arrival. *)
Theorem log_buffer_keeps_latest (k : job_kind) (entries : list log_entry)
    (st : server_state) :
  (List.length (log_buffer k st) <= log_bound k)%nat ->
  log_buffer k (append_logs k entries st)
  = lastn (log_bound k) (log_buffer k st ++ entries).
Proof.
  intros H. rewrite log_buffer_append_logs. now apply fold_append_bounded.
Qed.

(** ** What each worker leaves alone *)

Create HintDb keeps.

Lemma conversion_keeps_log clock st0 msg ty w :
  conversion_keeps st0 w -> conversion_keeps st0 (log_conversion clock msg ty w).
Proof.
  intros (Hs & Hm & Ht & Hl). repeat split; try apply Hs; try apply Hm; try exact Ht.
  intros H. apply append_bounded_length, Hl, H.
Qed.

Lemma conversion_keeps_put st0 p w :
  conversion_keeps st0 w -> conversion_keeps st0 (record_put p w).
Proof. intros H. exact H. Qed.

Lemma conversion_keeps_stats st0 f w :
  (forall s, cv_targetBucket (f s) = cv_targetBucket s) ->
  conversion_keeps st0 w -> conversion_keeps st0 (with_convert_stats f w).
Proof.
  intros Hf (Hs & Hm & Ht & Hl). repeat split; try apply Hs; try apply Hm; try exact Hl.
  simpl. now rewrite Hf.
Qed.

#[local] Hint Resolve conversion_keeps_log conversion_keeps_put : keeps.

Lemma convert_object_keeps clock s3 st0 key (acc : Z * world) :
  conversion_keeps st0 (snd acc) ->
  conversion_keeps st0 (snd (convert_object clock s3 key acc)).
Proof.
  destruct acc as [n w]. unfold convert_object. intros H.
  repeat break_match; simpl; auto with keeps.
Qed.

Lemma convert_pages_keeps clock s3 st0 pages (acc : Z * world) :
  conversion_keeps st0 (snd acc) ->
  conversion_keeps st0 (snd (convert_pages clock s3 pages acc)).
Proof.
  intros H. unfold convert_pages.
  apply (fold_left_invariant (fun a : Z * world => conversion_keeps st0 (snd a)));
    [|exact H].
  intros x page Hx.
  apply (fold_left_invariant (fun a : Z * world => conversion_keeps st0 (snd a)));
    [|exact Hx].
  intros y obj Hy. now apply convert_object_keeps.
Qed.

Lemma conversion_keeps_refl (w : world) : conversion_keeps (globals w) w.
Proof. repeat split; auto. Qed.

Lemma conversion_body_keeps clock s3 src (w : world) :
  conversion_keeps (globals w) (fst (conversion_body clock s3 src w)).
Proof.
  unfold conversion_body.
  destruct (s3_client s3); simpl;
    [|apply conversion_keeps_log, conversion_keeps_refl].
  destruct (s3_paginate s3 _ _) as [pages failure].
  match goal with |- context [convert_pages clock s3 pages ?a] =>
    pose proof (convert_pages_keeps clock s3 (globals w) pages a) as Hp;
    destruct (convert_pages clock s3 pages a) as [n w3] end.
  simpl in Hp.
  assert (H3 : conversion_keeps (globals w) w3)
    by (apply Hp; repeat apply conversion_keeps_log; apply conversion_keeps_refl).
  destruct failure; simpl; [exact H3|].
  apply conversion_keeps_log.
  repeat (apply conversion_keeps_stats; [reflexivity|]). exact H3.
Qed.

Lemma run_conversion_keeps clock s3 src (w : world) :
  conversion_keeps (globals w) (_run_conversion clock s3 src w).
Proof.
  unfold _run_conversion.
  pose proof (conversion_body_keeps clock s3 src w) as H.
  destruct (conversion_body clock s3 src w) as [w1 [e|]]; simpl in H.
  - unfold conversion_finally, conversion_except.
    assert (H2 : conversion_keeps (globals w)
                   (log_conversion clock ("Conversion failed: " ++ e) "error"
                      (with_convert_stats (set_cv_error (Some e)) w1)))
      by (apply conversion_keeps_log, conversion_keeps_stats; [reflexivity | exact H]).
    exact H2.
  - exact H.
Qed.

Lemma summarization_keeps_log clock st0 msg ty w :
  summarization_keeps st0 w -> summarization_keeps st0 (log_summarization clock msg ty w).
Proof.
  intros (Hs & Hm & Ht & Hf & Hl).
  repeat split; try apply Hs; try apply Hm; try exact Ht; try exact Hf.
  intros H. apply append_bounded_length, Hl, H.
Qed.

Lemma summarization_keeps_put st0 p w :
  summarization_keeps st0 w -> summarization_keeps st0 (record_put p w).
Proof. intros H. exact H. Qed.

Lemma summarization_keeps_stats st0 f w :
  (forall s, sm_targetBucket (f s) = sm_targetBucket s
             /\ sm_totalFolders (f s) = sm_totalFolders s) ->
  summarization_keeps st0 w -> summarization_keeps st0 (with_summarize_stats f w).
Proof.
  intros Hf (Hs & Hm & Ht & Hfo & Hl).
  repeat split; try apply Hs; try apply Hm; try exact Hl; simpl.
  - now rewrite (proj1 (Hf _)).
  - now rewrite (proj2 (Hf _)).
Qed.

#[local] Hint Resolve summarization_keeps_log summarization_keeps_put : keeps.

Lemma summarization_keeps_refl (w : world) : summarization_keeps (globals w) w.
Proof. repeat split; auto. Qed.

Lemma summarize_object_keeps clock s3 ai st0 key (acc : Z * Z * world) :
  summarization_keeps st0 (snd acc) ->
  summarization_keeps st0 (snd (summarize_object clock s3 ai key acc)).
Proof.
  destruct acc as [[n m] w]. unfold summarize_object. intros H.
  repeat break_match; simpl; auto 6 with keeps.
Qed.

Lemma summarize_pages_keeps clock s3 ai st0 pages (acc : Z * Z * world) :
  summarization_keeps st0 (snd acc) ->
  summarization_keeps st0 (snd (summarize_pages clock s3 ai pages acc)).
Proof.
  intros H. unfold summarize_pages.
  apply (fold_left_invariant (fun a : Z * Z * world => summarization_keeps st0 (snd a)));
    [|exact H].
  intros x page Hx.
  apply (fold_left_invariant (fun a : Z * Z * world => summarization_keeps st0 (snd a)));
    [|exact Hx].
  intros y obj Hy. now apply summarize_object_keeps.
Qed.

Lemma load_models_keeps clock ai st0 (w : world) :
  summarization_keeps st0 w ->
  summarization_keeps st0 (fst (load_models clock ai w)).
Proof.
  intros H. unfold load_models. repeat break_match; simpl; auto 6 with keeps.
Qed.

Lemma summarization_body_keeps clock s3 ai src (w : world) :
  summarization_keeps (globals w) (fst (summarization_body clock s3 ai src w)).
Proof.
  unfold summarization_body.
  destruct (s3_client s3); simpl;
    [|apply summarization_keeps_log, summarization_keeps_refl].
  match goal with |- context [load_models clock ai ?w0] =>
    pose proof (load_models_keeps clock ai (globals w) w0) as Hl;
    destruct (load_models clock ai w0) as [w3 [e|]] end; simpl in Hl.
  - simpl. apply Hl. repeat apply summarization_keeps_log.
    apply summarization_keeps_refl.
  - assert (H3 : summarization_keeps (globals w) w3)
      by (apply Hl; repeat apply summarization_keeps_log;
          apply summarization_keeps_refl).
    destruct (s3_paginate s3 _ _) as [pages failure].
    pose proof (summarize_pages_keeps clock s3 ai (globals w) pages (0, 0, w3) H3)
      as Hp.
    destruct (summarize_pages clock s3 ai pages (0, 0, w3)) as [[n m] w4].
    simpl in Hp. destruct failure; simpl; [exact Hp|].
    apply summarization_keeps_log.
    repeat (apply summarization_keeps_stats; [intros s; split; reflexivity|]).
    exact Hp.
Qed.

Lemma run_summarization_keeps clock s3 ai src (w : world) :
  summarization_keeps (globals w) (_run_summarization clock s3 ai src w).
Proof.
  unfold _run_summarization.
  pose proof (summarization_body_keeps clock s3 ai src w) as H.
  destruct (summarization_body clock s3 ai src w) as [w1 [e|]]; simpl in H.
  - unfold summarization_finally, summarization_except.
    assert (H2 : summarization_keeps (globals w)
                   (log_summarization clock ("Summarization failed: " ++ e) "error"
                      (with_summarize_stats (set_sm_error (Some e)) w1)))
      by (apply summarization_keeps_log, summarization_keeps_stats;
          [intros s; split; reflexivity | exact H]).
    exact H2.
  - exact H.
Qed.

Lemma scraping_keeps_log clock st0 msg ty w :
  scraping_keeps st0 w -> scraping_keeps st0 (log_scrape clock msg ty w).
Proof.
  intros (Hc & Hm & Hj & Hl). repeat split; try apply Hc; try apply Hm; try exact Hj.
  intros H. apply append_bounded_length, Hl, H.
Qed.

Lemma scraping_keeps_stats st0 f w :
  scraping_keeps st0 w -> scraping_keeps st0 (with_stats f w).
Proof. intros H. exact H. Qed.

Lemma scraping_keeps_flag st0 b w :
  scraping_keeps st0 w -> scraping_keeps st0 (with_globals (set_scraping_active b) w).
Proof. intros H. exact H. Qed.

Lemma scraping_keeps_refl (w : world) : scraping_keeps (globals w) w.
Proof. repeat split; auto. Qed.

Lemma process_line_keeps clock st0 self raw w :
  scraping_keeps st0 w -> scraping_keeps st0 (fst (process_line clock self raw w)).
Proof.
  intros H. unfold process_line.
  destruct (PyStr.truthy (PyStr.strip raw)); [|exact H].
  destruct (_update_stats_from_log _ _ _) as [s exn]. simpl.
  apply scraping_keeps_stats, scraping_keeps_log, H.
Qed.

Lemma stream_output_keeps clock st0 evs self w :
  scraping_keeps st0 w ->
  scraping_keeps st0 (snd (fst (stream_output clock evs self w))).
Proof.
  revert self w. induction evs as [|ev evs IH]; intros self w H; simpl.
  - exact H.
  - destruct ev as [raw|].
    + destruct (negb (is_running self)); [exact H|].
      pose proof (process_line_keeps clock st0 self raw w H) as Hp.
      destruct (process_line clock self raw w) as [w1 [e|]]; simpl in *.
      * exact Hp.
      * apply IH, Hp.
    + apply IH, scraping_keeps_flag, H.
Qed.

Lemma run_scraping_keeps clock script self (w : world) :
  scraping_keeps (globals w) (snd (_run_scraping clock script self w)).
Proof.
  unfold _run_scraping, scraping_body.
  assert (H1 : scraping_keeps (globals w)
                 (worker_announce clock self (worker_begin clock w))).
  { unfold worker_announce, worker_begin.
    repeat first [apply scraping_keeps_stats | apply scraping_keeps_log].
    apply scraping_keeps_refl. }
  destruct (popen script).
  - pose proof (stream_output_keeps clock (globals w) (events script) self _ H1) as Hs.
    destruct (stream_output clock (events script) self _) as [[self1 w2] [e|]];
      simpl in Hs; simpl.
    + apply scraping_keeps_flag. unfold scraping_except.
      apply scraping_keeps_stats, scraping_keeps_log, Hs.
    + apply scraping_keeps_flag. unfold worker_finish.
      destruct ((returncode script =? 0) && is_running self1)%bool;
        repeat first [apply scraping_keeps_stats | apply scraping_keeps_log];
        exact Hs.
  - simpl. apply scraping_keeps_flag. unfold scraping_except.
    apply scraping_keeps_stats, scraping_keeps_log, H1.
Qed.

Lemma dispatch_keeps (e : post_endpoint) (t : Z) (data : request) (st : server_state) :
  let st' := snd (fst (dispatch e t data st)) in
  match endpoint_kind e with
  | Scrape => same_conversion_part st st' /\ same_summarization_part st st'
  | Convert => same_scrape_part st st' /\ same_summarization_part st st'
  | Summarize => same_scrape_part st st' /\ same_conversion_part st st'
  end.
Proof.
  destruct e; simpl.
  - unfold start_scraping. repeat break_match; simpl; repeat split.
  - unfold stop_scraping. destruct (current_job st); simpl; repeat split.
  - unfold convert_to_text. repeat break_match; simpl; repeat split.
  - unfold generate_summaries. repeat break_match; simpl; repeat split.
Qed.

(** X3.  The three job kinds are independent: a POST endpoint writes only
    the flag, log buffer and status record of its own kind, and so does a
    run of each background worker. *)
Theorem job_kinds_independent :
  (forall e t data st,
      let st' := snd (fst (dispatch e t data st)) in
      match endpoint_kind e with
      | Scrape => same_conversion_part st st' /\ same_summarization_part st st'
      | Convert => same_scrape_part st st' /\ same_summarization_part st st'
      | Summarize => same_scrape_part st st' /\ same_conversion_part st st'
      end)
  /\ (forall clock script self w,
         let st' := globals (snd (_run_scraping clock script self w)) in
         same_conversion_part (globals w) st'
         /\ same_summarization_part (globals w) st')
  /\ (forall clock s3 src w,
         let st' := globals (_run_conversion clock s3 src w) in
         same_scrape_part (globals w) st' /\ same_summarization_part (globals w) st')
  /\ (forall clock s3 ai src w,
         let st' := globals (_run_summarization clock s3 ai src w) in
         same_scrape_part (globals w) st' /\ same_conversion_part (globals w) st').
Proof.
  split; [exact dispatch_keeps | split; [|split]].
  - intros clock script self w.
    destruct (run_scraping_keeps clock script self w) as (Hc & Hm & _).
    split; assumption.
  - intros clock s3 src w.
    destruct (run_conversion_keeps clock s3 src w) as (Hs & Hm & _).
    split; assumption.
  - intros clock s3 ai src w.
    destruct (run_summarization_keeps clock s3 ai src w) as (Hs & Hc & _).
    split; assumption.
Qed.

Lemma dispatch_logs_bounded (e : post_endpoint) (t : Z) (data : request)
    (st : server_state) :
  logs_bounded st -> logs_bounded (snd (fst (dispatch e t data st))).
Proof.
  intros H k. pose proof (H Scrape) as Hs. pose proof (H Convert) as Hc.
  pose proof (H Summarize) as Hm.
  destruct e; simpl.
  - unfold start_scraping. repeat break_match; destruct k; simpl in *; lia.
  - unfold stop_scraping. destruct (current_job st); destruct k; simpl in *; lia.
  - unfold convert_to_text. repeat break_match; destruct k; simpl in *; lia.
  - unfold generate_summaries. repeat break_match; destruct k; simpl in *; lia.
Qed.

(** X4.  In every state the server reaches, each log buffer is within its
    bound: at most 500 scrape entries, 200 conversion entries and 300
    summarization entries. *)
Theorem reachable_logs_bounded (st : server_state) :
  reachable st -> logs_bounded st.
Proof.
  induction 1 as [ | e t data st _ IH | n line st _ IH
                   | clock script self st k ps _ IH
                   | clock script self st k ps _ IH
                   | clock s3 src st k ps _ IH
                   | clock s3 ai src st k ps _ IH ].
  - intros k. destruct k; simpl; lia.
  - now apply dispatch_logs_bounded.
  - exact IH.
  - unfold run_scrape_thread.
    pose proof (run_scraping_keeps clock script self (mk_world st k ps))
      as ((_ & Hc & _) & (_ & Hm & _) & _ & Hl).
    destruct (_run_scraping clock script self (mk_world st k ps)) as [self1 w1].
    simpl in *. intros j. destruct j; simpl.
    + apply Hl, (IH Scrape).
    + rewrite Hc. apply (IH Convert).
    + rewrite Hm. apply (IH Summarize).
  - pose proof (run_scraping_keeps clock script self (mk_world st k ps))
      as ((_ & Hc & _) & (_ & Hm & _) & _ & Hl).
    destruct (_run_scraping clock script self (mk_world st k ps)) as [self1 w1].
    simpl in *. intros j. destruct j; simpl.
    + apply Hl, (IH Scrape).
    + rewrite Hc. apply (IH Convert).
    + rewrite Hm. apply (IH Summarize).
  - pose proof (run_conversion_keeps clock s3 src (mk_world st k ps))
      as ((_ & _ & Hs & _) & (_ & Hm & _) & _ & Hl).
    simpl in *. intros j. destruct j; simpl.
    + rewrite Hs. apply (IH Scrape).
    + apply Hl, (IH Convert).
    + rewrite Hm. apply (IH Summarize).
  - pose proof (run_summarization_keeps clock s3 ai src (mk_world st k ps))
      as ((_ & _ & Hs & _) & (_ & Hc & _) & _ & _ & Hl).
    simpl in *. intros j. destruct j; simpl.
    + rewrite Hs. apply (IH Scrape).
    + rewrite Hc. apply (IH Convert).
    + apply Hl, (IH Summarize).
Qed.

Lemma dispatch_record_constants (e : post_endpoint) (t : Z) (data : request)
    (st : server_state) :
  record_constants st -> record_constants (snd (fst (dispatch e t data st))).
Proof.
  intros H. destruct e; simpl.
  - unfold start_scraping. repeat break_match; exact H.
  - unfold stop_scraping. destruct (current_job st); exact H.
  - unfold convert_to_text. repeat break_match; try exact H.
    destruct H as (H1 & H2 & _). split; [exact H1 | split; [exact H2|]].
    right. reflexivity.
  - unfold generate_summaries. repeat break_match; try exact H.
    destruct H as (_ & _ & H3). split; [reflexivity | split; [reflexivity | exact H3]].
Qed.

(** X5.  In every state the server reaches, the [totalFolders] field of
    the summarization record is 0 (no code path writes it), its
    [targetBucket] is the summary bucket, and the [targetBucket] of the
    conversion record is unset or the text bucket. *)
Theorem reachable_record_constants (st : server_state) :
  reachable st -> record_constants st.
Proof.
  induction 1 as [ | e t data st _ IH | n line st _ IH
                   | clock script self st k ps _ IH
                   | clock script self st k ps _ IH
                   | clock s3 src st k ps _ IH
                   | clock s3 ai src st k ps _ IH ].
  - split; [reflexivity | split; [reflexivity | now left]].
  - now apply dispatch_record_constants.
  - exact IH.
  - unfold run_scrape_thread.
    pose proof (run_scraping_keeps clock script self (mk_world st k ps))
      as ((_ & _ & Hc) & (_ & _ & Hm) & _).
    destruct (_run_scraping clock script self (mk_world st k ps)) as [self1 w1].
    simpl in *. unfold record_constants. simpl. rewrite Hc, Hm. exact IH.
  - pose proof (run_scraping_keeps clock script self (mk_world st k ps))
      as ((_ & _ & Hc) & (_ & _ & Hm) & _).
    destruct (_run_scraping clock script self (mk_world st k ps)) as [self1 w1].
    simpl in *. unfold record_constants. simpl. rewrite Hc, Hm. exact IH.
  - pose proof (run_conversion_keeps clock s3 src (mk_world st k ps))
      as (_ & (_ & _ & Hm) & Ht & _).
    simpl in *. unfold record_constants. rewrite Hm, Ht. exact IH.
  - pose proof (run_summarization_keeps clock s3 ai src (mk_world st k ps))
      as (_ & (_ & _ & Hc) & Ht & Hf & _).
    simpl in *. unfold record_constants. rewrite Hc, Ht, Hf. exact IH.
Qed.

(** ** Statistics of a scrape run *)

Lemma article_step_fields (n : Z) (line : string) (s : scrape_stats) :
  let s' := fst (article_step n line s) in
  articlesFound s <= articlesFound s' <= articlesFound s + 1
  /\ imagesFound s' = imagesFound s
  /\ completed s' = completed s
  /\ sessionId s' = sessionId s.
Proof.
  unfold article_step. destruct (is_article_line line); [|simpl; repeat split; lia].
  destruct (article_band _ n); simpl; repeat split; lia.
Qed.

Lemma image_step_fields (n : Z) (line : string) (s : scrape_stats) :
  let s' := fst (image_step n line s) in
  articlesFound s' = articlesFound s
  /\ imagesFound s <= imagesFound s' <= imagesFound s + 1
  /\ completed s' = completed s
  /\ sessionId s' = sessionId s.
Proof.
  unfold image_step. destruct (is_image_line line); [|simpl; repeat split; lia].
  destruct (image_band _ n); simpl; repeat split; lia.
Qed.

Lemma update_stats_fields (n : Z) (line : string) (s : scrape_stats) :
  let s' := fst (_update_stats_from_log n line s) in
  articlesFound s <= articlesFound s' <= articlesFound s + 1
  /\ imagesFound s <= imagesFound s' <= imagesFound s + 1
  /\ completed s' = completed s
  /\ sessionId s' = sessionId s.
Proof.
  unfold _update_stats_from_log.
  pose proof (article_step_fields n line s) as (A1 & A2 & A3 & A4).
  destruct (article_step n line s) as [s1 [e|]]; simpl in *;
    [repeat split; try lia; congruence|].
  pose proof (image_step_fields n line s1) as (I1 & I2 & I3 & I4).
  destruct (image_step n line s1) as [s2 [e|]]; simpl in *;
    [repeat split; try lia; congruence|].
  unfold complete_step. destruct (is_complete_line line); simpl;
    repeat split; try lia; congruence.
Qed.

Lemma update_stats_in_range (n : Z) (line : string) (s : scrape_stats) :
  stats_in_range s -> stats_in_range (fst (_update_stats_from_log n line s)).
Proof.
  intros ((Hp0 & Hp1) & Ha & Hi).
  pose proof (update_stats_monotone n line s Hp1) as Hm.
  pose proof (update_stats_fields n line s) as (Hf & Hg & _).
  repeat split; lia.
Qed.

Lemma process_line_in_range clock self raw w :
  stats_in_range (scraping_stats (globals w)) ->
  stats_in_range (scraping_stats (globals (fst (process_line clock self raw w)))).
Proof.
  intros H. unfold process_line.
  destruct (PyStr.truthy (PyStr.strip raw)); [|exact H].
  match goal with |- context [_update_stats_from_log ?n ?l ?s] =>
    pose proof (update_stats_in_range n l s H) as Hu;
    destruct (_update_stats_from_log n l s) as [s' exn] end.
  exact Hu.
Qed.

Lemma stream_output_in_range clock evs self w :
  stats_in_range (scraping_stats (globals w)) ->
  stats_in_range (scraping_stats (globals (snd (fst (stream_output clock evs self w))))).
Proof.
  revert self w. induction evs as [|ev evs IH]; intros self w H; simpl.
  - exact H.
  - destruct ev as [raw|].
    + destruct (negb (is_running self)); [exact H|].
      pose proof (process_line_in_range clock self raw w H) as Hp.
      destruct (process_line clock self raw w) as [w1 [e|]]; simpl in *.
      * exact Hp.
      * apply IH, Hp.
    + apply IH. exact H.
Qed.

Lemma run_scraping_in_range clock script self w :
  0 <= articlesFound (scraping_stats (globals w)) ->
  0 <= imagesFound (scraping_stats (globals w)) ->
  stats_in_range (scraping_stats (globals (snd (_run_scraping clock script self w)))).
Proof.
  intros Ha Hi. unfold _run_scraping, scraping_body.
  assert (H1 : stats_in_range
                 (scraping_stats
                    (globals (worker_announce clock self (worker_begin clock w)))))
    by (repeat split; simpl; lia).
  destruct (popen script).
  - pose proof (stream_output_in_range clock (events script) self _ H1) as Hs.
    destruct (stream_output clock (events script) self _) as [[self1 w2] [e|]];
      simpl in Hs; simpl.
    + destruct Hs as (_ & Ha2 & Hi2). repeat split; simpl; lia.
    + unfold worker_finish.
      destruct ((returncode script =? 0) && is_running self1)%bool;
        destruct Hs as (_ & Ha2 & Hi2); repeat split; simpl; lia.
  - simpl. destruct H1 as (_ & Ha2 & Hi2). repeat split; simpl; lia.
Qed.

Lemma dispatch_in_range (e : post_endpoint) (t : Z) (data : request) (st : server_state) :
  stats_in_range (scraping_stats st) ->
  stats_in_range (scraping_stats (snd (fst (dispatch e t data st)))).
Proof.
  intros H. destruct e; simpl.
  - unfold start_scraping. repeat break_match; simpl; try exact H.
    repeat split; simpl; lia.
  - unfold stop_scraping. destruct (current_job st); exact H.
  - unfold convert_to_text. repeat break_match; exact H.
  - unfold generate_summaries. repeat break_match; exact H.
Qed.

(** X6.  In every state the server reaches, the progress field lies
    between 0 and 100 and the counters articlesFound and imagesFound are
    not negative. *)
Theorem reachable_stats_in_range (st : server_state) :
  reachable st -> stats_in_range (scraping_stats st).
Proof.
  induction 1 as [ | e t data st _ IH | n line st _ IH
                   | clock script self st k ps _ IH
                   | clock script self st k ps _ IH
                   | clock s3 src st k ps _ IH
                   | clock s3 ai src st k ps _ IH ].
  - repeat split; simpl; lia.
  - now apply dispatch_in_range.
  - now apply update_stats_in_range.
  - unfold run_scrape_thread.
    pose proof (run_scraping_in_range clock script self (mk_world st k ps)
                  (proj1 (proj2 IH)) (proj2 (proj2 IH))) as Hr.
    destruct (_run_scraping clock script self (mk_world st k ps)) as [self1 w1].
    exact Hr.
  - pose proof (run_scraping_in_range clock script self (mk_world st k ps)
                  (proj1 (proj2 IH)) (proj2 (proj2 IH))) as Hr.
    destruct (_run_scraping clock script self (mk_world st k ps)) as [self1 w1].
    exact Hr.
  - rewrite run_conversion_frame. exact IH.
  - rewrite run_summarization_frame. exact IH.
Qed.

Lemma count_lines_cons (test : string -> bool) (line : string) (lines : list string) :
  count_lines test (line :: lines) = hit test line + count_lines test lines.
Proof.
  unfold count_lines, hit. cbn [filter].
  destruct (test line); cbn [List.length]; rewrite ?Nat2Z.inj_succ; lia.
Qed.

Lemma update_stats_counts (n : Z) (line : string) (s : scrape_stats) :
  0 < n ->
  0 <= articlesFound s -> articlesFound s + 1 < 2 ^ 1023 ->
  0 <= imagesFound s -> imagesFound s + 1 < 2 ^ 1023 ->
  exists s',
    _update_stats_from_log n line s = (s', None)
    /\ articlesFound s' = articlesFound s + hit is_article_line line
    /\ imagesFound s' = imagesFound s + hit is_image_line line.
Proof.
  intros Hn Ha0 Ha1 Hi0 Hi1.
  destruct (article_band_ok (articlesFound s + 1) n Hn ltac:(lia)) as [va [Hva _]].
  destruct (image_band_ok (imagesFound s + 1) n Hn ltac:(lia)) as [vi [Hvi _]].
  unfold _update_stats_from_log, hit.
  rewrite (article_step_value n line s va Hva).
  destruct (is_article_line line);
    (rewrite (image_step_value n line _ vi) by exact Hvi);
    destruct (is_image_line line); eexists; (split; [reflexivity|]);
    unfold complete_step; destruct (is_complete_line line); simpl; split; lia.
Qed.

(** X7.  While the job runs with maxArticles = n > 0, streaming a
    sequence of output lines never raises, and it adds to articlesFound
    the number of processed lines that hold both "SAVED:" and
    "article.json", and to imagesFound the number that hold both
    "SUCCESS: Saved" and "image.jpg"; one log call is made per processed
    line. *)
Theorem counters_count_marked_lines clock (raws : list string) (self : job) (w : world) :
  is_running self = true ->
  0 < max_articles self ->
  0 <= articlesFound (scraping_stats (globals w)) ->
  0 <= imagesFound (scraping_stats (globals w)) ->
  articlesFound (scraping_stats (globals w)) + Z.of_nat (List.length raws) < 2 ^ 1023 ->
  imagesFound (scraping_stats (globals w)) + Z.of_nat (List.length raws) < 2 ^ 1023 ->
  exists w',
    stream_output clock (map StdoutLine raws) self w = (self, w', None)
    /\ articlesFound (scraping_stats (globals w'))
       = articlesFound (scraping_stats (globals w))
         + count_lines (holds_both "SAVED:" "article.json") (processed_lines raws)
    /\ imagesFound (scraping_stats (globals w'))
       = imagesFound (scraping_stats (globals w))
         + count_lines (holds_both "SUCCESS: Saved" "image.jpg") (processed_lines raws)
    /\ ticks w' = (ticks w + List.length (processed_lines raws))%nat.
Proof.
  change (holds_both "SAVED:" "article.json") with is_article_line.
  change (holds_both "SUCCESS: Saved" "image.jpg") with is_image_line.
  intros Hrun Hn. revert w.
  induction raws as [|raw raws IH]; intros w Ha0 Hi0 Ha1 Hi1.
  - exists w. simpl. unfold count_lines. simpl. repeat split; lia.
  - cbn [map stream_output]. rewrite Hrun. cbn [negb].
    cbn [List.length] in Ha1, Hi1. rewrite Nat2Z.inj_succ in Ha1, Hi1.
    unfold processed_lines. cbn [map filter]. fold (processed_lines raws).
    unfold process_line.
    destruct (PyStr.truthy (PyStr.strip raw)) eqn:Ht.
    + set (w1 := log_scrape clock (PyStr.strip raw)
                            (_classify_log_line (PyStr.strip raw)) w).
      destruct (update_stats_counts (max_articles self) (PyStr.strip raw)
                  (scraping_stats (globals w1)) Hn)
        as [s' [Hu [Hfa Hfi]]]; try (simpl; lia).
      rewrite Hu.
      assert (Hh1 : 0 <= hit is_article_line (PyStr.strip raw) <= 1)
        by (unfold hit; destruct (is_article_line _); lia).
      assert (Hh2 : 0 <= hit is_image_line (PyStr.strip raw) <= 1)
        by (unfold hit; destruct (is_image_line _); lia).
      simpl in Hfa, Hfi.
      destruct (IH (with_stats (fun _ => s') w1)) as [w' [Hs [Hwa [Hwi Hwt]]]];
        try (simpl; lia).
      exists w'. split; [exact Hs|].
      rewrite !count_lines_cons. simpl in Hwa, Hwi, Hwt.
      cbn [List.length]. repeat split; lia.
    + destruct (IH w) as [w' [Hs [Hwa [Hwi Hwt]]]]; try lia.
      exists w'. repeat split; assumption.
Qed.

Lemma process_line_flags clock self raw w :
  let w' := fst (process_line clock self raw w) in
  completed (scraping_stats (globals w')) = completed (scraping_stats (globals w))
  /\ sessionId (scraping_stats (globals w')) = sessionId (scraping_stats (globals w)).
Proof.
  unfold process_line. destruct (PyStr.truthy (PyStr.strip raw)); [|now split].
  match goal with |- context [_update_stats_from_log ?n ?l ?s] =>
    pose proof (update_stats_fields n l s) as (_ & _ & Hc & Hi);
    destruct (_update_stats_from_log n l s) as [s' exn] end.
  simpl in *. split; assumption.
Qed.

Lemma stream_output_flags clock evs self w :
  let w' := snd (fst (stream_output clock evs self w)) in
  completed (scraping_stats (globals w')) = completed (scraping_stats (globals w))
  /\ sessionId (scraping_stats (globals w')) = sessionId (scraping_stats (globals w)).
Proof.
  revert self w. induction evs as [|ev evs IH]; intros self w; simpl.
  - now split.
  - destruct ev as [raw|].
    + destruct (negb (is_running self)); [now split|].
      pose proof (process_line_flags clock self raw w) as (Hc & Hi).
      destruct (process_line clock self raw w) as [w1 [e|]]; simpl in *.
      * now split.
      * destruct (IH self w1) as (Hc' & Hi'). split; congruence.
    + apply (IH (job_stop self) (with_globals (set_scraping_active false) w)).
Qed.

(** X8.  A run of the scrape worker reports completion only for a
    successful run: it sets [completed] exactly when the subprocess
    started, no exception escaped, the exit status is 0 and the job was
    not stopped, and then progress is 100; in every other case the
    [completed] field keeps its value and progress is 0.  The session id
    is stored in the statistics in either case. *)
Theorem completed_only_on_success clock script self w :
  let w1 := worker_announce clock self (worker_begin clock w) in
  let '(self1, _, exn) := stream_output clock (events script) self w1 in
  let final := scraping_stats (globals (snd (_run_scraping clock script self w))) in
  let succeeded :=
    match popen script, exn with
    | Ok _, None => ((returncode script =? 0) && is_running self1)%bool
    | _, _ => false
    end in
  sessionId final = Some (session_id self)
  /\ (if succeeded
      then completed final = true /\ progress final = 100
      else completed final = completed (scraping_stats (globals w))
           /\ progress final = 0).
Proof.
  intros w1. unfold _run_scraping, scraping_body. fold w1.
  pose proof (stream_output_flags clock (events script) self w1) as (Hc & Hi).
  destruct (stream_output clock (events script) self w1) as [[self1 w2] exn].
  simpl in Hc, Hi.
  destruct (popen script); [|simpl; repeat split].
  destruct exn; simpl.
  - rewrite Hc, Hi. repeat split.
  - unfold worker_finish.
    destruct ((returncode script =? 0) && is_running self1)%bool; simpl;
      rewrite ?Hc, ?Hi; repeat split.
Qed.

Lemma stream_output_stopped clock evs self w :
  is_running self = false ->
  exists w',
    stream_output clock evs self w = (self, w', None)
    /\ all_logs (globals w') = all_logs (globals w)
    /\ scraping_stats (globals w') = scraping_stats (globals w)
    /\ ticks w' = ticks w.
Proof.
  intros Hstop. revert w. induction evs as [|ev evs IH]; intros w; simpl.
  - now exists w.
  - destruct ev as [raw|].
    + rewrite Hstop. now exists w.
    + assert (Hj : job_stop self = self)
        by (destruct self; simpl in *; now subst).
      rewrite Hj.
      destruct (IH (with_globals (set_scraping_active false) w))
        as [w' (Hs & Hl & Hst & Ht)].
      exists w'. repeat split; assumption.
Qed.

Lemma stream_output_stop_seen clock evs self w :
  is_running self = false \/ In StopRequested evs ->
  let '(self1, _, exn) := stream_output clock evs self w in
  exn <> None \/ is_running self1 = false.
Proof.
  revert self w. induction evs as [|ev evs IH]; intros self w H; simpl.
  - destruct H as [H | []]. now right.
  - destruct ev as [raw|].
    + destruct (is_running self) eqn:Hrun; simpl; [|now right].
      destruct (process_line clock self raw w) as [w1 [e|]].
      * left. discriminate.
      * apply IH. destruct H as [H | [H | H]]; [discriminate | discriminate | now right].
    + apply IH. now left.
Qed.

(** X9.  A stop request ends the run as a failure: once the job is
    stopped the streaming loop logs nothing more and changes no
    statistic, and a run during which a stop request arrives (or whose
    job was already stopped) finishes with progress 0 and without setting
    [completed], whatever the exit status. *)
Theorem stop_request_fails_run clock script self w :
  is_running self = false \/ In StopRequested (events script) ->
  let final := scraping_stats (globals (snd (_run_scraping clock script self w))) in
  progress final = 0
  /\ completed final = completed (scraping_stats (globals w))
  /\ (is_running self = false ->
      forall evs w0,
        exists w',
          stream_output clock evs self w0 = (self, w', None)
          /\ all_logs (globals w') = all_logs (globals w0)
          /\ scraping_stats (globals w') = scraping_stats (globals w0)
          /\ ticks w' = ticks w0).
Proof.
  intros H. split; [|split].
  - unfold _run_scraping, scraping_body.
    destruct (popen script); [|reflexivity].
    pose proof (stream_output_stop_seen clock (events script) self
                  (worker_announce clock self (worker_begin clock w)) H) as Hs.
    destruct (stream_output clock (events script) self _) as [[self1 w2] [e|]];
      [reflexivity|].
    destruct Hs as [Hs | Hs]; [congruence|].
    simpl. unfold worker_finish. rewrite Hs, andb_false_r. reflexivity.
  - unfold _run_scraping, scraping_body.
    pose proof (stream_output_flags clock (events script) self
                  (worker_announce clock self (worker_begin clock w))) as (Hc & _).
    pose proof (stream_output_stop_seen clock (events script) self
                  (worker_announce clock self (worker_begin clock w)) H) as Hs.
    destruct (popen script); [|reflexivity].
    destruct (stream_output clock (events script) self _) as [[self1 w2] [e|]];
      simpl in Hc; simpl; [exact Hc|].
    destruct Hs as [Hs | Hs]; [congruence|].
    unfold worker_finish. rewrite Hs, andb_false_r. simpl. exact Hc.
  - intros Hstop evs w0. now apply stream_output_stopped.
Qed.

Lemma scraping_except_last clock (e : string) (self : job) (w : world) :
  last_entry (all_logs (globals (snd (scraping_finally self
                                        (scraping_except clock e w)))))
  = Some (mk_log_entry (clock (ticks w)) ("Error: " ++ e) "error").
Proof. apply add_log_last. Qed.

(** X10.  maxArticles = 0 is accepted by [POST /start_scraping], and
    makes the run fail at the first saved article: the two article
    counters are incremented, the division raises, and the worker returns
    with progress 0, [completed] untouched and "Error: division by zero"
    as the last log entry. *)
Theorem zero_max_articles_fails clock (raw : string) (rest : list proc_event)
    (rc : Z) (self : job) (w : world) :
  max_articles self = 0 ->
  is_running self = true ->
  is_article_line (PyStr.strip raw) = true ->
  let script := mk_proc_script (Ok tt) (StdoutLine raw :: rest) rc in
  let final := globals (snd (_run_scraping clock script self w)) in
  progress (scraping_stats final) = 0
  /\ completed (scraping_stats final) = completed (scraping_stats (globals w))
  /\ articlesFound (scraping_stats final)
     = articlesFound (scraping_stats (globals w)) + 1
  /\ articlesSaved (scraping_stats final) = articlesFound (scraping_stats final)
  /\ option_map message (last_entry (all_logs final)) = Some "Error: division by zero"
  /\ (forall t u st,
         scraping_active st = false -> u <> "" ->
         exists resp st' j,
           start_scraping t (mk_request (Some u) (Some 0) None None None) st
           = (resp, st', Some (ScrapeThread j))
           /\ status resp = 200 /\ max_articles j = 0).
Proof.
  intros Hn Hrun Hart script final.
  assert (Htruthy : PyStr.truthy (PyStr.strip raw) = true).
  { destruct (PyStr.strip raw); [discriminate Hart | reflexivity]. }
  assert (Hfinal : final
                   = globals (snd (scraping_finally self
                       (scraping_except clock "division by zero"
                          (fst (process_line clock self raw
                                  (worker_announce clock self
                                                   (worker_begin clock w)))))))).
  { subst final script. unfold _run_scraping, scraping_body.
    cbn [popen events stream_output]. rewrite Hrun. cbn [negb].
    unfold process_line. rewrite Htruthy.
    unfold _update_stats_from_log, article_step. rewrite Hart, Hn.
    reflexivity. }
  rewrite Hfinal. split; [|split; [|split; [|split; [|split]]]].
  - reflexivity.
  - unfold process_line. rewrite Htruthy.
    unfold _update_stats_from_log, article_step. rewrite Hart, Hn. reflexivity.
  - unfold process_line. rewrite Htruthy.
    unfold _update_stats_from_log, article_step. rewrite Hart, Hn. reflexivity.
  - unfold process_line. rewrite Htruthy.
    unfold _update_stats_from_log, article_step. rewrite Hart, Hn. reflexivity.
  - rewrite scraping_except_last. reflexivity.
  - intros t u st Hidle Hu. unfold start_scraping. rewrite Hidle.
    destruct u as [|c u]; [congruence|]. simpl. eexists _, _, _. repeat split.
Qed.

(** ** Life cycle of a job *)

Lemma start_accepted (e : post_endpoint) (t : Z) (data : request) (st : server_state) :
  well_formed_start e data ->
  active_flag (endpoint_kind e) st = false ->
  let r := dispatch e t data st in
  let st' := snd (fst r) in
  accepted r
  /\ active_flag (endpoint_kind e) st' = true
  /\ log_buffer (endpoint_kind e) st' = []
  /\ status_of (endpoint_kind e) st' = fresh_status (endpoint_kind e).
Proof.
  intros [v [Hreq Hv]] Hidle.
  destruct e; simpl in Hreq, Hidle; try discriminate; injection Hreq as Hreq;
    simpl; unfold accepted.
  - unfold start_scraping. rewrite Hidle, Hreq.
    destruct v; [congruence|]. simpl. repeat split; discriminate.
  - unfold convert_to_text. rewrite Hidle, Hreq.
    destruct v; [congruence|]. simpl. repeat split; discriminate.
  - unfold generate_summaries. rewrite Hidle, Hreq.
    destruct v; [congruence|]. simpl. repeat split; discriminate.
Qed.

Lemma start_rejected_when_active (e : post_endpoint) (t : Z) (data : request)
    (st : server_state) :
  e <> PostStopScraping ->
  active_flag (endpoint_kind e) st = true ->
  exists resp, dispatch e t data st = (resp, st, None) /\ status resp = 400.
Proof.
  intros He H. destruct e; simpl in *; try congruence.
  - unfold start_scraping. rewrite H. eexists. split; reflexivity.
  - unfold convert_to_text. rewrite H. eexists. split; reflexivity.
  - unfold generate_summaries. rewrite H. eexists. split; reflexivity.
Qed.

(** X11.  One job of a kind at a time: a well-formed start request to an
    idle kind is accepted with HTTP 200, starts a thread, empties the
    kind's log buffer, resets its status record and sets its flag; any
    further start request of that kind is then answered 400 and changes
    nothing. *)
Theorem one_job_per_kind (e : post_endpoint) (t t' : Z) (data data' : request)
    (st : server_state) :
  well_formed_start e data ->
  active_flag (endpoint_kind e) st = false ->
  let r := dispatch e t data st in
  let st' := snd (fst r) in
  accepted r
  /\ active_flag (endpoint_kind e) st' = true
  /\ log_buffer (endpoint_kind e) st' = []
  /\ status_of (endpoint_kind e) st' = fresh_status (endpoint_kind e)
  /\ exists resp, dispatch e t' data' st' = (resp, st', None) /\ status resp = 400.
Proof.
  intros Hwf Hidle r st'.
  destruct (start_accepted e t data st Hwf Hidle) as (Ha & Hf & Hl & Hs).
  repeat (split; [assumption|]).
  apply start_rejected_when_active; [|exact Hf].
  destruct Hwf as [v [Hreq _]]. intros ->. discriminate Hreq.
Qed.

(** X12.  When a worker returns, its kind accepts a new job: after a run
    of the scrape, conversion or summarization worker from any state, a
    well-formed start request of that kind is accepted. *)
Theorem restart_after_worker_returns (t : Z) (data : request) :
  (forall clock script self w,
      well_formed_start PostStartScraping data ->
      accepted (dispatch PostStartScraping t data
                         (globals (run_scrape_thread clock script self w))))
  /\ (forall clock s3 src w,
         well_formed_start PostConvertToText data ->
         accepted (dispatch PostConvertToText t data
                            (globals (_run_conversion clock s3 src w))))
  /\ (forall clock s3 ai src w,
         well_formed_start PostGenerateSummaries data ->
         accepted (dispatch PostGenerateSummaries t data
                            (globals (_run_summarization clock s3 ai src w)))).
Proof.
  split; [|split].
  - intros clock script self w Hwf.
    apply (start_accepted PostStartScraping t data _ Hwf).
    unfold run_scrape_thread, _run_scraping.
    destruct (scraping_body clock script self w) as [[self1 w1] [e|]]; reflexivity.
  - intros clock s3 src w Hwf.
    apply (start_accepted PostConvertToText t data _ Hwf).
    unfold _run_conversion.
    destruct (conversion_body clock s3 src w) as [w1 [e|]]; reflexivity.
  - intros clock s3 ai src w Hwf.
    apply (start_accepted PostGenerateSummaries t data _ Hwf).
    unfold _run_summarization.
    destruct (summarization_body clock s3 ai src w) as [w1 [e|]]; reflexivity.
Qed.

(** X13.  [POST /stop_scraping] frees the scrape kind at once: whatever
    the state, it answers 200, marks the current job as not running and
    clears the flag, so that a well-formed [POST /start_scraping] that
    follows is accepted without waiting for the stopped worker to return;
    stopping twice is the same as stopping once. *)
Theorem stop_then_start (t : Z) (data : request) (st : server_state) :
  well_formed_start PostStartScraping data ->
  let st1 := snd (fst (stop_scraping st)) in
  status (fst (fst (stop_scraping st))) = 200
  /\ scraping_active st1 = false
  /\ current_job st1 = option_map job_stop (current_job st)
  /\ snd (fst (stop_scraping st1)) = st1
  /\ accepted (start_scraping t data st1).
Proof.
  intros Hwf st1.
  assert (Hidle : scraping_active st1 = false)
    by (subst st1; unfold stop_scraping; destruct (current_job st); reflexivity).
  split; [reflexivity | split; [exact Hidle | split; [|split]]].
  - subst st1. unfold stop_scraping.
    destruct (current_job st) eqn:E; simpl; rewrite ?E; reflexivity.
  - subst st1. unfold stop_scraping.
    destruct (current_job st) as [j|] eqn:E; simpl; rewrite ?E; reflexivity.
  - apply (start_accepted PostStartScraping t data st1 Hwf Hidle).
Qed.

(** ** Listing and download *)

Lemma rstrip_by_shape (p : ascii -> bool) (s : string) :
  PyStr.rstrip_by p s = ""
  \/ exists pre c, PyStr.rstrip_by p s = pre ++ String c "" /\ p c = false.
Proof.
  induction s as [|a s IH]; [now left|].
  cbn [PyStr.rstrip_by]. destruct (PyStr.rstrip_by p s) as [|d r] eqn:Hr.
  - destruct (p a) eqn:Ha; [now left|]. right. now exists "", a.
  - right. destruct IH as [IH | [pre [c [IH Hc]]]]; [discriminate|].
    exists (String a pre), c. simpl. now rewrite IH.
Qed.

Lemma append_last_char (a b : string) (c d : ascii) :
  a ++ String c "" = b ++ String d "" -> c = d.
Proof.
  revert b. induction a as [|x a IH]; intros b H.
  - destruct b as [|y b]; simpl in H.
    + now injection H.
    + injection H as _ H. destruct b; discriminate.
  - destruct b as [|y b]; simpl in H.
    + injection H as _ H. destruct a; discriminate.
    + injection H as _ H. now apply (IH b).
Qed.

Lemma rstrip_slash_no_trailing (s : string) :
  ~ ends_with "/" (PyStr.rstrip_slash s).
Proof.
  unfold PyStr.rstrip_slash. intros [pre H].
  destruct (rstrip_by_shape (Ascii.eqb "/"%char) s) as [E | [pre' [c [E Hc]]]].
  - rewrite E in H. destruct pre; discriminate.
  - rewrite E in H. apply append_last_char in H. subst c.
    rewrite Ascii.eqb_refl in Hc. discriminate.
Qed.

Lemma file_entries_sound (p : string) (contents : list s3_object) :
  Forall (entry_of_listing p contents) (file_entries p contents)
  /\ (List.length (file_entries p contents) <= List.length contents)%nat.
Proof.
  induction contents as [|o rest [IH IHlen]]; simpl.
  - split; [constructor | lia].
  - assert (Hweak : Forall (entry_of_listing p (o :: rest)) (file_entries p rest)).
    { eapply Forall_impl; [|exact IH].
      intros f (H1 & H2 & H3 & o' & Hin & Ho). repeat split; try assumption.
      exists o'. split; [now right | exact Ho]. }
    destruct (String.eqb_spec (Key o) p) as [Heq | Hne]; [split; [exact Hweak | lia]|].
    destruct (PyStr.contains "/" (PyStr.slice_from (PyStr.len p) (Key o))) eqn:Hc; simpl.
    + split; [exact Hweak | lia].
    + split; [|lia]. constructor; [|exact Hweak].
      repeat split; simpl; try assumption; try reflexivity.
      * rewrite <- contains_iff. congruence.
      * exists o. repeat split. now left.
Qed.

(** X14.  [POST /list_bucket] answers 500 with the message of the
    exception when the storage call raises, and 200 otherwise.  Whatever
    the listing holds, the answer has one folder per common prefix, with
    no name ending in ['/'], and its files are objects of the listing,
    never the prefix itself and never an object further down: each name
    is the key without the prefix and holds no ['/']. *)
Theorem list_bucket_sound
    (list_objects_v2 : option string -> string -> result list_response)
    (data : request) :
  let p := normalize_prefix (get_default (r_prefix data) "") in
  match list_objects_v2 (r_bucket data) p with
  | Raise e => list_bucket list_objects_v2 data = error_response 500 e
  | Ok resp =>
      exists folders files,
        list_bucket list_objects_v2 data
        = mk_response 200
          (JObj [("folders",
                 JArr (map (fun name => JObj [("name", JStr name)]) folders));
                ("files",
                 JArr (map (fun f => JObj [("name", JStr (fe_name f));
                                           ("key", JStr (fe_key f));
                                           ("size", JInt (fe_size f));
                                           ("lastModified", JStr (fe_lastModified f))])
                           files))])
        /\ List.length folders = List.length (CommonPrefixes resp)
        /\ Forall (fun name => ~ ends_with "/" name) folders
        /\ (List.length files <= List.length (Contents resp))%nat
        /\ Forall (entry_of_listing p (Contents resp)) files
  end.
Proof.
  intros p. unfold list_bucket. fold p.
  destruct (list_objects_v2 (r_bucket data) p) as [resp | e]; [|reflexivity].
  exists (folder_names p resp), (file_entries p (Contents resp)).
  destruct (file_entries_sound p (Contents resp)) as [Hf Hlen].
  split; [reflexivity | split; [|split; [|split; assumption]]].
  - unfold folder_names. apply length_map.
  - unfold folder_names. apply Forall_map, Forall_forall.
    intros cp _. apply rstrip_slash_no_trailing.
Qed.

Lemma normalize_prefix_shape (q : string) :
  normalize_prefix q = "" \/ ends_with "/" (normalize_prefix q).
Proof.
  unfold normalize_prefix. destruct (PyStr.endswith "/" q) eqn:He.
  - rewrite andb_false_r. right. now apply endswith_iff.
  - rewrite andb_true_r. destruct q; [now left|]. right. now eexists.
Qed.

Lemma normalize_prefix_idempotent (q : string) :
  normalize_prefix (normalize_prefix q) = normalize_prefix q.
Proof.
  destruct (normalize_prefix_shape q) as [H | H].
  - now rewrite H.
  - apply endswith_iff in H. unfold normalize_prefix at 1.
    now rewrite H, andb_false_r.
Qed.

(** X15.  The prefix [POST /list_bucket] lists under is empty or ends in
    ['/'], and normalising it again changes nothing: a request for a
    prefix and a request for that prefix with the ['/'] already appended
    receive the same answer, as do a request without a prefix and one
    for the empty prefix. *)
Theorem list_bucket_trailing_slash
    (list_objects_v2 : option string -> string -> result list_response)
    (bucket : option string) (q : string) :
  (normalize_prefix q = "" \/ ends_with "/" (normalize_prefix q))
  /\ normalize_prefix (normalize_prefix q) = normalize_prefix q
  /\ list_bucket list_objects_v2 (list_request bucket (Some (normalize_prefix q)))
     = list_bucket list_objects_v2 (list_request bucket (Some q))
  /\ list_bucket list_objects_v2 (list_request bucket None)
     = list_bucket list_objects_v2 (list_request bucket (Some "")).
Proof.
  split; [apply normalize_prefix_shape | split; [apply normalize_prefix_idempotent|]].
  split; [|reflexivity].
  unfold list_bucket, list_request. cbn [r_prefix r_bucket get_default].
  now rewrite normalize_prefix_idempotent.
Qed.







(** A key whose last segment holds a line break is answered with 500,
    any other key of the sample store with the file. *)
Example download_samples :
  download_file sample_get_object newline_refusal
                (mk_download_request (Some "bucket") (Some ("s/a" ++ lf ++ "b.txt")))
  = DownloadFailed (error_response 500 newline_refusal)
  /\ download_file sample_get_object newline_refusal
                   (mk_download_request (Some "bucket") (Some "s/a.txt"))
     = FileResponse "body" "text/plain"
                    [("Content-Disposition", "attachment; filename=a.txt")].
Proof. split; reflexivity. Qed.

(** ** What the conversion and summarization workers write *)

Lemma fold_left_prefix_invariant {A B : Type} (P : list B -> A -> Prop)
    (f : A -> B -> A) (l : list B) (a : A) :
  (forall done b x, P done x -> P (done ++ [b])%list (f x b)) ->
  P [] a -> P l (fold_left f l a).
Proof.
  intros Hstep Ha.
  assert (H : forall done x, P done x -> P (done ++ l)%list (fold_left f l x)).
  { induction l as [|b l IH]; simpl; intros done x Hx.
    - now rewrite app_nil_r.
    - replace (done ++ b :: l)%list with ((done ++ [b]) ++ l)%list
        by (now rewrite <- app_assoc).
      apply IH, Hstep, Hx. }
  exact (H [] a Ha).
Qed.

Lemma converted_article_more (s3 : s3_env) (keys : list string) (k key : string)
    (data : json_doc) :
  converted_article s3 keys key data -> converted_article s3 (keys ++ [k]) key data.
Proof.
  intros (Hin & H). split; [apply in_or_app; now left | exact H].
Qed.

Lemma converted_article_last (s3 : s3_env) (keys : list string) (k key : string)
    (data : json_doc) :
  converted_article s3 (keys ++ [k]) key data ->
  converted_article s3 keys key data
  \/ (key = k /\ converted_article s3 [k] k data).
Proof.
  intros (Hin & H). apply in_app_or in Hin as [Hin | [-> | []]].
  - left. now split.
  - right. split; [reflexivity|]. split; [now left | exact H].
Qed.

Lemma convert_object_progress clock s3 w0 n0 keys key (acc : Z * world) :
  conversion_progress s3 w0 n0 keys acc ->
  conversion_progress s3 w0 n0 (keys ++ [key]) (convert_object clock s3 key acc).
Proof.
  destruct acc as [n w]. intros (Hst & new & Hp & Hn & Hall & Hcov).
  simpl in Hst, Hp, Hn.
  assert (Hmore : Forall (text_put s3 (keys ++ [key])) new).
  { eapply Forall_impl; [|exact Hall].
    intros p (k & d & Hc & ->). exists k, d. split; [|reflexivity].
    now apply converted_article_more. }
  assert (Hskip : (forall data, ~ converted_article s3 [key] key data) ->
                  forall w1, puts w1 = puts w ->
                    conversion_stats (globals w1) = conversion_stats (globals w) ->
                    conversion_progress s3 w0 n0 (keys ++ [key]) (n, w1)).
  { intros Hno w1 H1 H2. split; [simpl; congruence|]. exists new. simpl.
    rewrite H1. repeat split; try assumption.
    intros k d Hc. apply converted_article_last in Hc as [Hc | [-> Hc]].
    - now apply Hcov.
    - now destruct (Hno d). }
  unfold convert_object.
  destruct (PyStr.endswith ".json" key && negb (PyStr.endswith "_summary.json" key))%bool
    eqn:Hkey.
  - apply andb_true_iff in Hkey as [Hk1 Hk2]. apply negb_true_iff in Hk2.
    destruct (s3_get_json s3 S3_BUCKET_NAME key) as [data|e] eqn:Hget.
    + fold (article_text data). fold (text_object key data).
      destruct (PyStr.truthy (article_text data)) eqn:Ht.
      * destruct (s3_put_object s3 (text_object key data)) as [[]|e] eqn:Hput.
        -- assert (Hconv : converted_article s3 (keys ++ [key]) key data).
           { split; [apply in_or_app; right; now left|].
             repeat split; try assumption.
             intros E. rewrite E in Ht. discriminate. }
           split; [exact Hst|].
           exists (new ++ [text_object key data])%list. simpl in *.
           rewrite Hp, <- app_assoc. split; [reflexivity | split; [|split]].
           ++ rewrite length_app. simpl. lia.
           ++ apply Forall_app. split; [exact Hmore|].
              constructor; [|constructor]. now exists key, data.
           ++ intros k d Hc. apply in_or_app.
              apply converted_article_last in Hc as [Hc | [-> Hc]].
              ** left. now apply Hcov.
              ** right. left. destruct Hc as (_ & _ & _ & Hg & _).
                 congruence.
        -- apply Hskip; try reflexivity.
           intros d (_ & _ & _ & Hg & _ & Hput'). congruence.
      * apply Hskip; try reflexivity.
        intros d (_ & _ & _ & Hg & Hne & _).
        assert (d = data) by congruence. subst d.
        destruct (article_text data); [congruence | discriminate].
    + apply Hskip; try reflexivity.
      intros d (_ & _ & _ & Hg & _). congruence.
  - apply Hskip; try reflexivity.
    intros d (_ & H1 & H2 & _). rewrite H1, H2 in Hkey. discriminate.
Qed.

Lemma convert_pages_progress clock s3 w0 n0 pages (acc : Z * world) :
  conversion_progress s3 w0 n0 [] acc ->
  conversion_progress s3 w0 n0 (map Key (List.concat pages))
                      (convert_pages clock s3 pages acc).
Proof.
  intros H. unfold convert_pages.
  apply (fold_left_prefix_invariant
           (fun done a => conversion_progress s3 w0 n0 (map Key (List.concat done)) a));
    [|exact H].
  intros done page x Hx. rewrite concat_app. simpl. rewrite app_nil_r.
  apply (fold_left_prefix_invariant
           (fun objs a =>
              conversion_progress s3 w0 n0 (map Key (List.concat done ++ objs)) a)).
  - intros objs obj y Hy. rewrite app_assoc, map_app. simpl.
    now apply convert_object_progress.
  - now rewrite app_nil_r.
Qed.

(** X17.  The conversion worker writes exactly the text objects of the
    converted articles of the listing: every object it writes goes to
    the text bucket as plain text, under the key of a listed [.json]
    article that is not a summary with [.json] replaced by [.txt], and
    holds the title, author, date and text of that article; and every
    listed article that can be read, holds text and is accepted by the
    store has its object written.  When the run completes,
    [filesConverted] is the number of objects written; when an exception
    escapes, the objects already written stay, the error is recorded and
    [filesConverted] keeps its value. *)
Theorem conversion_writes clock s3 src w :
  let '(_, exn) := conversion_body clock s3 src w in
  let w' := _run_conversion clock s3 src w in
  let keys := listed_keys s3 src in
  exists new,
    puts w' = (puts w ++ new)%list
    /\ Forall (text_put s3 keys) new
    /\ (forall key data, converted_article s3 keys key data ->
                         In (text_object key data) new)
    /\ match exn with
       | None =>
           cv_filesConverted (conversion_stats (globals w'))
           = Some (Z.of_nat (List.length new))
           /\ cv_completed (conversion_stats (globals w')) = true
       | Some e =>
           cv_filesConverted (conversion_stats (globals w'))
           = cv_filesConverted (conversion_stats (globals w))
           /\ cv_completed (conversion_stats (globals w'))
              = cv_completed (conversion_stats (globals w))
           /\ cv_error (conversion_stats (globals w')) = Some e
       end.
Proof.
  unfold _run_conversion, conversion_body, listed_keys.
  destruct (s3_client s3).
  - destruct (s3_paginate s3 _ _) as [pages failure]. cbn [fst].
    match goal with |- context [convert_pages clock s3 pages (0, ?w2)] =>
      pose proof (convert_pages_progress clock s3 w2 0 pages (0, w2)) as Hp;
      destruct (convert_pages clock s3 pages (0, w2)) as [n w3] end.
    destruct Hp as (Hst & new & Hp & Hn & Hall & Hcov).
    { split; [reflexivity|]. exists []. rewrite app_nil_r.
      repeat split; [constructor|]. intros k d ([] & _). }
    simpl in Hst, Hp, Hn.
    destruct failure; simpl; exists new;
      (split; [exact Hp | split; [exact Hall | split; [exact Hcov|]]]).
    + rewrite Hst. repeat split.
    + rewrite Hn. repeat split.
  - simpl. exists []. rewrite app_nil_r.
    repeat split; [constructor|]. intros k d ([] & _).
Qed.

Lemma count_puts_app (ty : string) (a b : list s3_put) :
  count_puts ty (a ++ b) = count_puts ty a + count_puts ty b.
Proof. unfold count_puts. rewrite filter_app, length_app. lia. Qed.

Lemma summarize_object_progress clock s3 ai w0 key (acc : Z * Z * world) :
  summarization_progress w0 acc ->
  summarization_progress w0 (summarize_object clock s3 ai key acc).
Proof.
  destruct acc as [[n m] w]. intros (Hst & new & Hp & Hn & Hm & Hall).
  simpl in Hst, Hp, Hn, Hm.
  assert (Hsame : forall w1, puts w1 = puts w ->
            summarization_stats (globals w1) = summarization_stats (globals w) ->
            summarization_progress w0 (n, m, w1)).
  { intros w1 H1 H2. split; [simpl; congruence|]. exists new. simpl.
    rewrite H1. repeat split; assumption. }
  unfold summarize_object.
  destruct (PyStr.endswith ".json" key && negb (PyStr.endswith "_summary.json" key))%bool.
  - destruct (s3_get_json s3 S3_BUCKET_NAME key) as [data|e];
      [|now apply Hsame].
    destruct (PyStr.truthy _ && _)%bool; [|now apply Hsame].
    destruct (ai_text_summarizer ai _) as [summary|e]; [|now apply Hsame].
    destruct (s3_put_object s3 _); [|now apply Hsame].
    split; [exact Hst|]. eexists (new ++ [_])%list. simpl in *.
    rewrite Hp, <- app_assoc. split; [reflexivity|].
    rewrite !count_puts_app. unfold count_puts at 2 4. simpl.
    split; [lia | split; [lia|]].
    apply Forall_app. split; [exact Hall|]. constructor; [|constructor].
    repeat split. eexists _, _, _. split; [reflexivity | now left].
  - destruct (is_image_key key); [|now apply Hsame].
    destruct (ai_caption ai key) as [caption|e]; [|now apply Hsame].
    destruct (s3_put_object s3 _); [|now apply Hsame].
    split; [exact Hst|]. eexists (new ++ [_])%list. simpl in *.
    rewrite Hp, <- app_assoc. split; [reflexivity|].
    rewrite !count_puts_app. unfold count_puts at 2 4. simpl.
    split; [lia | split; [lia|]].
    apply Forall_app. split; [exact Hall|]. constructor; [|constructor].
    repeat split. eexists _, _, _. split; [reflexivity | now right].
Qed.

Lemma summarize_pages_progress clock s3 ai w0 pages (acc : Z * Z * world) :
  summarization_progress w0 acc ->
  summarization_progress w0 (summarize_pages clock s3 ai pages acc).
Proof.
  intros H. unfold summarize_pages.
  apply (fold_left_invariant (summarization_progress w0)); [|exact H].
  intros x page Hx.
  apply (fold_left_invariant (summarization_progress w0)); [|exact Hx].
  intros y obj Hy. now apply summarize_object_progress.
Qed.

Lemma load_models_puts clock ai w :
  puts (fst (load_models clock ai w)) = puts w
  /\ summarization_stats (globals (fst (load_models clock ai w)))
     = summarization_stats (globals w).
Proof. unfold load_models. repeat break_match; split; reflexivity. Qed.

(** X18.  The summarization worker writes only JSON documents with the
    keys filename, summary_type and summary to the summary bucket.  When
    the run completes, [textSummaries] and [imageSummaries] are the
    numbers of documents written with summary type text and image; when
    an exception escapes, the documents already written stay and the two
    counts keep their values. *)
Theorem summarization_writes clock s3 ai src w :
  let '(_, exn) := summarization_body clock s3 ai src w in
  let w' := _run_summarization clock s3 ai src w in
  exists new,
    puts w' = (puts w ++ new)%list
    /\ Forall summary_put new
    /\ count_puts "text" new + count_puts "image" new = Z.of_nat (List.length new)
    /\ match exn with
       | None =>
           sm_textSummaries (summarization_stats (globals w'))
           = count_puts "text" new
           /\ sm_imageSummaries (summarization_stats (globals w'))
              = count_puts "image" new
       | Some e =>
           sm_textSummaries (summarization_stats (globals w'))
           = sm_textSummaries (summarization_stats (globals w))
           /\ sm_imageSummaries (summarization_stats (globals w'))
              = sm_imageSummaries (summarization_stats (globals w))
           /\ sm_error (summarization_stats (globals w')) = Some e
       end.
Proof.
  assert (Hcount : forall ps, Forall summary_put ps ->
             count_puts "text" ps + count_puts "image" ps
             = Z.of_nat (List.length ps)).
  { induction 1 as [|p ps (_ & _ & fname & ty & summary & Hb & Hty) _ IH].
    - reflexivity.
    - change (p :: ps) with ([p] ++ ps)%list.
      rewrite !count_puts_app, length_app, Nat2Z.inj_add, <- IH.
      assert (H1 : count_puts "text" [p] + count_puts "image" [p] = 1).
      { unfold count_puts, summary_type_of. cbn [filter]. rewrite Hb.
        destruct Hty as [-> | ->]; reflexivity. }
      change (Z.of_nat (List.length [p])) with 1. lia. }
  unfold _run_summarization, summarization_body.
  destruct (s3_client s3).
  - match goal with |- context [load_models clock ai ?w0] =>
      pose proof (load_models_puts clock ai w0) as (Hlp & Hls);
      destruct (load_models clock ai w0) as [w3 [e|]] end; simpl in Hlp, Hls.
    + simpl. rewrite Hlp, Hls. exists []. rewrite app_nil_r.
      repeat split. constructor.
    + destruct (s3_paginate s3 _ _) as [pages failure].
      pose proof (summarize_pages_progress clock s3 ai w3 pages (0, 0, w3)) as Hp.
      destruct (summarize_pages clock s3 ai pages (0, 0, w3)) as [[n m] w4].
      destruct Hp as (Hst & new & Hp & Hn & Hm & Hall).
      { split; [reflexivity|]. exists []. rewrite app_nil_r.
        repeat split. constructor. }
      simpl in Hst, Hp, Hn, Hm.
      destruct failure; simpl; exists new; rewrite Hp, Hlp;
        (split; [reflexivity | split; [exact Hall | split; [now apply Hcount|]]]).
      * rewrite Hst, Hls. repeat split.
      * rewrite Hn, Hm. repeat split.
  - simpl. exists []. rewrite app_nil_r. repeat split. constructor.
Qed.

(** ** The classifier and the statistics miner *)

Lemma map_chars_append (f : ascii -> ascii) (a b : string) :
  PyStr.map_chars f (a ++ b) = PyStr.map_chars f a ++ PyStr.map_chars f b.
Proof. induction a as [|c a IH]; simpl; [reflexivity | now rewrite IH]. Qed.

Lemma occurs_lower (w s : string) :
  occurs w s -> occurs (PyStr.lower w) (PyStr.lower s).
Proof.
  intros [pre [post ->]]. exists (PyStr.lower pre), (PyStr.lower post).
  unfold PyStr.lower. now rewrite !map_chars_append.
Qed.

Lemma occurs_prefix (a b s : string) : occurs (a ++ b) s -> occurs a s.
Proof.
  intros [pre [post ->]]. exists pre, (b ++ post). now rewrite append_assoc.
Qed.

Lemma lower_upper_char (c : ascii) :
  PyStr.lower_char (PyStr.upper_char c) = PyStr.lower_char c.
Proof. destruct c as [[] [] [] [] [] [] [] []]; reflexivity. Qed.

Lemma lower_lower_char (c : ascii) :
  PyStr.lower_char (PyStr.lower_char c) = PyStr.lower_char c.
Proof. destruct c as [[] [] [] [] [] [] [] []]; reflexivity. Qed.

Lemma lower_upper (s : string) : PyStr.lower (PyStr.upper s) = PyStr.lower s.
Proof.
  unfold PyStr.lower, PyStr.upper.
  induction s as [|c s IH]; simpl; [reflexivity | now rewrite IH, lower_upper_char].
Qed.

Lemma lower_idempotent (s : string) : PyStr.lower (PyStr.lower s) = PyStr.lower s.
Proof.
  unfold PyStr.lower.
  induction s as [|c s IH]; simpl; [reflexivity | now rewrite IH, lower_lower_char].
Qed.

Lemma marked_has_success_word (line : string) :
  marked line = true -> any_in SUCCESS_WORDS (PyStr.lower line) = true.
Proof.
  unfold marked, is_article_line, is_image_line, is_complete_line.
  rewrite !orb_true_iff, !andb_true_iff, !contains_iff. intros H.
  apply any_in_iff. unfold SUCCESS_WORDS.
  destruct H as [[[H _] | [H _]] | H].
  - exists "saved". split; [simpl; tauto|].
    apply occurs_lower in H. now apply (occurs_prefix "saved" ":").
  - exists "success". split; [simpl; tauto|].
    apply occurs_lower in H. now apply (occurs_prefix "success" ": saved").
  - exists "complete". split; [simpl; tauto|].
    apply occurs_lower in H. now rewrite lower_upper in H.
Qed.

(** X19.  Every line that moves the statistics (an article line, an
    image line or a COMPLETE line) is logged as success, or as error when
    it also holds one of the words error, failed, exception; it is never
    logged as warning or info. *)
Theorem marked_lines_tagged (line : string) :
  marked line = true ->
  _classify_log_line line
  = (if any_in ERROR_WORDS (PyStr.lower line) then "error" else "success").
Proof.
  intros H. unfold _classify_log_line.
  now rewrite (marked_has_success_word line H).
Qed.

Lemma lower_char_not_capital_S (c : ascii) :
  Ascii.eqb "S"%char (PyStr.lower_char c) = false.
Proof. destruct c as [[] [] [] [] [] [] [] []]; reflexivity. Qed.

Lemma no_capital_S_in_lower (w s : string) :
  PyStr.contains (String "S"%char w) (PyStr.lower s) = false.
Proof.
  unfold PyStr.lower. induction s as [|c s IH]; [reflexivity|].
  cbn [PyStr.map_chars PyStr.contains PyStr.startswith].
  now rewrite lower_char_not_capital_S, IH.
Qed.

(** X20.  Counting is case-sensitive although classification is not: the
    lowercased form of any line receives the same severity tag as the
    line, but is never counted as a saved article or a saved image. *)
Theorem counting_is_case_sensitive (line : string) :
  _classify_log_line (PyStr.lower line) = _classify_log_line line
  /\ is_article_line (PyStr.lower line) = false
  /\ is_image_line (PyStr.lower line) = false
  /\ is_complete_line (PyStr.lower line) = is_complete_line line.
Proof.
  split; [|split; [|split]].
  - unfold _classify_log_line. now rewrite lower_idempotent.
  - unfold is_article_line. now rewrite no_capital_S_in_lower.
  - unfold is_image_line. now rewrite no_capital_S_in_lower.
  - unfold is_complete_line. f_equal.
    unfold PyStr.upper, PyStr.lower.
    induction line as [|c s IH]; simpl; [reflexivity|]. rewrite IH. f_equal.
    destruct c as [[] [] [] [] [] [] [] []]; reflexivity.
Qed.

(** ** Status reports *)

Lemma log_json_inj (a b : log_entry) : log_json a = log_json b -> a = b.
Proof. destruct a, b. unfold log_json. simpl. intros H. now injection H as -> -> ->. Qed.

Lemma map_log_json_inj (l1 l2 : list log_entry) :
  map log_json l1 = map log_json l2 -> l1 = l2.
Proof.
  revert l2. induction l1 as [|a l1 IH]; intros [|b l2] H; cbn [map] in H;
    try discriminate; [reflexivity|].
  pose proof (f_equal (hd JNull) H) as Hab. pose proof (f_equal (@tl json) H) as Hl.
  cbn [hd tl] in Hab, Hl. apply log_json_inj in Hab. apply IH in Hl. now subst.
Qed.

Lemma opt_str_json_inj (a b : option string) :
  opt_str_json a = opt_str_json b -> a = b.
Proof. destruct a, b; simpl; intros H; try discriminate; congruence. Qed.

(** X21.  The status endpoints report everything they read: two states
    receive the same answer from [GET /get_status] exactly when they
    agree on the scrape flag, log buffer and statistics, and likewise for
    [GET /conversion_status] and [GET /summarization_status] (which do
    not report their active flag). *)
Theorem status_reports_faithful (st1 st2 : server_state) :
  (get_status st1 = get_status st2 <->
   scraping_active st1 = scraping_active st2
   /\ all_logs st1 = all_logs st2
   /\ scraping_stats st1 = scraping_stats st2)
  /\ (conversion_status st1 = conversion_status st2 <->
      conversion_logs st1 = conversion_logs st2
      /\ conversion_stats st1 = conversion_stats st2)
  /\ (summarization_status st1 = summarization_status st2 <->
      summarization_logs st1 = summarization_logs st2
      /\ summarization_stats st1 = summarization_stats st2).
Proof.
  split; [|split]; split.
  - unfold get_status. intros H.
    destruct (scraping_stats st1), (scraping_stats st2). simpl in H.
    injection H as Ha Hl H1 H2 H3 H4 H5 H6.
    apply map_log_json_inj in Hl. apply opt_str_json_inj in H6.
    now subst.
  - intros (Ha & Hl & Hs). unfold get_status. now rewrite Ha, Hl, Hs.
  - unfold conversion_status. intros H.
    destruct (conversion_stats st1) as [c1 e1 t1 f1],
             (conversion_stats st2) as [c2 e2 t2 f2]. simpl in H.
    destruct f1, f2; simpl in H; try discriminate;
      injection H as Hl; intros; 
      repeat match goal with
             | X : map log_json _ = map log_json _ |- _ => apply map_log_json_inj in X
             | X : opt_str_json _ = opt_str_json _ |- _ => apply opt_str_json_inj in X
             end; subst; split; congruence.
  - intros (Hl & Hs). unfold conversion_status. now rewrite Hl, Hs.
  - unfold summarization_status. intros H.
    destruct (summarization_stats st1), (summarization_stats st2). simpl in H.
    injection H as Hl H1 H2 H3 H4 H5 H6.
    apply map_log_json_inj in Hl. apply opt_str_json_inj in H2.
    apply opt_str_json_inj in H3. now subst.
  - intros (Hl & Hs). unfold summarization_status. now rewrite Hl, Hs.
Qed.

(** ** Naming of the objects written *)

Lemma string_length_append (a b : string) :
  String.length (a ++ b) = (String.length a + String.length b)%nat.
Proof. induction a as [|c a IH]; simpl; [reflexivity | now rewrite IH]. Qed.

Lemma append_inv_tail (a b c : string) : a ++ c = b ++ c -> a = b.
Proof.
  intros H.
  assert (Hlen : String.length a = String.length b).
  { apply (f_equal String.length) in H. rewrite !string_length_append in H. lia. }
  revert b H Hlen. induction a as [|x a IH]; intros [|y b] H Hlen;
    simpl in Hlen; try discriminate; [reflexivity|].
  simpl in H. injection H as -> H. f_equal.
  apply IH; [exact H | now injection Hlen].
Qed.

Lemma contains_cons_false (w : string) (c : ascii) (s : string) :
  PyStr.contains w (String c s) = false ->
  PyStr.startswith w (String c s) = false /\ PyStr.contains w s = false.
Proof.
  intros H. change (PyStr.contains w (String c s))
    with (PyStr.startswith w (String c s) || PyStr.contains w s)%bool in H.
  now apply orb_false_iff in H.
Qed.

Lemma replace_json_suffix (new base : string) :
  PyStr.contains "." base = false ->
  PyStr.replace ".json" new (base ++ ".json") = base ++ new.
Proof.
  unfold PyStr.replace. induction base as [|c base IH]; intros H.
  - simpl. now rewrite append_empty_r.
  - apply contains_cons_false in H as [Hs Hc].
    cbn [PyStr.startswith] in Hs. rewrite andb_true_r in Hs.
    cbn [append PyStr.replace_go PyStr.startswith]. rewrite Hs. cbn [andb].
    now rewrite IH.
Qed.

Lemma json_key_eligible (base : string) :
  ~ ends_with "_summary" base ->
  (PyStr.endswith ".json" (base ++ ".json")
   && negb (PyStr.endswith "_summary.json" (base ++ ".json")))%bool = true.
Proof.
  intros H. apply andb_true_iff. split.
  - apply endswith_iff. now exists base.
  - apply negb_true_iff. destruct (PyStr.endswith _ _) eqn:E; [|reflexivity].
    exfalso. apply H. apply endswith_iff in E as [pre E]. exists pre.
    apply (append_inv_tail _ _ ".json"). rewrite E, append_assoc. reflexivity.
Qed.

(** X22.  For an article stored under [base.json], where [base] holds no
    ['.'] and does not end in [_summary], that has text and whose write
    succeeds, the conversion worker writes one plain-text object under
    [base.txt] in the text bucket, counts it, and logs the conversion as
    success.  An article without text is skipped with a warning, and
    nothing is written or counted. *)
Theorem convert_article clock s3 (base : string) (data : json_doc) (n : Z) (w : world) :
  PyStr.contains "." base = false ->
  ~ ends_with "_summary" base ->
  s3_get_json s3 S3_BUCKET_NAME (base ++ ".json") = Ok data ->
  (forall p, put_key p = base ++ ".txt" -> s3_put_object s3 p = Ok tt) ->
  let key := base ++ ".json" in
  if PyStr.truthy (article_text data) then
    exists text,
      let p := mk_s3_put S3_TEXT_BUCKET_NAME (base ++ ".txt") (TextBody text)
                         "text/plain" in
      convert_object clock s3 key (n, w)
      = (n + 1,
         log_conversion clock ("Converted: " ++ key ++ " -> " ++ base ++ ".txt")
                        "success" (record_put p w))
  else
    convert_object clock s3 key (n, w)
    = (n, log_conversion clock ("Skipped " ++ key ++ " (no text content)")
                         "warning" w).
Proof.
  intros Hdot Hsum Hget Hput key. subst key. unfold convert_object.
  rewrite (json_key_eligible base Hsum), Hget. fold (article_text data).
  destruct (PyStr.truthy (article_text data)); [|reflexivity].
  rewrite (replace_json_suffix ".txt" base Hdot).
  rewrite Hput by reflexivity. eexists. reflexivity.
Qed.

Lemma before_last_dot_stem (stem ext : string) :
  PyStr.contains "." ext = false ->
  PyStr.before_last_dot (stem ++ "." ++ ext) = stem.
Proof.
  intros H. change ("." ++ ext) with (String "."%char ext).
  induction stem as [|c stem IH].
  - cbn [append PyStr.before_last_dot]. rewrite H. reflexivity.
  - cbn [append PyStr.before_last_dot].
    assert (Hc : PyStr.contains "." (stem ++ String "."%char ext) = true)
      by (apply contains_iff; now exists stem, ext).
    rewrite Hc. f_equal. exact IH.
Qed.

(** X23.  For a picture stored under [stem.ext] ([ext] without ['.'],
    one of jpg, jpeg, png in any letter case) whose captioning and write
    succeed, the summarization worker logs the attempt, writes one JSON
    document under [stem_image_summary.json] in the summary bucket,
    naming the file by the part of the key after its last ['/'], counts
    one image summary and leaves the text count alone; when captioning
    raises, it logs the error and writes nothing. *)
Theorem caption_picture clock s3 ai (stem ext : string) (n m : Z) (w : world) :
  PyStr.contains "." ext = false ->
  let key := stem ++ "." ++ ext in
  (PyStr.endswith ".json" key && negb (PyStr.endswith "_summary.json" key))%bool = false ->
  is_image_key key = true ->
  (forall p, put_key p = stem ++ "_image_summary.json" -> s3_put_object s3 p = Ok tt) ->
  let w1 := log_summarization clock ("Captioning image: " ++ key) "info" w in
  match ai_caption ai key with
  | Ok caption =>
      let p := mk_s3_put S3_SUMMARY_BUCKET_NAME (stem ++ "_image_summary.json")
                 (JsonBody [("filename", PyStr.last_segment key);
                            ("summary_type", "image"); ("summary", caption)])
                 "application/json" in
      summarize_object clock s3 ai key (n, m, w)
      = (n, m + 1,
         log_summarization clock
           ("✓ Image caption saved: " ++ stem ++ "_image_summary.json") "success"
           (record_put p w1))
  | Raise e =>
      summarize_object clock s3 ai key (n, m, w)
      = (n, m, log_summarization clock ("Error captioning " ++ key ++ ": " ++ e)
                                 "error" w1)
  end.
Proof.
  intros Hext key Hjson Himg Hput w1. unfold summarize_object.
  fold key. rewrite Hjson, Himg.
  destruct (ai_caption ai key) as [caption|e]; [|reflexivity].
  assert (Hb : PyStr.before_last_dot key = stem)
    by (apply before_last_dot_stem; exact Hext).
  rewrite Hb. rewrite Hput by reflexivity. reflexivity.
Qed.

(** X24.  Progress 100 is final for the streaming loop: once a COMPLETE
    line (or anything else) has brought progress to 100, no later line
    changes it, whatever maxArticles is. *)
Theorem complete_is_final clock (evs : list proc_event) (self : job) (w : world) :
  progress_of w = 100 ->
  progress_of (snd (fst (stream_output clock evs self w))) = 100.
Proof.
  intros H.
  pose proof (stream_output_monotone clock evs self w ltac:(lia)). lia.
Qed.

Lemma complete_is_final_witness :
  progress_of (with_stats (set_progress 100) sample_world) = 100
  /\ progress_of
       (snd (fst (stream_output midnight
                    [StdoutLine "SAVED: a/article.json"; StdoutLine "Scrape complete"]
                    sample_job (with_stats (set_progress 100) sample_world))))
     = 100.
Proof.
  assert (H : progress_of (with_stats (set_progress 100) sample_world) = 100)
    by reflexivity.
  split; [exact H|].
  exact (complete_is_final midnight _ sample_job _ H).
Defined.

Lemma log_buffer_keeps_latest_witness :
  (List.length (log_buffer Convert initial_state) <= log_bound Convert)%nat
  /\ log_buffer Convert (append_logs Convert sample_entries initial_state)
     = lastn (log_bound Convert) (log_buffer Convert initial_state ++ sample_entries).
Proof.
  assert (H : (List.length (log_buffer Convert initial_state) <= log_bound Convert)%nat)
    by (simpl; lia).
  split; [exact H|].
  exact (log_buffer_keeps_latest Convert sample_entries initial_state H).
Defined.

Lemma reachable_logs_bounded_witness :
  reachable one_article_state /\ logs_bounded one_article_state.
Proof.
  assert (H : reachable one_article_state)
    by (apply reachable_line, reachable_initial).
  split; [exact H | exact (reachable_logs_bounded one_article_state H)].
Defined.

Lemma reachable_record_constants_witness :
  reachable (snd (fst (dispatch PostConvertToText 0 convert_request initial_state)))
  /\ record_constants
       (snd (fst (dispatch PostConvertToText 0 convert_request initial_state))).
Proof.
  assert (H : reachable
                (snd (fst (dispatch PostConvertToText 0 convert_request initial_state))))
    by (apply reachable_post, reachable_initial).
  split; [exact H | exact (reachable_record_constants _ H)].
Defined.

Lemma reachable_stats_in_range_witness :
  reachable (globals (run_scrape_thread midnight failing_script sample_job sample_world))
  /\ stats_in_range
       (scraping_stats
          (globals (run_scrape_thread midnight failing_script sample_job sample_world))).
Proof.
  assert (H : reachable
                (globals (run_scrape_thread midnight failing_script sample_job
                                            sample_world))).
  { apply (reachable_scrape midnight failing_script sample_job
                            (globals sample_world) 0 []).
    apply (reachable_post PostStartScraping 0 scrape_request initial_state).
    apply reachable_initial. }
  split; [exact H | exact (reachable_stats_in_range _ H)].
Defined.

Lemma counters_count_marked_lines_witness :
  exists w',
    stream_output midnight
      (map StdoutLine ["SAVED: a/article.json"; "   "; "SUCCESS: Saved a/image.jpg"])
      sample_job sample_world
    = (sample_job, w', None)
    /\ articlesFound (scraping_stats (globals w')) = 1
    /\ imagesFound (scraping_stats (globals w')) = 1.
Proof.
  destruct (counters_count_marked_lines midnight
              ["SAVED: a/article.json"; "   "; "SUCCESS: Saved a/image.jpg"]
              sample_job sample_world)
    as [w' (Hs & Ha & Hi & _)].
  - reflexivity.
  - reflexivity.
  - simpl. lia.
  - simpl. lia.
  - reflexivity.
  - reflexivity.
  - exists w'. split; [exact Hs | split; [exact Ha | exact Hi]].
Defined.

Lemma stop_request_fails_run_witness :
  In StopRequested [StdoutLine "SAVED: a/article.json"; StopRequested]
  /\ progress_of
       (snd (_run_scraping midnight
               (mk_proc_script (Ok tt)
                  [StdoutLine "SAVED: a/article.json"; StopRequested] 0)
               sample_job sample_world))
     = 0.
Proof.
  assert (H : In StopRequested [StdoutLine "SAVED: a/article.json"; StopRequested])
    by (right; left; reflexivity).
  split; [exact H|].
  exact (proj1 (stop_request_fails_run midnight
                  (mk_proc_script (Ok tt)
                     [StdoutLine "SAVED: a/article.json"; StopRequested] 0)
                  sample_job sample_world (or_intror H))).
Defined.

Lemma zero_max_articles_fails_witness :
  progress_of
    (snd (_run_scraping midnight
            (mk_proc_script (Ok tt) [StdoutLine "SAVED: a/article.json"] 0)
            (mk_job "http://example.org" 0 true "session_0") sample_world))
  = 0.
Proof.
  exact (proj1 (zero_max_articles_fails midnight "SAVED: a/article.json" [] 0
                  (mk_job "http://example.org" 0 true "session_0") sample_world
                  eq_refl eq_refl eq_refl)).
Defined.

Lemma one_job_per_kind_witness :
  accepted (dispatch PostConvertToText 0 convert_request initial_state)
  /\ exists resp,
       dispatch PostConvertToText 1 convert_request
                (snd (fst (dispatch PostConvertToText 0 convert_request initial_state)))
       = (resp,
          snd (fst (dispatch PostConvertToText 0 convert_request initial_state)),
          None)
       /\ status resp = 400.
Proof.
  destruct (one_job_per_kind PostConvertToText 0 1 convert_request convert_request
              initial_state) as (Ha & _ & _ & _ & Hr).
  - exists "session_0". split; [reflexivity | discriminate].
  - reflexivity.
  - split; [exact Ha | exact Hr].
Defined.

Lemma stop_then_start_witness :
  accepted (start_scraping 7 scrape_request (snd (fst (stop_scraping scraping_state)))).
Proof.
  refine (proj2 (proj2 (proj2 (proj2 (stop_then_start 7 scrape_request scraping_state
                                        _))))).
  exists "http://example.org". split; [reflexivity | discriminate].
Defined.

Lemma marked_lines_tagged_witness :
  marked "SUCCESS: Saved a/image.jpg" = true
  /\ _classify_log_line "SUCCESS: Saved a/image.jpg" = "success".
Proof.
  assert (H : marked "SUCCESS: Saved a/image.jpg" = true) by reflexivity.
  split; [exact H|].
  exact (marked_lines_tagged "SUCCESS: Saved a/image.jpg" H).
Defined.

Lemma convert_article_witness :
  exists text,
    convert_object midnight sample_s3 "s/a.json" (0, mk_world initial_state 0 [])
    = (1,
       log_conversion midnight "Converted: s/a.json -> s/a.txt" "success"
         (record_put (mk_s3_put S3_TEXT_BUCKET_NAME "s/a.txt" (TextBody text)
                                "text/plain")
                     (mk_world initial_state 0 []))).
Proof.
  refine (convert_article midnight sample_s3 "s/a" sample_doc 0
            (mk_world initial_state 0 []) eq_refl _ eq_refl (fun _ _ => eq_refl)).
  intros H. apply endswith_iff in H. discriminate H.
Defined.

Lemma caption_picture_witness :
  summarize_object midnight sample_s3 broken_ai "s/d.JPG"
                   (0, 0, mk_world initial_state 0 [])
  = (0, 1,
     log_summarization midnight "✓ Image caption saved: s/d_image_summary.json"
       "success"
       (record_put
          (mk_s3_put S3_SUMMARY_BUCKET_NAME "s/d_image_summary.json"
             (JsonBody [("filename", "d.JPG"); ("summary_type", "image");
                        ("summary", "caption")])
             "application/json")
          (log_summarization midnight "Captioning image: s/d.JPG" "info"
                             (mk_world initial_state 0 [])))).
Proof.
  exact (caption_picture midnight sample_s3 broken_ai "s/d" "JPG" 0 0
           (mk_world initial_state 0 []) eq_refl eq_refl eq_refl
           (fun _ _ => eq_refl)).
Defined.
